(** * TelegramMailBridge: mail ingestion, storage and routing pipeline

    A shallow embedding of the Python sources

      - [services/smtp_handler.py]     ([AdvancedSMTPHandler])
      - [core/redis_storage.py]        ([RedisStorage])
      - [core/dns_validator.py]        ([DNSSystemValidator])
      - [services/telegram_handler.py] ([set_target_command], the list,
        search and status commands)
      - [core/cf_dns_manager.py]       ([CloudflareDNSManager])
      - [main.py]                      ([TelegramMailBridge.shutdown])

    Python [str] values are modelled as [string]; the text operations used
    by the sources ([split], [strip], [lower], [in]) are written out on the
    ASCII range, where a Python code point and a byte of the model coincide.
    Python exceptions derived from [Exception] are values of [exn]; a
    function that may raise returns a [result].  The external services
    (the key-value server, the DNS resolver, the messaging transport) are
    state machines or oracles passed explicitly.  Calls to the logger change
    no value studied here and are left out. *)

From stdpp Require Import gmap strings list sorting pretty.
From Stdlib Require Import Ascii ZArith Lia.

Open Scope string_scope.

(** ** Exceptions and fallible computations *)

Record exn := Exn { exn_class : string; exn_msg : string }.

Inductive result (A : Type) : Type :=
| Ok (a : A)
| Raise (e : exn).
Arguments Ok {A} a.
Arguments Raise {A} e.

(** Continue with [k] on a value, propagate an exception. *)
Definition rbind {A B} (r : result A) (k : A → result B) : result B :=
  match r with
  | Ok a => k a
  | Raise e => Raise e
  end.

Definition rmap {A B} (f : A → B) (r : result A) : result B :=
  rbind r (fun a => Ok (f a)).

(** [try: r except Exception as e: h e] *)
Definition try_except {A} (r : result A) (h : exn → result A) : result A :=
  match r with
  | Ok a => Ok a
  | Raise e => h e
  end.

(** A computation over a mutable state [S] that may raise: the state
    reached when the exception is raised is kept, as a Python object
    mutated before a [raise] stays mutated. *)
Definition M (S A : Type) : Type := S → result A * S.

#[export] Instance M_ret {S} : MRet (M S) := fun A a s => (Ok a, s).

#[export] Instance M_bind {S} : MBind (M S) := fun A B k m s =>
  match m s with
  | (Ok a, s') => k a s'
  | (Raise e, s') => (Raise e, s')
  end.

Definition lift {S A} (r : result A) : M S A := fun s => (r, s).
Definition get {S} : M S S := fun s => (Ok s, s).
Definition modify {S} (f : S → S) : M S unit := fun s => (Ok tt, f s).
Definition raise {S A} (e : exn) : M S A := fun s => (Raise e, s).

(** [try: m except Exception as e: h e], over a state *)
Definition try_catch {S A} (m : M S A) (h : exn → M S A) : M S A := fun s =>
  match m s with
  | (Ok a, s') => (Ok a, s')
  | (Raise e, s') => h e s'
  end.

(** ** Python text operations *)
Module PyStr.

Definition code (a : ascii) : N := N_of_ascii a.

(** [str.isspace] on the ASCII range: TAB, LF, VT, FF, CR, the four
    separators FS, GS, RS, US, and the space. *)
Definition is_space (a : ascii) : bool :=
  let c := code a in
  ((9 <=? c) && (c <=? 13) || (28 <=? c) && (c <=? 32))%N.

Definition lower_char (a : ascii) : ascii :=
  let c := code a in
  if ((65 <=? c) && (c <=? 90))%N then ascii_of_N (c + 32) else a.

(** [s.lower()] *)
Fixpoint lower (s : string) : string :=
  match s with
  | EmptyString => EmptyString
  | String a s' => String (lower_char a) (lower s')
  end.

(** [s.lstrip(chars)], the characters to drop given as a predicate *)
Fixpoint lstrip_by (p : ascii → bool) (s : string) : string :=
  match s with
  | EmptyString => EmptyString
  | String a s' => if p a then lstrip_by p s' else s
  end.

(** [s.rstrip(chars)] *)
Fixpoint rstrip_by (p : ascii → bool) (s : string) : string :=
  match s with
  | EmptyString => EmptyString
  | String a s' =>
      match rstrip_by p s' with
      | EmptyString => if p a then EmptyString else String a EmptyString
      | r => String a r
      end
  end.

Definition strip_by (p : ascii → bool) (s : string) : string :=
  rstrip_by p (lstrip_by p s).

(** [s.strip()]: whitespace on both ends *)
Definition strip (s : string) : string := strip_by is_space s.

(** [s.rstrip(c)] and [s.strip(c)] for a one-character [c] *)
Definition rstrip_char (c : ascii) (s : string) : string :=
  rstrip_by (Ascii.eqb c) s.
Definition strip_char (c : ascii) (s : string) : string :=
  strip_by (Ascii.eqb c) s.

(** [c in s] for a one-character [c] *)
Fixpoint contains (c : ascii) (s : string) : bool :=
  match s with
  | EmptyString => false
  | String a s' => if Ascii.eqb a c then true else contains c s'
  end.

(** [s.split(c)] for a one-character separator: always at least one
    field, empty fields kept. *)
Fixpoint split (c : ascii) (s : string) : list string :=
  match s with
  | EmptyString => [EmptyString]
  | String a s' =>
      if Ascii.eqb a c then EmptyString :: split c s'
      else match split c s' with
           | f :: fs => String a f :: fs
           | [] => [String a EmptyString]
           end
  end.

(** [l[i]]: an [IndexError] out of range (non-negative [i]). *)
Definition index {A} (l : list A) (i : nat) : result A :=
  match l !! i with
  | Some x => Ok x
  | None => Raise (Exn "IndexError" "list index out of range")
  end.

(** [s[:n]] for a non-negative [n] *)
Fixpoint prefix (n : nat) (s : string) : string :=
  match n, s with
  | S n', String a s' => String a (prefix n' s')
  | _, _ => EmptyString
  end.

(** Truth value of a string: [bool(s)] *)
Definition truthy (s : string) : bool :=
  match s with EmptyString => false | _ => true end.

(** Truth value of [None] or a string *)
Definition truthy_opt (o : option string) : bool :=
  match o with Some s => truthy s | None => false end.

(** [sep.join(fields)] *)
Fixpoint join (sep : string) (fields : list string) : string :=
  match fields with
  | [] => EmptyString
  | [f] => f
  | f :: fs => f ++ sep ++ join sep fs
  end.

Definition newline : string := String "010"%char EmptyString.
Definition dquote : ascii := "034"%char.

(** The text after the first occurrence of [c] (empty when there is none). *)
Fixpoint after_first (c : ascii) (s : string) : string :=
  match s with
  | EmptyString => EmptyString
  | String a s' => if Ascii.eqb a c then s' else after_first c s'
  end.

(** The text before the first occurrence of [c] (all of it when there is
    none). *)
Fixpoint before_first (c : ascii) (s : string) : string :=
  match s with
  | EmptyString => EmptyString
  | String a s' => if Ascii.eqb a c then EmptyString else String a (before_first c s')
  end.

Lemma split_nonempty c s : split c s ≠ [].
Proof.
  destruct s as [|a s]; simpl; [done|].
  destruct (Ascii.eqb a c); [done|].
  by destruct (split c s).
Qed.

Lemma split_head c s : head (split c s) = Some (before_first c s).
Proof.
  induction s as [|a s IH]; simpl; [done|].
  destruct (Ascii.eqb a c); [done|].
  destruct (split c s) as [|f fs]; simpl in *; [done|].
  by inversion IH.
Qed.

Lemma split_tail c s :
  contains c s = true → tail (split c s) = split c (after_first c s).
Proof.
  induction s as [|a s IH]; simpl; [done|].
  destruct (Ascii.eqb a c); [done|].
  intros H. specialize (IH H).
  pose proof (split_nonempty c s) as Hne.
  destruct (split c s) as [|f fs]; [done|]. exact IH.
Qed.

(** The second field of a split is the text between the first separator
    and the next one. *)
Lemma split_second c s :
  contains c s = true →
  split c s !! 1 = Some (before_first c (after_first c s)).
Proof.
  intros H. pose proof (split_tail c s H) as Ht.
  pose proof (split_head c (after_first c s)) as Hh.
  rewrite <- Ht in Hh.
  destruct (split c s) as [|f [|g fs]]; simpl in *; done.
Qed.

Lemma split_no_sep c s : contains c s = false → split c s = [s].
Proof.
  induction s as [|a s IH]; simpl; [done|].
  destruct (Ascii.eqb a c); [done|].
  intros H. by rewrite (IH H).
Qed.

End PyStr.

(** ** [core/dns_validator.py] *)
Module Dns.

(** The typed answers of the resolution library. [mx_rrset_ttl] is
    [answers.rrset.ttl] when the answer has an [rrset] attribute. *)
Record mx_answer := MxAnswer {
  mx_rrset_ttl : option Z;
  mx_rdata : list (Z * string)        (* preference, exchange *)
}.

Record soa_rdata := SoaRdata {
  mname : string; rname : string;
  serial : Z; refresh : Z; retry : Z; expire : Z; minimum : Z
}.

(** [self.resolver.resolve(name, rdtype)], one oracle per record type. *)
Record resolver := Resolver {
  resolve_mx : string → result mx_answer;
  resolve_txt : string → result (list string);
  resolve_ns : string → result (list string);
  resolve_soa : string → result (list soa_rdata);
  resolve_a : string → result (list string);
  resolve_ptr : string → result (list string)
}.

Definition NoAnswer (msg : string) : exn := Exn "NoAnswer" msg.
Definition NXDOMAIN (msg : string) : exn := Exn "NXDOMAIN" msg.

Definition not_found (e : exn) : bool :=
  bool_decide (exn_class e = "NoAnswer") || bool_decide (exn_class e = "NXDOMAIN").

Record mx_entry := MxEntry {
  priority : Z; host : string; ttl : option Z;
  resolved : option bool                (* key added by the A-record loop *)
}.

Record a_entry := AEntry {
  a_host : string; ip : string;
  ptr : option (list string)            (* key added by the PTR loop *)
}.

Record report := Report {
  domain : string;
  timestamp : string;
  mx_records : list mx_entry;
  txt_records : list string;
  a_records : list a_entry;
  ns_records : list string;
  soa_record : option soa_rdata;
  has_mx : bool;
  errors : list string
}.

Definition set_mx_records v (r : report) : report :=
  Report (domain r) (timestamp r) v (txt_records r) (a_records r)
         (ns_records r) (soa_record r) (has_mx r) (errors r).
Definition set_txt_records v (r : report) : report :=
  Report (domain r) (timestamp r) (mx_records r) v (a_records r)
         (ns_records r) (soa_record r) (has_mx r) (errors r).
Definition set_a_records v (r : report) : report :=
  Report (domain r) (timestamp r) (mx_records r) (txt_records r) v
         (ns_records r) (soa_record r) (has_mx r) (errors r).
Definition set_ns_records v (r : report) : report :=
  Report (domain r) (timestamp r) (mx_records r) (txt_records r) (a_records r)
         v (soa_record r) (has_mx r) (errors r).
Definition set_soa_record v (r : report) : report :=
  Report (domain r) (timestamp r) (mx_records r) (txt_records r) (a_records r)
         (ns_records r) v (has_mx r) (errors r).
Definition set_has_mx v (r : report) : report :=
  Report (domain r) (timestamp r) (mx_records r) (txt_records r) (a_records r)
         (ns_records r) (soa_record r) v (errors r).
Definition set_errors v (r : report) : report :=
  Report (domain r) (timestamp r) (mx_records r) (txt_records r) (a_records r)
         (ns_records r) (soa_record r) (has_mx r) v.

Section Validator.
Variable R : resolver.
(** [self.config.get('target_domain', 't.me')] *)
Variable config_target_domain : option string.
(** [datetime.utcnow().isoformat()] *)
Variable now_iso : string.

Definition _get_mx_records (name : string) : result (list mx_entry) :=
  try_except
    (rmap (fun answers =>
             (fun rd : Z * string =>
                MxEntry rd.1 (PyStr.rstrip_char "." rd.2) (mx_rrset_ttl answers) None)
             <$> mx_rdata answers)
          (resolve_mx R name))
    (fun e => if not_found e then Ok [] else Raise e).

Definition _get_txt_records (name : string) : result (list string) :=
  try_except
    (rmap (fmap (PyStr.strip_char PyStr.dquote)) (resolve_txt R name))
    (fun _ => Ok []).

Definition _get_a_records (hostname : string) : result (list a_entry) :=
  try_except
    (rmap (fmap (fun rd => AEntry hostname rd None)) (resolve_a R hostname))
    (fun _ => Ok []).

Definition _get_ns_records (name : string) : result (list string) :=
  try_except
    (rmap (fmap (PyStr.rstrip_char ".")) (resolve_ns R name))
    (fun _ => Ok []).

Definition _get_soa_record (name : string) : result (option soa_rdata) :=
  try_except
    (rmap (fun answers =>
             match answers with
             | soa :: _ =>
                 Some (SoaRdata (PyStr.rstrip_char "." (mname soa))
                                (PyStr.rstrip_char "." (rname soa))
                                (serial soa) (refresh soa) (retry soa)
                                (expire soa) (minimum soa))
             | [] => None
             end)
          (resolve_soa R name))
    (fun _ => Ok None).

Definition _get_ptr_records (addr : string) : result (list string) :=
  try_except
    (let ptr_query :=
       if PyStr.contains ":" addr
       then PyStr.join "." (rev (PyStr.split ":" addr)) ++ ".ip6.arpa"
       else PyStr.join "." (rev (PyStr.split "." addr)) ++ ".in-addr.arpa" in
     rmap (fmap (PyStr.rstrip_char ".")) (resolve_ptr R ptr_query))
    (fun _ => Ok []).

(** [for mx in report['mx_records']: ...]: the entry at position [i] is
    updated in place and the report's A list extended. *)
Fixpoint a_loop (todo : list mx_entry) (i : nat) : M report unit :=
  match todo with
  | [] => mret tt
  | mx :: rest =>
      found ← lift (_get_a_records (host mx));
      modify (fun r => set_a_records (a_records r ++ found) r);;
      modify (fun r =>
        set_mx_records
          (alter (fun m => MxEntry (priority m) (host m) (ttl m)
                                   (Some (bool_decide (0 < length found))))
                 i (mx_records r)) r);;
      a_loop rest (S i)
  end.

(** [for a_record in report['a_records'][:3]: ...]: the slice shares its
    dictionaries with the report's list. *)
Fixpoint ptr_loop (todo : list a_entry) (i : nat) : M report unit :=
  match todo with
  | [] => mret tt
  | a :: rest =>
      names ← lift (_get_ptr_records (ip a));
      modify (fun r =>
        set_a_records
          (alter (fun x => AEntry (a_host x) (ip x) (Some names))
                 i (a_records r)) r);;
      ptr_loop rest (S i)
  end.

(** The body of the [try] block. *)
Definition validate_body (target : string) : M report unit :=
  mx ← lift (_get_mx_records target);
  modify (set_mx_records mx);;
  r ← get;
  modify (set_has_mx (bool_decide (0 < length (mx_records r))));;
  txt ← lift (_get_txt_records target);
  modify (set_txt_records txt);;
  ns ← lift (_get_ns_records target);
  modify (set_ns_records ns);;
  soa ← lift (_get_soa_record target);
  modify (set_soa_record soa);;
  r ← get;
  a_loop (mx_records r) 0;;
  r ← get;
  ptr_loop (take 3 (a_records r)) 0.

Definition critical (e : exn) : string := "Критическая ошибка: " ++ exn_msg e.

Definition initial_report (target : string) : report :=
  Report target now_iso [] [] [] [] None false [].

(** [domain or self.config.get('target_domain', 't.me')] *)
Definition target_of (name : option string) : string :=
  match name with
  | Some d => if PyStr.truthy d then d else default "t.me" config_target_domain
  | None => default "t.me" config_target_domain
  end.

Definition validate_domain_mx (name : option string) : result report :=
  let target := target_of name in
  match try_catch (validate_body target)
                  (fun e => modify (fun r => set_errors (errors r ++ [critical e]) r))
                  (initial_report target) with
  | (Ok _, rep) => Ok rep                 (* [return report] *)
  | (Raise e, _) => Raise e
  end.

(** *** The helpers other than the MX one swallow every exception *)

Lemma txt_never_raises name : ∃ l, _get_txt_records name = Ok l.
Proof.
  unfold _get_txt_records, try_except, rmap, rbind.
  destruct (resolve_txt R name); eauto.
Qed.

Lemma ns_never_raises name : ∃ l, _get_ns_records name = Ok l.
Proof.
  unfold _get_ns_records, try_except, rmap, rbind.
  destruct (resolve_ns R name); eauto.
Qed.

Lemma soa_never_raises name : ∃ o, _get_soa_record name = Ok o.
Proof.
  unfold _get_soa_record, try_except, rmap, rbind.
  destruct (resolve_soa R name); eauto.
Qed.

Lemma a_never_raises name : ∃ l, _get_a_records name = Ok l.
Proof.
  unfold _get_a_records, try_except, rmap, rbind.
  destruct (resolve_a R name); eauto.
Qed.

Lemma ptr_never_raises addr : ∃ l, _get_ptr_records addr = Ok l.
Proof.
  unfold _get_ptr_records, try_except, rmap, rbind.
  match goal with |- context [resolve_ptr R ?q] => destruct (resolve_ptr R q) end; eauto.
Qed.

Lemma mx_outcome name :
  _get_mx_records name =
    match resolve_mx R name with
    | Ok answers =>
        Ok ((fun rd : Z * string =>
               MxEntry rd.1 (PyStr.rstrip_char "." rd.2) (mx_rrset_ttl answers) None)
            <$> mx_rdata answers)
    | Raise e => if not_found e then Ok [] else Raise e
    end.
Proof.
  unfold _get_mx_records, try_except, rmap, rbind.
  by destruct (resolve_mx R name).
Qed.

(** Two reports that differ at most in their MX and A lists. *)
Definition same_rest (r r' : report) : Prop :=
  domain r' = domain r ∧ timestamp r' = timestamp r ∧
  txt_records r' = txt_records r ∧ ns_records r' = ns_records r ∧
  soa_record r' = soa_record r ∧ has_mx r' = has_mx r ∧
  errors r' = errors r.

Lemma same_rest_refl r : same_rest r r.
Proof. by repeat split. Qed.

Lemma same_rest_trans r1 r2 r3 :
  same_rest r1 r2 → same_rest r2 r3 → same_rest r1 r3.
Proof. unfold same_rest. intuition congruence. Qed.

(** An MX entry kept in place, possibly marked as resolved. *)
Definition mx_kept (m m' : mx_entry) : Prop :=
  priority m' = priority m ∧ host m' = host m ∧ ttl m' = ttl m ∧
  (is_Some (resolved m) → is_Some (resolved m')).

Lemma a_loop_runs todo i r :
  ∃ r', a_loop todo i r = (Ok tt, r') ∧ same_rest r r' ∧
        Forall2 mx_kept (mx_records r) (mx_records r') ∧
        ∀ j m', i ≤ j < i + length todo → mx_records r' !! j = Some m' →
                is_Some (resolved m').
Proof.
  revert i r. induction todo as [|mx rest IH]; intros i r.
  - exists r. simpl. split_and!; [done|apply same_rest_refl| |intros; lia].
    apply Forall2_same_length_lookup_2; [done|]. intros j m m' H1 H2.
    rewrite H1 in H2. inversion H2; subst. by repeat split.
  - simpl. unfold mbind, M_bind, lift, modify. simpl.
    destruct (a_never_raises (host mx)) as [found ->].
    match goal with |- context [a_loop rest (S i) ?r1] =>
      destruct (IH (S i) r1) as (r' & Hrun & Hrest & Hkept & Hres) end.
    exists r'. rewrite Hrun. split_and!; [done| | |].
    + eapply same_rest_trans; [|exact Hrest]. by repeat split.
    + simpl in Hkept.
      apply Forall2_same_length_lookup_2.
      { apply Forall2_length in Hkept. by rewrite length_alter in Hkept. }
      intros j m m' Hm Hm'.
      eapply Forall2_lookup_r in Hkept as (m1 & Hm1 & K); [|exact Hm'].
      destruct (decide (i = j)) as [->|Hne].
      * rewrite list_lookup_alter_eq, Hm in Hm1. simpl in Hm1.
        inversion Hm1; subst; clear Hm1.
        destruct K as (K1 & K2 & K3 & K4). simpl in *.
        split_and!; [done..|]. intros _. apply K4. by eexists.
      * rewrite list_lookup_alter_ne, Hm in Hm1 by done.
        by inversion Hm1; subst.
    + intros j m' Hj Hm'. simpl in Hj.
      destruct (decide (i = j)) as [->|Hne]; [|apply (Hres j); [lia|done]].
      simpl in Hkept.
      eapply Forall2_lookup_r in Hkept as (m1 & Hm1 & K); [|exact Hm'].
      rewrite list_lookup_alter_eq in Hm1.
      destruct (mx_records r !! j) as [m0|]; simpl in Hm1; [|done].
      inversion Hm1; subst. destruct K as (_ & _ & _ & K4).
      apply K4. simpl. by eexists.
Qed.

Lemma ptr_loop_runs todo i r :
  ∃ r', ptr_loop todo i r = (Ok tt, r') ∧ same_rest r r' ∧
        mx_records r' = mx_records r.
Proof.
  revert i r. induction todo as [|a rest IH]; intros i r.
  - exists r. simpl. split_and!; [done|apply same_rest_refl|done].
  - simpl. unfold mbind, M_bind, lift, modify. simpl.
    destruct (ptr_never_raises (ip a)) as [names ->].
    match goal with |- context [ptr_loop rest (S i) ?r1] =>
      destruct (IH (S i) r1) as (r' & Hrun & Hrest & Hmx) end.
    exists r'. rewrite Hrun. split_and!; [done| |by rewrite Hmx].
    eapply same_rest_trans; [|exact Hrest]. by repeat split.
Qed.

(** The [try] block either stops at the MX query, leaving the report as
    it was, or runs to its end with every later query answered or
    swallowed. *)
Lemma validate_body_runs target r0 :
  match _get_mx_records target with
  | Raise e => validate_body target r0 = (Raise e, r0)
  | Ok mx =>
      ∃ r', validate_body target r0 = (Ok tt, r') ∧
            domain r' = domain r0 ∧ timestamp r' = timestamp r0 ∧
            errors r' = errors r0 ∧
            Forall2 mx_kept mx (mx_records r') ∧
            Forall (fun m => is_Some (resolved m)) (mx_records r') ∧
            has_mx r' = bool_decide (0 < length mx) ∧
            _get_txt_records target = Ok (txt_records r') ∧
            _get_ns_records target = Ok (ns_records r') ∧
            _get_soa_record target = Ok (soa_record r')
  end.
Proof.
  unfold validate_body, mbind, M_bind, lift, modify, get. simpl.
  destruct (_get_mx_records target) as [mx|e]; [|done].
  destruct (txt_never_raises target) as [txt Htxt].
  destruct (ns_never_raises target) as [ns Hns].
  destruct (soa_never_raises target) as [soa Hsoa].
  rewrite Htxt, Hns, Hsoa. simpl.
  match goal with |- context [a_loop ?t 0 ?r1] =>
    destruct (a_loop_runs t 0 r1) as (r2 & Hrun & Hrest & Hkept & Hres) end.
  rewrite Hrun. simpl in *.
  destruct (ptr_loop_runs (take 3 (a_records r2)) 0 r2) as (r3 & Hrun3 & Hrest3 & Hmx3).
  exists r3. rewrite Hrun3.
  destruct Hrest as (D1 & D2 & D3 & D4 & D5 & D6 & D7).
  destruct Hrest3 as (E1 & E2 & E3 & E4 & E5 & E6 & E7). simpl in *.
  rewrite Hmx3.
  split_and!; try congruence.
  apply Forall_lookup_2. intros j m' Hm'. apply (Hres j m'); [|done].
  apply lookup_lt_Some in Hm'. apply Forall2_length in Hkept. lia.
Qed.

End Validator.

(** C5. [validate_domain_mx] never raises to its caller: for every resolver,
    configuration and domain argument it returns a report for the target
    domain.  When the MX query raises anything but "no answer" or "no such
    domain", that exception is the one entry appended to [errors] and the
    report is otherwise the initial (partial) one; in every other case
    [errors] stays empty. *)
Theorem validate_domain_mx_never_raises
    (R : resolver) (cfg : option string) (now_iso : string) (name : option string) :
  ∃ rep, validate_domain_mx R cfg now_iso name = Ok rep ∧
         domain rep = target_of cfg name ∧ timestamp rep = now_iso ∧
         match resolve_mx R (target_of cfg name) with
         | Raise e =>
             if not_found e then errors rep = []
             else rep = set_errors [critical e] (initial_report now_iso (target_of cfg name))
         | Ok _ => errors rep = []
         end.
Proof.
  unfold validate_domain_mx, try_catch.
  pose proof (validate_body_runs R (target_of cfg name)
                (initial_report now_iso (target_of cfg name))) as Hbody.
  pose proof (mx_outcome R (target_of cfg name)) as Hmx.
  destruct (_get_mx_records R (target_of cfg name)) as [mx|e].
  - destruct Hbody as (r' & -> & Hd & Ht & He & _).
    exists r'. split_and!; [done..|].
    destruct (resolve_mx R (target_of cfg name)) as [a|e]; [done|].
    by destruct (not_found e).
  - rewrite Hbody. unfold modify. simpl.
    eexists. split_and!; [done..|].
    destruct (resolve_mx R (target_of cfg name)) as [a|e']; [done|].
    destruct (not_found e'); [done|]. by inversion Hmx; subst.
Qed.

(** C6. When the MX query answers with at least one record and the TXT
    query fails, the report has a non-empty MX list, an empty TXT list,
    [has_mx] set and no entry in [errors]; the NS and SOA queries are still
    made and every MX host still has its A records looked up. *)
Theorem txt_failure_is_isolated
    (R : resolver) (cfg : option string) (now_iso : string) (name : option string)
    (answers : mx_answer) (e : exn)
    (Hmx : resolve_mx R (target_of cfg name) = Ok answers)
    (Hne : mx_rdata answers ≠ [])
    (Htxt : resolve_txt R (target_of cfg name) = Raise e) :
  ∃ rep, validate_domain_mx R cfg now_iso name = Ok rep ∧
         mx_records rep ≠ [] ∧ txt_records rep = [] ∧
         has_mx rep = true ∧ errors rep = [] ∧
         _get_ns_records R (target_of cfg name) = Ok (ns_records rep) ∧
         _get_soa_record R (target_of cfg name) = Ok (soa_record rep) ∧
         length (mx_records rep) = length (mx_rdata answers) ∧
         Forall (fun m => is_Some (resolved m)) (mx_records rep).
Proof.
  unfold validate_domain_mx, try_catch.
  pose proof (validate_body_runs R (target_of cfg name)
                (initial_report now_iso (target_of cfg name))) as Hbody.
  rewrite mx_outcome, Hmx in Hbody.
  destruct Hbody as (r' & -> & Hd & Ht & He & Hkept & Hres & Hhas & Ht' & Hns & Hsoa).
  apply Forall2_length in Hkept. rewrite length_fmap in Hkept.
  assert (0 < length (mx_rdata answers)) as Hpos.
  { destruct (mx_rdata answers); [done|simpl; lia]. }
  exists r'. split_and!; try done.
  - intros Hnil. rewrite Hnil in Hkept. simpl in Hkept. lia.
  - unfold _get_txt_records, try_except, rmap, rbind in Ht'.
    rewrite Htxt in Ht'. by inversion Ht'.
  - rewrite Hhas, length_fmap. by apply bool_decide_eq_true.
Qed.

(** A resolver whose MX query answers and whose TXT query times out. *)
Definition mx_only_resolver : resolver :=
  Resolver (fun _ => Ok (MxAnswer (Some 300%Z) [(10%Z, "mx1.example.com.")]))
           (fun _ => Raise (Exn "Timeout" "The DNS operation timed out."))
           (fun _ => Ok ["ns1.example.com."])
           (fun _ => Raise (NoAnswer "no SOA"))
           (fun _ => Ok ["192.0.2.1"])
           (fun _ => Raise (NXDOMAIN "no PTR")).

Lemma txt_failure_is_isolated_witness :
  ∃ rep, validate_domain_mx mx_only_resolver None "2024-01-01T00:00:00"
           (Some "example.com") = Ok rep ∧
         mx_records rep ≠ [] ∧ txt_records rep = [] ∧
         has_mx rep = true ∧ errors rep = [] ∧
         _get_ns_records mx_only_resolver "example.com" = Ok (ns_records rep) ∧
         _get_soa_record mx_only_resolver "example.com" = Ok (soa_record rep) ∧
         length (mx_records rep) = 1 ∧
         Forall (fun m => is_Some (resolved m)) (mx_records rep).
Proof.
  apply (txt_failure_is_isolated mx_only_resolver None "2024-01-01T00:00:00"
           (Some "example.com")
           (MxAnswer (Some 300%Z) [(10%Z, "mx1.example.com.")])
           (Exn "Timeout" "The DNS operation timed out.")).
  - reflexivity.
  - simpl. discriminate.
  - reflexivity.
Defined.

End Dns.

(** ** Message metadata, as built by [_extract_metadata] *)

(** The value kept under ['dns_report']: the validator's report, or the
    fallback dictionary [{'domain': ..., 'error': ...}]. *)
Inductive dns_info :=
| Validated (r : Dns.report)
| Unavailable (domain error : string).

Record metadata := Metadata {
  message_id : string;
  from : string;
  to : string;
  cc : string;
  bcc : string;
  subject : string;
  date : string;
  recipient_domain : string;
  received_at : string;
  headers : list (string * string);
  dns_report : option dns_info          (* key set after validation *)
}.

(** ** [core/redis_storage.py] *)
Module Redis.

(** *** The key-value server

    Strings carry an expiry time; sets and sorted sets do not expire.  The
    three kinds of keys used by the storage never collide ([email:raw:],
    [email:meta:], [index:domain:], [index:timestamp]), so each kind has its
    own table.  Time is in epoch seconds. *)

(** What [pickle.dumps] and [json.dumps] produce; the matching [loads]
    raises on anything else. *)
Inductive value :=
| Pickled (raw : string)
| Json (meta : metadata).

Record server := Server {
  up : bool;                              (* the connection answers *)
  strings : gmap string (value * Z);      (* key to value and expiry time *)
  sets : gmap string (gset string);
  zsets : gmap string (gmap string Z)     (* key to member to score *)
}.

Definition ConnectionError : exn := Exn "ConnectionError" "Connection refused.".
Definition ResponseError (msg : string) : exn := Exn "ResponseError" msg.

Inductive command :=
| SETEX (key : string) (seconds : Z) (v : value)
| GET (key : string)
| SADD (key member : string)
| ZADD (key member : string) (score : Z).

Inductive reply :=
| Nil
| Bulk (v : value)
| Int (n : Z)
| Status
| Error (msg : string).

(** [GET]: a key past its expiry time is gone. *)
Definition get_key (st : server) (now : Z) (key : string) : option value :=
  match strings st !! key with
  | Some (v, expiry) => if bool_decide (now < expiry)%Z then Some v else None
  | None => None
  end.

Definition run_command (now : Z) (c : command) (st : server) : reply * server :=
  match c with
  | SETEX key seconds v =>
      if bool_decide (0 < seconds)%Z
      then (Status, Server (up st) (<[key := (v, (now + seconds)%Z)]> (strings st))
                           (sets st) (zsets st))
      else (Error "invalid expire time in 'setex' command", st)
  | GET key => (from_option Bulk Nil (get_key st now key), st)
  | SADD key member =>
      let old := default ∅ (sets st !! key) in
      (Int (if bool_decide (member ∈ old) then 0 else 1),
       Server (up st) (strings st) (<[key := {[member]} ∪ old]> (sets st)) (zsets st))
  | ZADD key member score =>
      let old := default ∅ (zsets st !! key) in
      (Int (if old !! member is Some _ then 0 else 1),
       Server (up st) (strings st) (sets st) (<[key := <[member := score]> old]> (zsets st)))
  end.

Fixpoint run_commands (now : Z) (cs : list command) (st : server) : list reply * server :=
  match cs with
  | [] => ([], st)
  | c :: cs' =>
      let '(r, st1) := run_command now c st in
      let '(rs, st2) := run_commands now cs' st1 in
      (r :: rs, st2)
  end.

Definition first_error (rs : list reply) : option string :=
  head (omap (fun r => match r with Error msg => Some msg | _ => None end) rs).

(** [await pipeline.execute()]: the queued commands run as one transaction;
    a lost connection raises before anything runs, a command error is raised
    once the transaction has run. *)
Definition execute (now : Z) (cs : list command) : M server (list reply) :=
  fun st =>
    if up st then
      let '(rs, st') := run_commands now cs st in
      match first_error rs with
      | Some msg => (Raise (ResponseError msg), st')
      | None => (Ok rs, st')
      end
    else (Raise ConnectionError, st).

(** Members of a sorted set are ordered by score, ties by the bytes of the
    member. *)
Fixpoint str_leb (a b : string) : bool :=
  match a, b with
  | EmptyString, _ => true
  | String _ _, EmptyString => false
  | String x a', String y b' =>
      if (PyStr.code x <? PyStr.code y)%N then true
      else if (PyStr.code x =? PyStr.code y)%N then str_leb a' b'
      else false
  end.

(** [x] comes no later than [y] in the reverse (highest score first) order. *)
Definition zrev_leb (x y : string * Z) : bool :=
  (y.2 <? x.2)%Z || ((x.2 =? y.2)%Z && str_leb y.1 x.1).

Definition zrev_le (x y : string * Z) : Prop := zrev_leb x y = true.

#[export] Instance zrev_le_dec x y : Decision (zrev_le x y).
Proof. unfold zrev_le. apply _. Defined.

(** The whole sorted set, highest score first. *)
Definition zrev_all (z : gmap string Z) : list (string * Z) :=
  merge_sort zrev_le (map_to_list z).

(** Inclusive index range of the server, negative indices counting from
    the end. *)
Definition index_range {A} (l : list A) (start stop : Z) : list A :=
  let n := Z.of_nat (length l) in
  let start := if bool_decide (start < 0)%Z then (n + start)%Z else start in
  let stop := if bool_decide (stop < 0)%Z then (n + stop)%Z else stop in
  let start := Z.max 0 start in
  if bool_decide (stop < start)%Z || bool_decide (n <= start)%Z then []
  else
    let stop := Z.min stop (n - 1) in
    take (Z.to_nat (stop - start + 1)) (drop (Z.to_nat start) l).

(** The integers the server accepts as an index: signed, 64 bits. *)
Definition int64 (n : Z) : bool :=
  bool_decide (- 2 ^ 63 ≤ n)%Z && bool_decide (n < 2 ^ 63)%Z.

(** [await self.redis.zrevrange(key, start, stop)]: an index outside the
    64-bit range is refused by the server. *)
Definition zrevrange (st : server) (key : string) (start stop : Z) : result (list string) :=
  if up st then
    if int64 start && int64 stop
    then Ok (index_range (fst <$> zrev_all (default ∅ (zsets st !! key))) start stop)
    else Raise (ResponseError "value is not an integer or out of range")
  else Raise ConnectionError.

(** [await self.redis.smembers(key)], listed in the order in which the
    client's set is iterated. *)
Definition smembers (st : server) (key : string) : result (list string) :=
  if up st then Ok (elements (default ∅ (sets st !! key))) else Raise ConnectionError.

(** [await self.redis.zremrangebyscore(key, lo, hi)] *)
Definition zremrangebyscore (key : string) (lo hi : Z) : M server Z :=
  fun st =>
    if up st then
      let old := default ∅ (zsets st !! key) in
      let keep := filter (fun p => ¬ (lo ≤ p.2 ∧ p.2 ≤ hi)%Z) old in
      (Ok (Z.of_nat (size old - size keep)),
       Server (up st) (strings st) (sets st) (<[key := keep]> (zsets st)))
    else (Raise ConnectionError, st).

(** [l[:n]] for any integer [n] *)
Definition slice_to {A} (l : list A) (n : Z) : list A :=
  if bool_decide (0 ≤ n)%Z then take (Z.to_nat n) l
  else take (length l - Z.to_nat (- n)) l.

(** *** [RedisStorage] *)

Section Storage.
(** [self.message_ttl] *)
Variable message_ttl : Z.

Definition _cleanup_old_indexes (now : Z) : M server unit :=
  try_catch
    (let cutoff := (now - message_ttl)%Z in
     _ ← zremrangebyscore "index:timestamp" 0 cutoff;
     mret tt)
    (fun _ => mret tt).

Definition store_email (now : Z) (email_id raw_email : string) (md : metadata)
  : M server bool :=
  try_catch
    (let serialized_email := Pickled raw_email in
     let recipient := recipient_domain md in
     _ ← execute now
           [ SETEX ("email:raw:" ++ email_id) message_ttl serialized_email;
             SETEX ("email:meta:" ++ email_id) message_ttl (Json md);
             SADD ("index:domain:" ++ recipient) email_id;
             ZADD "index:timestamp" email_id now ];
     _cleanup_old_indexes now;;
     mret true)
    (fun _ => mret false).

(** What is kept for a message: its raw bytes and its metadata. *)
Record email_data := EmailData {
  raw : string;
  stored_metadata : metadata
}.

(** [message_from_bytes(email_bytes, policy=default)] followed by
    [self._parse_email_structure(email_msg)]: the message object with its
    structure, of some type [P], or the exception raised while the headers
    of the message or of one of its parts are read. *)
Context {P : Type}.
Variable parse_message : string → result P.

(** The dictionary returned by [retrieve_email]: the ['raw'] and
    ['metadata'] entries, and the ['message'] and ['parsed'] ones. *)
Record retrieved := Retrieved {
  record : email_data;
  parsed : P
}.

Definition pickle_loads (v : value) : result string :=
  match v with
  | Pickled r => Ok r
  | Json _ => Raise (Exn "UnpicklingError" "invalid load key")
  end.

Definition json_loads (v : value) : result metadata :=
  match v with
  | Json m => Ok m
  | Pickled _ => Raise (Exn "JSONDecodeError" "Expecting value")
  end.

Definition retrieve_email (st : server) (now : Z) (email_id : string)
  : result (option retrieved) :=
  try_except
    (match execute now [GET ("email:raw:" ++ email_id);
                        GET ("email:meta:" ++ email_id)] st with
     | (Ok [Bulk raw_email; Bulk meta_json], _) =>
         rbind (pickle_loads raw_email) (fun email_bytes =>
         rbind (json_loads meta_json) (fun md =>
         rbind (parse_message email_bytes) (fun email_msg =>
         Ok (Some (Retrieved (EmailData email_bytes md) email_msg)))))
     | (Ok [_; _], _) => Ok None          (* [not raw_email or not meta_json] *)
     | (Ok _, _) => Raise (Exn "ValueError" "not enough values to unpack")
     | (Raise e, _) => Raise e
     end)
    (fun _ => Ok None).

(** [for email_id in ...: ... if email_data: emails.append(email_data)] *)
Fixpoint collect (st : server) (now : Z) (ids : list string)
  : result (list retrieved) :=
  match ids with
  | [] => Ok []
  | email_id :: rest =>
      rbind (retrieve_email st now email_id) (fun email_data =>
      rbind (collect st now rest) (fun emails =>
      Ok (match email_data with
          | Some d => d :: emails
          | None => emails
          end)))
  end.

Definition search_emails (st : server) (now : Z)
    (domain : option string) (limit offset : Z) : result (list retrieved) :=
  try_except
    (rbind (if PyStr.truthy_opt domain
            then smembers st ("index:domain:" ++ default "" domain)
            else zrevrange st "index:timestamp" offset (offset + limit - 1))
           (fun email_ids => collect st now (slice_to email_ids limit)))
    (fun _ => Ok []).

End Storage.

Arguments Retrieved {P} record parsed.
Arguments record {P} r.
Arguments parsed {P} r.

(** The record stored under an identifier at time [now]: present when
    both of its keys are still alive. *)
Definition live (st : server) (now : Z) (email_id : string) : option email_data :=
  match get_key st now ("email:raw:" ++ email_id),
        get_key st now ("email:meta:" ++ email_id) with
  | Some (Pickled r), Some (Json m) => Some (EmailData r m)
  | _, _ => None
  end.

(** What a retrieval gives for an identifier: the live record, when its
    raw bytes can be parsed. *)
Definition retrievable {P} (parse_message : string → result P)
    (st : server) (now : Z) (email_id : string) : option (retrieved (P:=P)) :=
  match live st now email_id with
  | Some d =>
      match parse_message (raw d) with
      | Ok email_msg => Some (Retrieved d email_msg)
      | Raise _ => None
      end
  | None => None
  end.

(** *** The order of the recency index *)

Lemma str_leb_total a b : str_leb a b = true ∨ str_leb b a = true.
Proof.
  revert b. induction a as [|x a IH]; intros [|y b]; simpl; auto.
  destruct (N.ltb_spec (PyStr.code x) (PyStr.code y)),
           (N.ltb_spec (PyStr.code y) (PyStr.code x)); auto; try lia.
  destruct (N.eqb_spec (PyStr.code x) (PyStr.code y)),
           (N.eqb_spec (PyStr.code y) (PyStr.code x)); auto; lia.
Qed.

Lemma str_leb_trans a b c :
  str_leb a b = true → str_leb b c = true → str_leb a c = true.
Proof.
  revert b c. induction a as [|x a IH]; intros [|y b] [|z c]; simpl; auto; try done.
  destruct (N.ltb_spec (PyStr.code x) (PyStr.code y)),
           (N.ltb_spec (PyStr.code y) (PyStr.code z)),
           (N.ltb_spec (PyStr.code x) (PyStr.code z)); auto; try lia;
  destruct (N.eqb_spec (PyStr.code x) (PyStr.code y)),
           (N.eqb_spec (PyStr.code y) (PyStr.code z)),
           (N.eqb_spec (PyStr.code x) (PyStr.code z)); auto; try lia; try done.
  apply IH.
Qed.

#[export] Instance zrev_le_total : Total zrev_le.
Proof.
  intros [m1 s1] [m2 s2]. unfold zrev_le, zrev_leb. simpl.
  destruct (Z.ltb_spec s2 s1), (Z.ltb_spec s1 s2); simpl; auto; try lia.
  assert (s1 = s2) as -> by lia. rewrite Z.eqb_refl. simpl.
  destruct (str_leb_total m1 m2); auto.
Qed.

#[export] Instance zrev_le_trans : Transitive zrev_le.
Proof.
  intros [m1 s1] [m2 s2] [m3 s3]. unfold zrev_le, zrev_leb. simpl.
  destruct (Z.ltb_spec s2 s1), (Z.ltb_spec s3 s2), (Z.ltb_spec s3 s1);
    simpl; auto; try lia;
  destruct (Z.eqb_spec s1 s2), (Z.eqb_spec s2 s3), (Z.eqb_spec s1 s3);
    simpl; auto; try lia; try done.
  intros H12 H23. by eapply str_leb_trans.
Qed.

Lemma zrev_le_score x y : zrev_le x y → (y.2 ≤ x.2)%Z.
Proof.
  unfold zrev_le, zrev_leb.
  destruct (Z.ltb_spec y.2 x.2), (Z.eqb_spec x.2 y.2); simpl; try done; lia.
Qed.

(** The index is read highest score first. *)
Lemma zrev_all_sorted z :
  StronglySorted (fun x y => (y.2 ≤ x.2)%Z) (zrev_all z).
Proof.
  pose proof (StronglySorted_merge_sort zrev_le (map_to_list z)) as Hs.
  fold (zrev_all z) in Hs.
  induction Hs as [|x l Hs IH Hall]; constructor; [done|].
  eapply Forall_impl; [exact Hall|]. intros y. apply zrev_le_score.
Qed.

Lemma strongly_sorted_segment {A} (R : relation A) (l : list A) n k :
  StronglySorted R l → StronglySorted R (take n (drop k l)).
Proof.
  intros Hs. revert n k. induction Hs as [|x l Hs IH Hall]; intros n k.
  - rewrite drop_nil, take_nil. constructor.
  - destruct k as [|k]; [|apply IH].
    destruct n as [|n]; simpl; constructor.
    + specialize (IH n 0). by rewrite drop_0 in IH.
    + eapply Forall_take in Hall. exact Hall.
Qed.

(** *** Paging: the index range followed by the slice *)

Lemma page_is_take_drop {A} (l : list A) (limit offset : Z) :
  (0 ≤ limit)%Z → (0 ≤ offset)%Z →
  slice_to (index_range l offset (offset + limit - 1)) limit =
  take (Z.to_nat limit) (drop (Z.to_nat offset) l).
Proof.
  intros Hl Ho. unfold slice_to. rewrite bool_decide_eq_true_2 by done.
  destruct (decide (limit = 0%Z)) as [->|Hpos]; [by rewrite !take_0|].
  unfold index_range.
  rewrite (bool_decide_eq_false_2 (offset < 0)%Z) by lia.
  rewrite (bool_decide_eq_false_2 (offset + limit - 1 < 0)%Z) by lia.
  rewrite Z.max_r by lia.
  rewrite (bool_decide_eq_false_2 (offset + limit - 1 < offset)%Z) by lia.
  simpl. case_bool_decide as Hn.
  - rewrite drop_ge by lia. by rewrite take_nil.
  - rewrite take_take.
    destruct (decide (offset + limit - 1 ≤ Z.of_nat (length l) - 1)%Z).
    + rewrite Z.min_l by lia. f_equal. lia.
    + rewrite Z.min_r by lia.
      rewrite !take_ge; [done|rewrite length_drop; lia..].
Qed.

(** *** Retrieval *)

Lemma retrieve_email_live {P} (parse_message : string → result P) st now email_id :
  up st = true →
  retrieve_email parse_message st now email_id =
    Ok (retrievable parse_message st now email_id).
Proof.
  intros Hup. unfold retrieve_email, execute, retrievable, live. rewrite Hup. simpl.
  destruct (get_key st now ("email:raw:" ++ email_id)) as [[r|m]|];
    destruct (get_key st now ("email:meta:" ++ email_id)) as [[r'|m']|];
    try done.
  simpl. by destruct (parse_message r).
Qed.

Lemma retrieve_email_down {P} (parse_message : string → result P) st now email_id :
  up st = false → retrieve_email parse_message st now email_id = Ok None.
Proof. intros Hup. unfold retrieve_email, execute. by rewrite Hup. Qed.

Lemma retrievable_live {P} (parse_message : string → result P) st now email_id r :
  retrievable parse_message st now email_id = Some r →
  live st now email_id = Some (record r) ∧ parse_message (raw (record r)) = Ok (parsed r).
Proof.
  unfold retrievable. destruct (live st now email_id) as [d|]; [|done].
  destruct (parse_message (raw d)) as [m|e] eqn:Hp; [|done].
  by intros [= <-].
Qed.

Lemma omap_after_fmap {A B C} (f : B → option C) (g : A → B) (l : list A) :
  omap f (g <$> l) = omap (fun x => f (g x)) l.
Proof. induction l as [|x l IH]; csimpl; [done|]. by rewrite IH. Qed.

Lemma omap_length_le {A B} (f : A → option B) (l : list A) :
  (length (omap f l) ≤ length l)%nat.
Proof.
  induction l as [|x l IH]; csimpl; [done|].
  destruct (f x); simpl; lia.
Qed.

Lemma collect_live {P} (parse_message : string → result P) st now ids :
  up st = true →
  collect parse_message st now ids = Ok (omap (retrievable parse_message st now) ids).
Proof.
  intros Hup. induction ids as [|i ids IH]; csimpl; [done|].
  rewrite retrieve_email_live, IH by done. simpl.
  by destruct (retrievable parse_message st now i).
Qed.

(** *** Storing *)

(** [store_email] never raises: it answers [True] or [False]. *)
Lemma store_email_answers ttl now email_id raw_email md srv :
  ∃ b, store_email ttl now email_id raw_email md srv =
         (Ok b, (store_email ttl now email_id raw_email md srv).2).
Proof.
  unfold store_email, try_catch.
  match goal with |- context [match ?x with _ => _ end] => destruct x as [[?|?] ?] end;
    simpl; eauto.
Qed.

(** With the connection down nothing is written and the answer is [False]. *)
Lemma store_email_down ttl now email_id raw_email md srv :
  up srv = false →
  store_email ttl now email_id raw_email md srv = (Ok false, srv).
Proof.
  intros Hup. unfold store_email, try_catch, mbind, M_bind, execute.
  by rewrite Hup.
Qed.

(** After a successful store the record can be read back. *)
Lemma store_email_then_live ttl now email_id raw_email md srv srv' :
  store_email ttl now email_id raw_email md srv = (Ok true, srv') →
  live srv' now email_id = Some (EmailData raw_email md).
Proof.
  unfold store_email, try_catch, mbind, M_bind, execute, _cleanup_old_indexes,
    zremrangebyscore, mret, M_ret.
  destruct (up srv) eqn:Hup; [|done]. simpl.
  destruct (bool_decide (0 < ttl)%Z) eqn:Httl; simpl; [|done].
  rewrite Hup. simpl. intros [= <-].
  apply bool_decide_eq_true in Httl.
  unfold live, get_key. simpl.
  rewrite lookup_insert_ne by done. rewrite lookup_insert_eq.
  rewrite lookup_insert_eq.
  rewrite bool_decide_eq_true_2 by lia. done.
Qed.

(** *** Three messages stored at epoch seconds 100, 200 and 300 *)

Definition week : Z := 604800.

Definition sample_metadata (email_id : string) : metadata :=
  Metadata email_id "a@a.com" "b@x.com" "" "" "hello" "" "x.com" "" [] None.

Definition empty_server : server := Server true ∅ ∅ ∅.

Definition three_messages : server :=
  (store_email week 300 "m300" "raw 300" (sample_metadata "m300")
     (store_email week 200 "m200" "raw 200" (sample_metadata "m200")
        (store_email week 100 "m100" "raw 100" (sample_metadata "m100")
           empty_server).2).2).2.

(** A parser for the samples: it gives the length of the message, and
    raises on a message that starts with an exclamation mark. *)
Definition sample_parse (raw : string) : result nat :=
  match raw with
  | String "!" _ => Raise (Exn "IndexError" "list index out of range")
  | _ => Ok (String.length raw)
  end.

Definition found_message (email_id raw_email : string) : retrieved :=
  Retrieved (EmailData raw_email (sample_metadata email_id)) (String.length raw_email).

Example search_ordering_example :
  search_emails sample_parse three_messages 300 None 2 0 =
    Ok [found_message "m300" "raw 300"; found_message "m200" "raw 200"].
Proof. vm_compute. reflexivity. Qed.

(** Past the expiry of the oldest message its index entry is still there,
    and it is skipped. *)
Example search_skips_expired :
  search_emails sample_parse three_messages (100 + week) None 3 0 =
    Ok [found_message "m300" "raw 300"; found_message "m200" "raw 200"].
Proof. vm_compute. reflexivity. Qed.

(** A stored message on which the parser raises is skipped as well, with
    both of its keys alive. *)
Example search_skips_unparseable :
  let st := (store_email week 400 "m400" "!" (sample_metadata "m400") three_messages).2 in
  live st 400 "m400" = Some (EmailData "!" (sample_metadata "m400")) ∧
  search_emails sample_parse st 400 None 2 0 = Ok [found_message "m300" "raw 300"].
Proof. vm_compute. split; reflexivity. Qed.

(** An index the server refuses gives the empty list. *)
Example search_index_out_of_range :
  search_emails sample_parse three_messages 300 None (2 ^ 63 + 1) 0 = Ok [].
Proof. vm_compute. reflexivity. Qed.

Lemma zrev_all_members (z : gmap string Z) : zrev_all z ≡ₚ map_to_list z.
Proof. unfold zrev_all. apply merge_sort_Permutation. Qed.

Lemma search_without_domain_result {P} (parse_message : string → result P)
    st now domain limit offset :
  PyStr.truthy_opt domain = false → (0 ≤ limit)%Z → (0 ≤ offset)%Z →
  search_emails parse_message st now domain limit offset =
    Ok (if up st && int64 offset && int64 (offset + limit - 1)
        then omap (fun p : string * Z => retrievable parse_message st now p.1)
               (take (Z.to_nat limit)
                  (drop (Z.to_nat offset)
                     (zrev_all (default ∅ (zsets st !! "index:timestamp")))))
        else []).
Proof.
  intros Hdomain Hlimit Hoffset.
  unfold search_emails, zrevrange. rewrite Hdomain.
  destruct (up st) eqn:Hup; [|done]. simpl.
  destruct (int64 offset && int64 (offset + limit - 1)) eqn:Hrange; [|done]. simpl.
  rewrite page_is_take_drop by done.
  rewrite collect_live by done. simpl.
  rewrite <- fmap_drop, <- fmap_take, omap_after_fmap. done.
Qed.

(** C7. A search without a domain ([None] or the empty string) reads the
    recency index, which lists every member of the sorted set once, highest
    score first; it takes [limit] entries after skipping [offset] of them,
    and returns, in that order, what retrieval gives for each of them.
    Retrieval gives nothing for an entry one of whose keys has expired (and
    nothing for a record on which the mail parser raises), so fewer than
    [limit] records may come back.  With the connection down, or with an
    index outside the 64-bit range of the server, the search returns the
    empty list. *)
Theorem search_recent_first {P} (parse_message : string → result P)
    (st : server) (now : Z) (domain : option string) (limit offset : Z)
    (Hdomain : PyStr.truthy_opt domain = false)
    (Hlimit : (0 ≤ limit)%Z) (Hoffset : (0 ≤ offset)%Z) :
  let members := default ∅ (zsets st !! "index:timestamp") in
  let index := zrev_all members in
  let page := take (Z.to_nat limit) (drop (Z.to_nat offset) index) in
  let found :=
    omap (fun p : string * Z => retrievable parse_message st now p.1) page in
  index ≡ₚ map_to_list members ∧
  StronglySorted (fun x y : string * Z => (y.2 ≤ x.2)%Z) index ∧
  StronglySorted (fun x y : string * Z => (y.2 ≤ x.2)%Z) page ∧
  search_emails parse_message st now domain limit offset =
    Ok (if up st && int64 offset && int64 (offset + limit - 1)
        then found else []) ∧
  (length found ≤ Z.to_nat limit)%nat ∧
  (∀ email_id,
    get_key st now ("email:raw:" ++ email_id) = None ∨
    get_key st now ("email:meta:" ++ email_id) = None →
    retrievable parse_message st now email_id = None) ∧
  (∀ email_id r,
    retrievable parse_message st now email_id = Some r →
    live st now email_id = Some (record r) ∧
    parse_message (raw (record r)) = Ok (parsed r)).
Proof.
  intros members index page found.
  pose proof (zrev_all_sorted members) as Hs.
  split_and!.
  - apply zrev_all_members.
  - exact Hs.
  - by apply strongly_sorted_segment.
  - by apply search_without_domain_result.
  - etrans; [apply omap_length_le|]. unfold page. rewrite length_take. lia.
  - intros email_id [H|H]; unfold retrievable, live; rewrite H; [done|].
    by destruct (get_key st now ("email:raw:" ++ email_id)) as [[?|?]|].
  - intros email_id r. apply retrievable_live.
Qed.

Lemma search_recent_first_witness :
  search_emails sample_parse three_messages 300 None 2 0 =
    Ok [found_message "m300" "raw 300"; found_message "m200" "raw 200"].
Proof.
  destruct (search_recent_first sample_parse three_messages 300 None 2 0)
    as (_ & _ & _ & Hsearch & _).
  - reflexivity.
  - lia.
  - lia.
  - rewrite Hsearch. vm_compute. reflexivity.
Defined.

(** C10. A search with a (non-empty) domain does not look at [offset]: any
    two offsets give the same result. *)
Theorem search_by_domain_ignores_offset {P} (parse_message : string → result P)
    (st : server) (now : Z) (d : string) (limit o1 o2 : Z)
    (Hd : d ≠ "") :
  search_emails parse_message st now (Some d) limit o1 =
  search_emails parse_message st now (Some d) limit o2.
Proof.
  unfold search_emails.
  assert (PyStr.truthy_opt (Some d) = true) as -> by (by destruct d).
  reflexivity.
Qed.

Lemma search_by_domain_ignores_offset_witness :
  search_emails sample_parse three_messages 300 (Some "x.com") 2 0 =
  search_emails sample_parse three_messages 300 (Some "x.com") 2 1.
Proof.
  apply (search_by_domain_ignores_offset sample_parse three_messages 300 "x.com" 2 0 1).
  discriminate.
Defined.

End Redis.

(** ** More text operations: substrings and integer literals *)
Module PyText.

Fixpoint starts_with (p s : string) : bool :=
  match p, s with
  | EmptyString, _ => true
  | String a p', String b s' => Ascii.eqb a b && starts_with p' s'
  | String _ _, EmptyString => false
  end.

(** [sub in s] *)
Fixpoint contains_str (sub s : string) : bool :=
  starts_with sub s ||
  match s with
  | EmptyString => false
  | String _ s' => contains_str sub s'
  end.

(** [s.replace(old, new)] for a non-empty [old]: occurrences are replaced
    from the left and do not overlap; [skip] counts the characters of an
    occurrence still to be dropped. *)
Fixpoint replace_go (old new : string) (skip : nat) (s : string) : string :=
  match s with
  | EmptyString => EmptyString
  | String a s' =>
      match skip with
      | S k => replace_go old new k s'
      | O =>
          if starts_with old s
          then new ++ replace_go old new (String.length old - 1) s'
          else String a (replace_go old new 0 s')
      end
  end.

Definition replace (old new s : string) : string := replace_go old new 0 s.

Definition digit_val (a : ascii) : option Z :=
  let c := PyStr.code a in
  if ((48 <=? c) && (c <=? 57))%N then Some (Z.of_N c - 48)%Z else None.

(** Decimal digits, single underscores allowed between two digits. *)
Fixpoint digits_go (s : string) (acc : Z) (after_digit : bool) : option Z :=
  match s with
  | EmptyString => if after_digit then Some acc else None
  | String a s' =>
      match digit_val a with
      | Some d => digits_go s' (10 * acc + d)%Z true
      | None =>
          if Ascii.eqb a "_" && after_digit
          then digits_go s' acc false
          else None
      end
  end.

Definition invalid_literal (s : string) : exn :=
  Exn "ValueError" ("invalid literal for int() with base 10: '" ++ s ++ "'").

(** [int(s)] on a string: surrounding whitespace, an optional sign,
    decimal digits. *)
Definition int (s : string) : result Z :=
  let t := PyStr.strip s in
  let parsed :=
    match t with
    | String "+" r => digits_go r 0 false
    | String "-" r => Z.opp <$> digits_go r 0 false
    | _ => digits_go t 0 false
    end in
  match parsed with
  | Some n => Ok n
  | None => Raise (invalid_literal s)
  end.

(** [s.split()]: fields separated by runs of whitespace, none of them
    empty; [cur] is the field being read. *)
Fixpoint split_ws_go (cur : option string) (s : string) : list string :=
  match s with
  | EmptyString => match cur with Some w => [w] | None => [] end
  | String a s' =>
      if PyStr.is_space a
      then match cur with
           | Some w => w :: split_ws_go None s'
           | None => split_ws_go None s'
           end
      else split_ws_go (Some (default EmptyString cur ++ String a EmptyString)) s'
  end.

Definition split_ws (s : string) : list string := split_ws_go None s.

(** [s.split(c, 1)] *)
Definition split_once (c : ascii) (s : string) : list string :=
  if PyStr.contains c s
  then [PyStr.before_first c s; PyStr.after_first c s]
  else [s].

Lemma int_nonempty s n : int s = Ok n → s ≠ EmptyString.
Proof. intros H ->. vm_compute in H. discriminate. Qed.

End PyText.

(** ** [services/smtp_handler.py] *)
Module Smtp.

(** *** The parsed message, as the mail parser hands it over *)

Record part := Part {
  content_type : string;                  (* [part.get_content_type()] *)
  content : result string                 (* [part.get_content()] *)
}.

(** A header field is parsed when it is read: reading gives its value, or
    the exception the header parser raises on it. *)
Record email_message := EmailMessage {
  items : list (string * result string);  (* header fields, in order *)
  is_multipart : bool;
  walk : list part;                       (* the message, then its parts *)
  body : part                             (* the message seen as one part *)
}.

(** [email_msg.get(name, '')]: header names compare without case, and the
    first field of that name is read. *)
Definition header (m : email_message) (name : string) : result string :=
  match find (fun kv : string * result string =>
                bool_decide (PyStr.lower kv.1 = PyStr.lower name)) (items m) with
  | Some kv => kv.2
  | None => Ok EmptyString
  end.

(** [email_msg.items()]: every field is read, in order. *)
Fixpoint read_items (fields : list (string * result string))
  : result (list (string * string)) :=
  match fields with
  | [] => Ok []
  | (k, v) :: rest =>
      rbind v (fun v' => rmap (fun pairs => (k, v') :: pairs) (read_items rest))
  end.

(** [dict(pairs)]: a repeated key keeps its first position and takes the
    last value. *)
Fixpoint dict_set (k v : string) (d : list (string * string)) : list (string * string) :=
  match d with
  | [] => [(k, v)]
  | (k', v') :: d' => if bool_decide (k' = k) then (k, v) :: d' else (k', v') :: dict_set k v d'
  end.

Definition dict (pairs : list (string * string)) : list (string * string) :=
  foldl (fun d kv => dict_set kv.1 kv.2 d) [] pairs.

(** *** The handler's state and its collaborators *)

(** [self.default_recipients] *)
Record recipients := Recipients {
  me : option string;
  channel : option string;
  group : option string
}.

(** The first argument of [send_message]. *)
Inductive chat :=
| SavedMessages                           (* the string "me" *)
| ChatId (n : Z).

Record state := State {
  message_counter : nat;
  target_mapping : gmap string string;
  default_recipients : recipients;
  storage : Redis.server;                 (* behind [self.redis_storage] *)
  sent : list (chat * string);            (* delivered by the transport *)
  provisioned : list string               (* user names passed to the DNS provider *)
}.

Definition initial_recipients : recipients := Recipients (Some "self") None None.

Definition set_message_counter v (s : state) : state :=
  State v (target_mapping s) (default_recipients s) (storage s) (sent s) (provisioned s).
Definition set_target_mapping v (s : state) : state :=
  State (message_counter s) v (default_recipients s) (storage s) (sent s) (provisioned s).
Definition set_default_recipients v (s : state) : state :=
  State (message_counter s) (target_mapping s) v (storage s) (sent s) (provisioned s).
Definition set_storage v (s : state) : state :=
  State (message_counter s) (target_mapping s) (default_recipients s) v (sent s) (provisioned s).
Definition set_sent v (s : state) : state :=
  State (message_counter s) (target_mapping s) (default_recipients s) (storage s) v (provisioned s).
Definition set_provisioned v (s : state) : state :=
  State (message_counter s) (target_mapping s) (default_recipients s) (storage s) (sent s) v.

(** Run a storage operation on the handler's storage. *)
Definition on_storage {A} (m : M Redis.server A) : M state A := fun s =>
  let '(r, srv) := m (storage s) in (r, set_storage srv s).

Definition set_dns_report (v : dns_info) (md : metadata) : metadata :=
  Metadata (message_id md) (from md) (to md) (cc md) (bcc md) (subject md)
           (date md) (recipient_domain md) (received_at md) (headers md) (Some v).

Section Handler.
(** [bytes(message)] followed by
    [message_from_bytes(raw_email, policy=default)] *)
Variable message_from_bytes : string → result email_message.
(** [self.dns_validator], with its resolver and configured target domain *)
Variable dns_validator : option (Dns.resolver * option string).
(** [self.tg_client.send_message]: the exception it raises, if any *)
Variable send_message : chat → string → option exn.
(** [self.cf_manager.ensure_tmail_integration]: the ['error'] entry of the
    dictionary it returns, if any *)
Variable ensure_tmail_integration : string → result (option string).
(** [self.redis_storage.message_ttl] *)
Variable message_ttl : Z.

Definition _extract_domain (email_address : string) : result string :=
  if PyStr.contains "@" email_address
  then rmap (fun d => PyStr.lower (PyStr.strip d))
            (PyStr.index (PyStr.split "@" email_address) 1)
  else Ok "unknown".

(** [now_iso] is [datetime.utcnow().isoformat()]. *)
Definition _extract_metadata (email_msg : email_message) (msg_id now_iso : string)
  : result metadata :=
  rbind (header email_msg "From") (fun from_value =>
  rbind (header email_msg "To") (fun to_value =>
  rbind (header email_msg "Cc") (fun cc_value =>
  rbind (header email_msg "Bcc") (fun bcc_value =>
  rbind (header email_msg "Subject") (fun subject_value =>
  rbind (header email_msg "Date") (fun date_value =>
  rbind (rbind (header email_msg "To") _extract_domain) (fun domain =>
  rbind (read_items (items email_msg)) (fun pairs =>
  Ok (Metadata msg_id from_value to_value cc_value bcc_value subject_value
               date_value domain now_iso (dict pairs) None))))))))).

Definition _validate_recipient_dns (domain now_iso : string) : dns_info :=
  let fallback := Unavailable domain "Validator not available" in
  match dns_validator with
  | Some (R, cfg) =>
      match Dns.validate_domain_mx R cfg now_iso (Some domain) with
      | Ok rep => Validated rep
      | Raise _ => fallback
      end
  | None => fallback
  end.

Definition _determine_recipient (s : state) (md : metadata) : string * string :=
  let domain := recipient_domain md in
  match target_mapping s !! domain with
  | Some target => ("custom", target)
  | None =>
      if PyStr.truthy_opt (channel (default_recipients s))
      then ("channel", default "" (channel (default_recipients s)))
      else if PyStr.truthy_opt (group (default_recipients s))
      then ("group", default "" (group (default_recipients s)))
      else ("me", "self")
  end.

Definition _extract_body_preview (email_msg : email_message) : result string :=
  if is_multipart email_msg then
    Ok (default EmptyString
          (head (omap (fun p =>
                         if bool_decide (content_type p = "text/plain")
                         then match content p with
                              | Ok text => Some (PyStr.prefix 500 text)
                              | Raise _ => None
                              end
                         else None)
                      (walk email_msg))))
  else if bool_decide (content_type (body email_msg) = "text/plain")
  then rmap (PyStr.prefix 500) (content (body email_msg))
  else Ok EmptyString.

(** [dns_report.get('mx_records')] and [dns_report.get('has_mx')] *)
Definition report_mx_records (md : metadata) : option (list Dns.mx_entry) :=
  match dns_report md with
  | Some (Validated r) => Some (Dns.mx_records r)
  | _ => None
  end.

Definition report_has_mx (md : metadata) : option bool :=
  match dns_report md with
  | Some (Validated r) => Some (Dns.has_mx r)
  | _ => None
  end.

Definition badge_ok : string := "✅".
Definition badge_warn : string := "⚠️".

Definition dns_line (has_mx : option bool) (mx_count : nat) : string :=
  "**DNS:** " ++ (if default false has_mx then badge_ok else badge_warn) ++ " "
  ++ pretty mx_count ++ " MX записей".

Definition notification_lines (counter : nat) (msg_id : string)
    (email_msg : email_message) (md : metadata) : result (list string) :=
  let lines :=
    [ "📧 **Новое письмо #" ++ pretty counter ++ "**";
      "`" ++ msg_id ++ "`";
      "";
      "**От:** `" ++ from md ++ "`";
      "**Кому:** `" ++ to md ++ "`";
      "**Тема:** " ++ subject md;
      "**Дата:** " ++ date md;
      "" ] in
  let lines :=
    match report_mx_records md with
    | Some (m :: ms) => (lines ++ [dns_line (report_has_mx md) (length (m :: ms))])%list
    | _ => lines
    end in
  rbind (_extract_body_preview email_msg) (fun body_preview =>
  let lines :=
    if PyStr.truthy body_preview
    then (lines ++ [ ""; "**Превью:**"; "```";
                     PyStr.prefix 200 body_preview +:+ "..."; "```" ])%list
    else lines in
  Ok (lines ++
      [ "";
        "**Команды:**";
        "• `/view " +:+ msg_id +:+ "` - Просмотр полного письма";
        "• `/source " +:+ msg_id +:+ "` - Исходный код письма";
        "• `/set_target " +:+ msg_id +:+ " [me/channel/group/id]` - Изменить получателя" ])%list).

Definition _format_notification (counter : nat) (msg_id : string)
    (email_msg : email_message) (md : metadata) : result string :=
  rmap (PyStr.join PyStr.newline) (notification_lines counter msg_id email_msg md).

(** [await self.tg_client.send_message(target, text)] *)
Definition send (target : chat) (text : string) : M state unit := fun s =>
  match send_message target text with
  | Some e => (Raise e, s)
  | None => (Ok tt, set_sent (sent s ++ [(target, text)])%list s)
  end.

Definition _send_telegram_notification (msg_id : string)
    (email_msg : email_message) (md : metadata) : M state unit :=
  try_catch
    (s ← get;
     let '(recipient_type, recipient_id) := _determine_recipient s md in
     if negb (PyStr.truthy recipient_id) then mret tt
     else
       formatted_msg ← lift (_format_notification (message_counter s) msg_id email_msg md);
       if bool_decide (recipient_type = "me")
       then send SavedMessages formatted_msg
       else
         n ← lift (PyText.int recipient_id);
         send (ChatId n) formatted_msg)
    (fun _ => mret tt).

Definition _handle_dns_integration (md : metadata) : M state unit :=
  try_catch
    (let domain := recipient_domain md in
     if PyText.starts_with (String.rev ".t.me") (String.rev domain)
        || PyText.contains_str "t.me" domain
     then
       let telegram_username :=
         PyText.replace "@" "" (PyText.replace ".t.me" "" domain) in
       modify (fun s => set_provisioned (provisioned s ++ [telegram_username])%list s);;
       _ ← lift (ensure_tmail_integration telegram_username);
       mret tt
     else mret tt)
    (fun _ => mret tt).

Definition accepted (msg_id : string) : string :=
  "250 Message " ++ msg_id ++ " accepted".

Definition processing_error (e : exn) : string :=
  "451 Temporary processing error: " ++ exn_msg e.

(** [msg_id] is the generated identifier, [now] the clock in epoch seconds
    and [now_iso] its ISO rendering. *)
Definition handle_message (msg_id raw_email : string) (now : Z) (now_iso : string)
  : M state string :=
  modify (fun s => set_message_counter (S (message_counter s)) s);;
  try_catch
    (email_msg ← lift (message_from_bytes raw_email);
     md ← lift (_extract_metadata email_msg msg_id now_iso);
     let dns := _validate_recipient_dns (recipient_domain md) now_iso in
     let md := set_dns_report dns md in
     _ ← on_storage (Redis.store_email message_ttl now msg_id raw_email md);
     _send_telegram_notification msg_id email_msg md;;
     _handle_dns_integration md;;
     mret (accepted msg_id))
    (fun e => mret (processing_error e)).

End Handler.

(** *** Sample data *)

Definition plain_mail : email_message :=
  EmailMessage [("From", Ok "a@a.com"); ("To", Ok "b@x.com"); ("Subject", Ok "hi")]
               false [] (Part "text/plain" (Ok "hello")).

(** A message whose To field the header parser cannot read. *)
Definition broken_to_mail : email_message :=
  EmailMessage [("From", Ok "a@a.com");
                ("To", Raise (Exn "IndexError" "string index out of range"))]
               false [] (Part "text/plain" (Ok "hello")).

Definition no_mx_report : Dns.report :=
  Dns.Report "x.com" "2024-01-01T00:00:00" [] [] [] [] None false [].

Definition sample_md (domain : string) (dns : option dns_info) : metadata :=
  Metadata "msg_1" "a@a.com" ("b@" ++ domain) "" "" "hi" "" domain
           "2024-01-01T00:00:00" [] dns.

Definition sample_state (mapping : gmap string string) (r : recipients)
    (srv : Redis.server) : state :=
  State 0 mapping r srv [] [].

(** Whether some line of a notification is a DNS summary line. *)
Definition has_dns_line (lines : list string) : bool :=
  existsb (PyText.starts_with "**DNS:**") lines.

(** Recipient-domain extraction as the words "the lower-cased substring
    after the first at-sign" have it. *)
Definition domain_after_first_at (email_address : string) : string :=
  if PyStr.contains "@" email_address
  then PyStr.lower (PyStr.after_first "@" email_address)
  else "unknown".

(** *** Domain extraction *)

Lemma extract_domain_second_field email_address :
  _extract_domain email_address =
    Ok (if PyStr.contains "@" email_address
        then PyStr.lower (PyStr.strip
               (PyStr.before_first "@" (PyStr.after_first "@" email_address)))
        else "unknown").
Proof.
  unfold _extract_domain, PyStr.index.
  destruct (PyStr.contains "@" email_address) eqn:Hat; [|done].
  by rewrite PyStr.split_second.
Qed.

(** C2, as stated, fails on a header with a second at-sign (here, two
    recipients): the code keeps only the field between the first two. *)
Lemma extract_domain_not_whole_suffix :
  _extract_domain "a@x.com, b@y.com" = Ok "x.com, b" ∧
  domain_after_first_at "a@x.com, b@y.com" = "x.com, b@y.com" ∧
  _extract_domain "a@x.com, b@y.com" ≠ Ok (domain_after_first_at "a@x.com, b@y.com").
Proof. split_and!; [reflexivity..|]. vm_compute. discriminate. Qed.

(** C2 (amended). For every address, extraction never raises; it returns
    the sentinel [unknown] when there is no at-sign, and otherwise the
    lower-cased, whitespace-stripped text between the first at-sign and the
    next one (or the end of the string). *)
Theorem extract_domain_between_at_signs :
  (∀ email_address,
     _extract_domain email_address =
       Ok (if PyStr.contains "@" email_address
           then PyStr.lower (PyStr.strip
                  (PyStr.before_first "@" (PyStr.after_first "@" email_address)))
           else "unknown")) ∧
  _extract_domain "a@b.example.com" = Ok "b.example.com" ∧
  _extract_domain "User@B.Example.COM " = Ok "b.example.com" ∧
  _extract_domain "no-at-sign" = Ok "unknown".
Proof.
  split_and!; [apply extract_domain_second_field|reflexivity..].
Qed.

(** *** Routing *)

(** C3. Routing precedence: a mapping entry for the recipient domain wins
    whatever the default recipients are; without one, the channel is used
    when set, otherwise the group when set, otherwise the saved-messages
    target. *)
Theorem routing_precedence (s : state) (md : metadata) :
  (∀ target,
     target_mapping s !! recipient_domain md = Some target →
     _determine_recipient s md = ("custom", target)) ∧
  (∀ id,
     target_mapping s !! recipient_domain md = None →
     channel (default_recipients s) = Some id → id ≠ "" →
     _determine_recipient s md = ("channel", id)) ∧
  (∀ id,
     target_mapping s !! recipient_domain md = None →
     PyStr.truthy_opt (channel (default_recipients s)) = false →
     group (default_recipients s) = Some id → id ≠ "" →
     _determine_recipient s md = ("group", id)) ∧
  (target_mapping s !! recipient_domain md = None →
   PyStr.truthy_opt (channel (default_recipients s)) = false →
   PyStr.truthy_opt (group (default_recipients s)) = false →
   _determine_recipient s md = ("me", "self")).
Proof.
  unfold _determine_recipient. split_and!.
  - by intros target ->.
  - intros id -> -> Hid. by destruct id.
  - intros id -> -> -> Hid. by destruct id.
  - by intros -> -> ->.
Qed.

Lemma routing_precedence_witness :
  let s := sample_state {[ "x.com" := "999" ]} (Recipients None (Some "111") None)
                        Redis.empty_server in
  _determine_recipient s (sample_md "x.com" None) = ("custom", "999") ∧
  _determine_recipient s (sample_md "y.com" None) = ("channel", "111").
Proof.
  intros s. split.
  - apply (proj1 (routing_precedence s (sample_md "x.com" None)) "999").
    reflexivity.
  - apply (proj1 (proj2 (routing_precedence s (sample_md "y.com" None))) "111").
    + reflexivity.
    + reflexivity.
    + discriminate.
Defined.

(** *** The DNS line of a notification *)

Definition one_mx_report : Dns.report :=
  Dns.Report "x.com" "2024-01-01T00:00:00"
             [Dns.MxEntry 10 "mx1.x.com" (Some 300%Z) (Some true)]
             [] [] [] None true [].

Definition sample_lines : list string :=
  Eval vm_compute in
    match notification_lines 1 "msg_1" plain_mail
            (sample_md "x.com" (Some (Validated one_mx_report))) with
    | Ok lines => lines
    | Raise _ => []
    end.

(** C8, as stated, fails for a report without MX records: the guard on
    [mx_records] leaves the DNS line out altogether. *)
Lemma no_dns_line_without_mx :
  Dns.has_mx no_mx_report = false ∧
  rmap has_dns_line
       (notification_lines 1 "msg_1" plain_mail
          (sample_md "x.com" (Some (Validated no_mx_report)))) = Ok false.
Proof. split; vm_compute; reflexivity. Qed.

(** C8 (amended). The DNS line is rendered exactly when the attached
    report has a non-empty MX list: it is then the ninth line, with the
    [ok] badge if [has_mx] is set and the [warn] badge otherwise, followed by
    the number of MX records.  With an empty MX list, or without a
    validator report, the ninth line is blank: the lines are those of the
    notification with the DNS line taken out. *)
Theorem dns_line_iff_mx_records
    (counter : nat) (msg_id : string) (email_msg : email_message) (md : metadata)
    (lines : list string)
    (Hlines : notification_lines counter msg_id email_msg md = Ok lines) :
  match report_mx_records md with
  | Some (m :: ms) =>
      lines !! 8%nat =
        Some ("**DNS:** "
              +:+ (if default false (report_has_mx md) then badge_ok else badge_warn)
              +:+ " " +:+ pretty (length (m :: ms)) +:+ " MX записей") ∧
      has_dns_line lines = true
  | _ =>
      lines !! 8%nat = Some "" ∧
      ∀ r, Dns.mx_records r ≠ [] →
           notification_lines counter msg_id email_msg
             (set_dns_report (Validated r) md) =
           Ok (take 8 lines
               ++ [dns_line (Some (Dns.has_mx r)) (length (Dns.mx_records r))]
               ++ drop 8 lines)%list
  end.
Proof.
  unfold notification_lines in *.
  destruct (_extract_body_preview email_msg) as [preview|e]; [|done].
  cbn [rbind] in *.
  destruct (PyStr.truthy preview);
    destruct (report_mx_records md) as [[|m ms]|] eqn:Hmx;
    inversion Hlines; subst; clear Hlines;
    try (split; [reflexivity|]);
    try reflexivity;
    intros r Hr; unfold report_mx_records, report_has_mx;
    cbn [dns_report set_dns_report];
    destruct (Dns.mx_records r) as [|m' ms'] eqn:Hr'; done.
Qed.

Lemma dns_line_iff_mx_records_witness :
  sample_lines !! 8%nat = Some "**DNS:** ✅ 1 MX записей" ∧
  has_dns_line sample_lines = true.
Proof.
  exact (dns_line_iff_mx_records 1 "msg_1" plain_mail
           (sample_md "x.com" (Some (Validated one_mx_report)))
           sample_lines eq_refl).
Defined.

(** *** Ingestion: what reaches the protocol response *)

Section Ingestion.
Variable message_from_bytes : string → result email_message.
Variable dns_validator : option (Dns.resolver * option string).
Variable send_message : chat → string → option exn.
Variable ensure_tmail_integration : string → result (option string).
Variable message_ttl : Z.

(** A [try] whose handler only logs ends normally, in the state its body
    reached. *)
Lemma swallowed {S} (m : M S unit) (s : S) :
  try_catch m (fun _ => mret tt) s = (Ok tt, (m s).2).
Proof. unfold try_catch. by destruct (m s) as [[[]|e] s']. Qed.

Lemma send_keeps_storage target text s :
  storage (send send_message target text s).2 = storage s.
Proof. unfold send. by destruct (send_message target text). Qed.

Lemma send_failing target text s e :
  (∀ c t, send_message c t = Some e) →
  (send send_message target text s).2 = s.
Proof. intros H. unfold send. by rewrite H. Qed.

Lemma notification_runs msg_id email_msg md s :
  ∃ s', _send_telegram_notification send_message msg_id email_msg md s = (Ok tt, s') ∧
        storage s' = storage s.
Proof.
  unfold _send_telegram_notification. rewrite swallowed. eexists; split; [done|].
  unfold mbind, M_bind, get, lift, mret, M_ret.
  destruct (_determine_recipient s md) as [ty id].
  destruct (negb (PyStr.truthy id)); [done|].
  destruct (_format_notification (message_counter s) msg_id email_msg md); [|done].
  destruct (bool_decide (ty = "me")); [apply send_keeps_storage|].
  destruct (PyText.int id); [apply send_keeps_storage|done].
Qed.

Lemma notification_fails_quietly msg_id email_msg md s e :
  (∀ c t, send_message c t = Some e) →
  _send_telegram_notification send_message msg_id email_msg md s = (Ok tt, s).
Proof.
  intros Hsend. unfold _send_telegram_notification. rewrite swallowed. f_equal.
  unfold mbind, M_bind, get, lift, mret, M_ret.
  destruct (_determine_recipient s md) as [ty id].
  destruct (negb (PyStr.truthy id)); [done|].
  destruct (_format_notification (message_counter s) msg_id email_msg md); [|done].
  destruct (bool_decide (ty = "me")); [by eapply send_failing|].
  destruct (PyText.int id); [by eapply send_failing|done].
Qed.

Lemma dns_integration_runs md s :
  ∃ s', _handle_dns_integration ensure_tmail_integration md s = (Ok tt, s') ∧
        storage s' = storage s ∧ sent s' = sent s.
Proof.
  unfold _handle_dns_integration. rewrite swallowed. eexists; split; [done|].
  unfold mbind, M_bind, modify, lift, mret, M_ret.
  destruct (_ || _); [|done]. simpl.
  by destruct (ensure_tmail_integration _).
Qed.

(** Whatever the storage answers, a message that parses is accepted: the
    result of [store_email] is not looked at. *)
Lemma handle_message_accepts msg_id raw_email now now_iso s email_msg md0 :
  message_from_bytes raw_email = Ok email_msg →
  _extract_metadata email_msg msg_id now_iso = Ok md0 →
  let md := set_dns_report
              (_validate_recipient_dns dns_validator (recipient_domain md0) now_iso) md0 in
  let s1 := set_message_counter (S (message_counter s)) s in
  let stored := Redis.store_email message_ttl now msg_id raw_email md (storage s) in
  ∃ s2 s3,
    handle_message message_from_bytes dns_validator send_message
                   ensure_tmail_integration message_ttl
                   msg_id raw_email now now_iso s = (Ok (accepted msg_id), s3) ∧
    _send_telegram_notification send_message msg_id email_msg md
      (set_storage stored.2 s1) = (Ok tt, s2) ∧
    storage s3 = stored.2 ∧ sent s3 = sent s2.
Proof.
  intros Hparse Hmeta md s1 stored.
  destruct (notification_runs msg_id email_msg md (set_storage stored.2 s1))
    as (s2 & Hsend & Hst2).
  destruct (dns_integration_runs md s2) as (s3 & Hdns & Hst3 & Hsent3).
  exists s2, s3. split_and!; [|done|by rewrite Hst3, Hst2|done].
  unfold handle_message, try_catch, mbind, M_bind, modify, lift, on_storage.
  fold s1. rewrite Hparse, Hmeta. fold md. simpl.
  assert (∃ b, stored = (Ok b, stored.2)) as [b Hb].
  { unfold stored, Redis.store_email, try_catch.
    match goal with |- context [match ?x with _ => _ end] => destruct x as [[?|?] ?] end;
      simpl; eauto. }
  unfold stored in Hb. rewrite Hb. fold stored.
  by rewrite Hsend, Hdns.
Qed.

(** With the key-value server unreachable, every message that parses is
    still answered with the acceptance, and the storage is untouched. *)
Lemma accepted_without_store msg_id raw_email now now_iso s email_msg md0 :
  message_from_bytes raw_email = Ok email_msg →
  _extract_metadata email_msg msg_id now_iso = Ok md0 →
  Redis.up (storage s) = false →
  ∃ s',
    handle_message message_from_bytes dns_validator send_message
                   ensure_tmail_integration message_ttl
                   msg_id raw_email now now_iso s = (Ok (accepted msg_id), s') ∧
    storage s' = storage s.
Proof.
  intros Hparse Hmeta Hdown.
  destruct (handle_message_accepts msg_id raw_email now now_iso s email_msg md0
              Hparse Hmeta) as (s2 & s3 & Hrun & _ & Hst & _).
  exists s3. split; [done|].
  by rewrite Hst, Redis.store_email_down.
Qed.

End Ingestion.

(** *** Collaborators for the examples *)

Definition parses_as (m : email_message) : string → result email_message :=
  fun _ => Ok m.
Definition transport_up : chat → string → option exn := fun _ _ => None.
Definition transport_down : chat → string → option exn :=
  fun _ _ => Some (Exn "RPCError" "FLOOD_WAIT").
Definition provider_ok : string → result (option string) := fun _ => Ok None.
Definition server_down : Redis.server := Redis.Server false ∅ ∅ ∅.

(** C1. With the key-value server unreachable the write raises inside
    [store_email], which answers [False]; [handle_message] does not look at
    that answer and still replies 250, with nothing stored. *)
Theorem store_failure_still_accepted :
  let s := sample_state ∅ initial_recipients server_down in
  let md := set_dns_report (Unavailable "x.com" "Validator not available")
              (Metadata "msg_1" "a@a.com" "b@x.com" "" "" "hi" "" "x.com"
                        "2024-01-01T00:00:00"
                        [("From", "a@a.com"); ("To", "b@x.com"); ("Subject", "hi")]
                        None) in
  let out := handle_message (parses_as plain_mail) None transport_up provider_ok
                            Redis.week "msg_1" "raw bytes" 100
                            "2024-01-01T00:00:00" s in
  Redis.store_email Redis.week 100 "msg_1" "raw bytes" md server_down
    = (Ok false, server_down) ∧
  out.1 = Ok "250 Message msg_1 accepted" ∧
  storage out.2 = server_down ∧
  ∀ (P : Type) (parse_message : string → result P),
    Redis.retrieve_email parse_message (storage out.2) 100 "msg_1" = Ok None.
Proof. vm_compute. by split_and!. Qed.

(** C4. When the message parses, the store succeeds and the transport
    raises on every send, the exception is caught: the storage is exactly
    as [store_email] left it, the record can be read back, nothing was
    delivered, and the reply is the 250 acceptance. *)
Theorem send_failure_keeps_acceptance
    (message_from_bytes : string → result email_message)
    (dns_validator : option (Dns.resolver * option string))
    (send_message : chat → string → option exn)
    (ensure_tmail_integration : string → result (option string))
    (message_ttl : Z)
    (msg_id raw_email : string) (now : Z) (now_iso : string) (s : state)
    (email_msg : email_message) (md0 : metadata) (e : exn) (srv' : Redis.server)
    (Hparse : message_from_bytes raw_email = Ok email_msg)
    (Hmeta : _extract_metadata email_msg msg_id now_iso = Ok md0)
    (Hstore :
       Redis.store_email message_ttl now msg_id raw_email
         (set_dns_report
            (_validate_recipient_dns dns_validator (recipient_domain md0) now_iso) md0)
         (storage s) = (Ok true, srv'))
    (Hsend : ∀ c t, send_message c t = Some e) :
  ∃ s',
    handle_message message_from_bytes dns_validator send_message
                   ensure_tmail_integration message_ttl
                   msg_id raw_email now now_iso s = (Ok (accepted msg_id), s') ∧
    storage s' = srv' ∧
    Redis.live (storage s') now msg_id =
      Some (Redis.EmailData raw_email
              (set_dns_report
                 (_validate_recipient_dns dns_validator (recipient_domain md0) now_iso)
                 md0)) ∧
    sent s' = sent s.
Proof.
  destruct (handle_message_accepts message_from_bytes dns_validator send_message
              ensure_tmail_integration message_ttl msg_id raw_email now now_iso s
              email_msg md0 Hparse Hmeta) as (s2 & s3 & Hrun & Hnotify & Hst & Hsent).
  rewrite Hstore in Hst, Hnotify. simpl in Hst, Hnotify.
  rewrite (notification_fails_quietly send_message _ _ _ _ e Hsend) in Hnotify.
  inversion Hnotify; subst s2; clear Hnotify.
  exists s3. split_and!; [done|done| |done].
  rewrite Hst. by eapply Redis.store_email_then_live.
Qed.

Lemma send_failure_keeps_acceptance_witness :
  ∃ s',
    handle_message (parses_as plain_mail) None transport_down provider_ok
                   Redis.week "msg_1" "raw bytes" 100 "2024-01-01T00:00:00"
                   (sample_state ∅ initial_recipients Redis.empty_server)
      = (Ok (accepted "msg_1"), s') ∧
    storage s' =
      (Redis.store_email Redis.week 100 "msg_1" "raw bytes"
         (set_dns_report (Unavailable "x.com" "Validator not available")
            (Metadata "msg_1" "a@a.com" "b@x.com" "" "" "hi" "" "x.com"
                      "2024-01-01T00:00:00"
                      [("From", "a@a.com"); ("To", "b@x.com"); ("Subject", "hi")]
                      None))
         Redis.empty_server).2 ∧
    Redis.live (storage s') 100 "msg_1" =
      Some (Redis.EmailData "raw bytes"
         (set_dns_report (Unavailable "x.com" "Validator not available")
            (Metadata "msg_1" "a@a.com" "b@x.com" "" "" "hi" "" "x.com"
                      "2024-01-01T00:00:00"
                      [("From", "a@a.com"); ("To", "b@x.com"); ("Subject", "hi")]
                      None))) ∧
    sent s' = [].
Proof.
  apply (send_failure_keeps_acceptance (parses_as plain_mail) None transport_down
           provider_ok Redis.week "msg_1" "raw bytes" 100 "2024-01-01T00:00:00"
           (sample_state ∅ initial_recipients Redis.empty_server)
           plain_mail
           (Metadata "msg_1" "a@a.com" "b@x.com" "" "" "hi" "" "x.com"
                     "2024-01-01T00:00:00"
                     [("From", "a@a.com"); ("To", "b@x.com"); ("Subject", "hi")]
                     None)
           (Exn "RPCError" "FLOOD_WAIT")).
  - reflexivity.
  - reflexivity.
  - vm_compute. reflexivity.
  - reflexivity.
Defined.

End Smtp.

(** ** [services/telegram_handler.py]: the [/set_target] command *)
Module Telegram.

Import Smtp.

(** The places from which a command replies: the end of a branch, the
    [except] around the chat check, and the outer [except].  A command goes
    through each of them at most once. *)
Inductive reply_site :=
| Branch
| ChatCheck
| Handler.

(** One incoming command: the text of the message ([None] when it has
    none), what [client.get_chat] answers at that moment (the chat title or
    an exception), and the exception [message.reply_text] raises when it is
    called from a place with a text, if any. *)
Record incoming := Incoming {
  text : option string;
  get_chat : Z → result string;
  reply_text : reply_site → string → option exn
}.

Definition usage : string :=
  "❌ Укажите тип получателя:" +:+ PyStr.newline
  +:+ "`/set_target me` - себе" +:+ PyStr.newline
  +:+ "`/set_target channel <ID>` - канал" +:+ PyStr.newline
  +:+ "`/set_target group <ID>` - группа" +:+ PyStr.newline
  +:+ "`/set_target custom <domain>=<ID>` - домен".

Definition failure (e : exn) : string := "❌ Ошибка: " +:+ exn_msg e.

(** [default_recipients.update({...})] with the three keys of the command *)
Definition recipients_update (target_type target_id : string) : recipients :=
  if bool_decide (target_type = "channel")
  then Recipients None (Some target_id) None
  else Recipients None None (Some target_id).

(** [await message.reply_text(text)]: the text is delivered, or the call
    raises. *)
Definition reply (c : incoming) (site : reply_site) (text : string)
  : M state string :=
  match reply_text c site text with
  | None => mret text
  | Some e => raise e
  end.

(** Every path of the handler ends with one call of [reply_text], and goes
    on to the next one only when that call raises: the value returned is the
    reply that was delivered, and an exception raised by the reply of the
    outer handler leaves the command. *)
Definition set_target_command (c : incoming) : M state string :=
  try_catch
    (t ← lift (match text c with
               | Some t => Ok t
               | None => Raise (Exn "AttributeError"
                                    "'NoneType' object has no attribute 'split'")
               end);
     match drop 1 (PyText.split_ws t) with
     | [] => reply c Branch usage
     | arg0 :: rest =>
         let target_type := PyStr.lower arg0 in
         if bool_decide (target_type = "me") then
           modify (set_default_recipients (Recipients (Some "self") None None));;
           reply c Branch "✅ Уведомления будут отправляться вам в Saved Messages"
         else if bool_decide (target_type = "channel")
                 || bool_decide (target_type = "group") then
           match rest with
           | [] => reply c Branch ("❌ Укажите ID " +:+ target_type)
           | target_id :: _ =>
               try_catch
                 (n ← lift (PyText.int target_id);
                  title ← lift (get_chat c n);
                  modify (set_default_recipients
                            (recipients_update target_type target_id));;
                  reply c Branch ("✅ Уведомления будут отправляться в " +:+ target_type
                           +:+ ": " +:+ title))
                 (fun e => reply c ChatCheck (failure e))
           end
         else if bool_decide (target_type = "custom") then
           match rest with
           | arg1 :: _ =>
               if PyStr.contains "=" arg1 then
                 match PyText.split_once "=" arg1 with
                 | [domain; chat_id] =>
                     modify (fun s =>
                       set_target_mapping (<[domain := chat_id]> (target_mapping s)) s);;
                     reply c Branch ("✅ Письма для `" +:+ domain
                              +:+ "` будут отправляться в `" +:+ chat_id +:+ "`")
                 | _ => raise (Exn "ValueError" "not enough values to unpack")
                 end
               else reply c Branch "❌ Формат: `/set_target custom domain=ID`"
           | [] => reply c Branch "❌ Формат: `/set_target custom domain=ID`"
           end
         else reply c Branch "❌ Неизвестный тип получателя"
     end)
    (fun e => reply c Handler (failure e)).

(** The handler state after a command, and after a sequence of them. *)
Definition step (s : state) (c : incoming) : state := (set_target_command c s).2.

Definition run (cmds : list incoming) (s : state) : state := foldl step s cmds.

(** *** Vocabulary of the invariant *)

Inductive target :=
| Self
| Channel (id : string)
| Group (id : string).

Definition recipients_for (t : target) : recipients :=
  match t with
  | Self => Recipients (Some "self") None None
  | Channel id => Recipients None (Some id) None
  | Group id => Recipients None None (Some id)
  end.

Definition well_formed (t : target) : Prop :=
  match t with
  | Self => True
  | Channel id | Group id => id ≠ ""
  end.

(** Number of entries of [default_recipients] that are set. *)
Definition active_count (r : recipients) : nat :=
  (if PyStr.truthy_opt (me r) then 1 else 0)
  + (if PyStr.truthy_opt (channel r) then 1 else 0)
  + (if PyStr.truthy_opt (group r) then 1 else 0).

(** A command that installs [t] whatever was active before. *)
Definition writes (c : incoming) (t : target) : Prop :=
  ∀ s, default_recipients (step s c) = recipients_for t.

(** A command that leaves the active target alone. *)
Definition silent (c : incoming) : Prop :=
  ∀ s, default_recipients (step s c) = default_recipients s.

(** A command whose first argument is [custom], in any case. *)
Definition is_custom (c : incoming) : Prop :=
  ∃ t name arg0 rest,
    text c = Some t ∧ PyText.split_ws t = name :: arg0 :: rest ∧
    PyStr.lower arg0 = "custom".

Definition always (title : string) : Z → result string := fun _ => Ok title.
Definition never : Z → result string :=
  fun _ => Raise (Exn "PeerIdInvalid" "The peer id being used is invalid").

(** A chat in which every reply is delivered, and one in which none is. *)
Definition delivered : reply_site → string → option exn := fun _ _ => None.
Definition flooded : reply_site → string → option exn :=
  fun _ _ => Some (Exn "FloodWait" "A wait of 30 seconds is required").

Definition sample_session : list incoming :=
  [ Incoming (Some "/set_target group -200") (always "Ops") delivered;
    Incoming (Some "/set_target channel -100111") (always "News") flooded;
    Incoming (Some "/set_target custom x.com=999") never delivered;
    Incoming (Some "/set_target group -300") never delivered;
    Incoming (Some "/set_target channel abc") (always "News") delivered;
    Incoming (Some "/set_target") never flooded;
    Incoming None never delivered ].

(** *** One command *)

Ltac run_set_target :=
  unfold step, set_target_command, try_catch, mbind, M_bind, lift, modify,
    reply, raise, mret, M_ret; simpl.

(** Case analysis on every reply of the command in the goal. *)
Ltac case_replies c :=
  repeat match goal with
         | |- context [reply_text c ?site ?t] =>
             destruct (reply_text c site t); simpl
         end.

(** The same command in a chat where every reply is delivered. *)
Definition answered (c : incoming) : incoming :=
  Incoming (text c) (get_chat c) (fun _ _ => None).

(** The state a command leaves does not depend on what happens to its
    replies: every change is made before the reply is sent. *)
Lemma step_answered c s : step s c = step s (answered c).
Proof.
  run_set_target.
  destruct (text c) as [t|]; [|by case_replies c].
  destruct (drop 1 (PyText.split_ws t)) as [|arg0 rest]; [by case_replies c|].
  destruct (bool_decide (PyStr.lower arg0 = "me")); [by case_replies c|].
  destruct (bool_decide (PyStr.lower arg0 = "channel") ||
            bool_decide (PyStr.lower arg0 = "group")).
  { destruct rest as [|target_id rest]; [by case_replies c|].
    destruct (PyText.int target_id) as [n|e]; [|by case_replies c].
    destruct (get_chat c n) as [title|e]; by case_replies c. }
  destruct (bool_decide (PyStr.lower arg0 = "custom")); [|by case_replies c].
  destruct rest as [|arg1 rest]; [by case_replies c|].
  unfold PyText.split_once.
  destruct (PyStr.contains "=" arg1); by case_replies c.
Qed.

(** A command either installs one well-formed target, whatever the state,
    or leaves the default recipients as they are. *)
Lemma writes_or_silent c : silent c ∨ ∃ t, writes c t ∧ well_formed t.
Proof.
  unfold silent, writes. setoid_rewrite (step_answered c). run_set_target.
  destruct (text c) as [t|]; [|by left].
  destruct (drop 1 (PyText.split_ws t)) as [|arg0 rest]; [by left|].
  destruct (bool_decide (PyStr.lower arg0 = "me")).
  { right. by exists Self. }
  destruct (bool_decide (PyStr.lower arg0 = "channel")) eqn:Hch; simpl.
  { destruct rest as [|target_id rest]; [by left|].
    destruct (PyText.int target_id) as [n|e] eqn:Hint; [|by left].
    destruct (get_chat c n) as [title|e]; [|by left].
    right. exists (Channel target_id). split.
    - intros s. unfold recipients_update. by rewrite Hch.
    - simpl. by eapply PyText.int_nonempty. }
  destruct (bool_decide (PyStr.lower arg0 = "group")) eqn:Hgr; simpl.
  { destruct rest as [|target_id rest]; [by left|].
    destruct (PyText.int target_id) as [n|e] eqn:Hint; [|by left].
    destruct (get_chat c n) as [title|e]; [|by left].
    right. exists (Group target_id). split.
    - intros s. unfold recipients_update. by rewrite Hch.
    - simpl. by eapply PyText.int_nonempty. }
  left. intros s.
  destruct (bool_decide (PyStr.lower arg0 = "custom")); [|done].
  destruct rest as [|arg1 rest]; [done|].
  unfold PyText.split_once. by destruct (PyStr.contains "=" arg1).
Qed.

(** Setting an entry of the per-domain mapping does not touch the default
    recipients. *)
Lemma custom_is_silent c : is_custom c → silent c.
Proof.
  intros (t & name & arg0 & rest & Ht & Hargs & Hcustom) s.
  rewrite step_answered. run_set_target.
  rewrite Ht, Hargs. simpl. rewrite Hcustom. simpl.
  destruct rest as [|arg1 rest]; [done|].
  unfold PyText.split_once. by destruct (PyStr.contains "=" arg1).
Qed.

Lemma well_formed_one_active t :
  well_formed t → active_count (recipients_for t) = 1.
Proof. destruct t as [|id|id]; simpl; [done|..]; by destruct id. Qed.

(** *** Sequences of commands *)

Lemma run_app cmds1 cmds2 s : run (cmds1 ++ cmds2) s = run cmds2 (run cmds1 s).
Proof. apply foldl_app. Qed.

Lemma run_silent cmds s :
  Forall silent cmds → default_recipients (run cmds s) = default_recipients s.
Proof.
  intros H. revert s. induction H as [|c cmds Hc _ IH]; intros s; [done|].
  simpl. by rewrite IH, Hc.
Qed.

Lemma run_one_active cmds s :
  active_count (default_recipients s) = 1 →
  active_count (default_recipients (run cmds s)) = 1.
Proof.
  revert s. induction cmds as [|c cmds IH]; intros s Hs; [done|].
  simpl. apply IH.
  destruct (writes_or_silent c) as [Hc|(t & Hc & Ht)]; rewrite Hc; [done|].
  by apply well_formed_one_active.
Qed.

(** C9. From the handler's initial recipients, after any sequence of
    [/set_target] commands exactly one of the three default recipients is
    set.  Every command either installs one target or leaves the default
    recipients alone; the target in force is the one installed by the last
    command that installed any (the initial one if none did), and a
    [custom] command, which only writes the per-domain mapping, never
    installs one. *)
Theorem last_writer_wins (cmds : list incoming) (s0 : state)
    (Hinit : default_recipients s0 = initial_recipients) :
  active_count (default_recipients (run cmds s0)) = 1 ∧
  Forall (fun c => silent c ∨ ∃ t, writes c t ∧ well_formed t) cmds ∧
  (∀ before c after t,
     cmds = (before ++ c :: after)%list → writes c t → Forall silent after →
     default_recipients (run cmds s0) = recipients_for t) ∧
  (Forall silent cmds → default_recipients (run cmds s0) = initial_recipients) ∧
  Forall (fun c => is_custom c → silent c) cmds.
Proof.
  split_and!.
  - apply run_one_active. by rewrite Hinit.
  - apply Forall_forall. intros c _. apply writes_or_silent.
  - intros before c after t -> Hc Hafter.
    rewrite run_app. simpl. rewrite run_silent by done. apply Hc.
  - intros H. by rewrite run_silent.
  - apply Forall_forall. intros c _. apply custom_is_silent.
Qed.

Lemma last_writer_wins_witness :
  active_count
    (default_recipients
       (run sample_session (sample_state ∅ initial_recipients Redis.empty_server))) = 1 ∧
  default_recipients
    (run sample_session (sample_state ∅ initial_recipients Redis.empty_server))
    = Recipients None (Some "-100111") None.
Proof.
  pose proof (last_writer_wins sample_session
                (sample_state ∅ initial_recipients Redis.empty_server) eq_refl)
    as (Hone & _ & Hlast & _ & _).
  split; [exact Hone|].
  apply (Hlast [Incoming (Some "/set_target group -200") (always "Ops") delivered]
               (Incoming (Some "/set_target channel -100111") (always "News") flooded)
               (drop 2 sample_session)
               (Channel "-100111")).
  - reflexivity.
  - intros s. reflexivity.
  - repeat constructor; intros s; reflexivity.
Defined.

End Telegram.

(** ** More on [core/redis_storage.py]: retention and the indexes *)
Module Retention.

Import Redis.

(** A server after losing its connection. *)
Definition unplugged (srv : server) : server :=
  Server false (strings srv) (sets srv) (zsets srv).

(** The recency index of a server. *)
Definition recency (srv : server) : gmap string Z :=
  default ∅ (zsets srv !! "index:timestamp").

(** The identifiers indexed under a recipient domain. *)
Definition domain_index (srv : server) (d : string) : gset string :=
  default ∅ (sets srv !! ("index:domain:" ++ d)).

(** What a successful [store_email] leaves behind: the two keys with their
    expiry, the identifier in the domain set, and the recency index with the
    new entry after the sweep of old scores. *)
Definition after_store (ttl now : Z) (email_id raw_email : string) (md : metadata)
    (srv : server) : server :=
  let indexed := <[email_id := now]> (recency srv) in
  Server true
    (<["email:meta:" ++ email_id := (Json md, (now + ttl)%Z)]>
       (<["email:raw:" ++ email_id := (Pickled raw_email, (now + ttl)%Z)]> (strings srv)))
    (<["index:domain:" ++ recipient_domain md :=
         {[email_id]} ∪ domain_index srv (recipient_domain md)]> (sets srv))
    (<["index:timestamp" :=
         filter (fun p => ¬ (0 ≤ p.2 ∧ p.2 ≤ now - ttl)%Z) indexed]>
       (<["index:timestamp" := indexed]> (zsets srv))).

Lemma store_email_succeeds ttl now email_id raw_email md srv :
  up srv = true → (0 < ttl)%Z →
  store_email ttl now email_id raw_email md srv =
    (Ok true, after_store ttl now email_id raw_email md srv).
Proof.
  intros Hup Httl.
  unfold store_email, try_catch, mbind, M_bind, execute, _cleanup_old_indexes,
    zremrangebyscore, mret, M_ret.
  rewrite Hup. simpl. rewrite !bool_decide_eq_true_2 by done. simpl.
  rewrite Hup. simpl. unfold after_store, recency, domain_index.
  by rewrite lookup_insert_eq.
Qed.

Lemma store_email_true_inv ttl now email_id raw_email md srv srv' :
  store_email ttl now email_id raw_email md srv = (Ok true, srv') →
  up srv = true ∧ (0 < ttl)%Z ∧ srv' = after_store ttl now email_id raw_email md srv.
Proof.
  intros H.
  destruct (up srv) eqn:Hup; [|by rewrite store_email_down in H].
  destruct (decide (0 < ttl)%Z) as [Httl|Httl].
  - rewrite store_email_succeeds in H by done. by inversion H.
  - exfalso. revert H.
    unfold store_email, try_catch, mbind, M_bind, execute. rewrite Hup. simpl.
    rewrite !bool_decide_eq_false_2 by done. simpl. discriminate.
Qed.

(** What a retrieval gives for a record with these raw bytes. *)
Definition parsed_record {P} (parse_message : string → result P)
    (raw_email : string) (md : metadata) : option retrieved :=
  match parse_message raw_email with
  | Ok email_msg => Some (Retrieved (EmailData raw_email md) email_msg)
  | Raise _ => None
  end.

Lemma retrieve_after_store {P} (parse_message : string → result P)
    ttl now email_id raw_email md srv later :
  retrieve_email parse_message (after_store ttl now email_id raw_email md srv)
                 later email_id =
    Ok (if bool_decide (later < now + ttl)%Z
        then parsed_record parse_message raw_email md else None).
Proof.
  rewrite retrieve_email_live by done. f_equal.
  unfold retrievable, live, get_key, after_store. simpl.
  rewrite lookup_insert_ne by done. rewrite !lookup_insert_eq.
  by case_bool_decide.
Qed.

Lemma slice_to_length_le {A} (l : list A) (n : Z) :
  (0 ≤ n)%Z → (length (slice_to l n) ≤ Z.to_nat n)%nat.
Proof.
  intros Hn. unfold slice_to. rewrite bool_decide_eq_true_2 by done.
  rewrite length_take. lia.
Qed.

Lemma collect_outcome {P} (parse_message : string → result P) st now ids :
  collect parse_message st now ids =
    Ok (if up st then omap (retrievable parse_message st now) ids else []).
Proof.
  destruct (up st) eqn:Hup; [by apply collect_live|].
  induction ids as [|i ids IH]; csimpl; [done|].
  by rewrite retrieve_email_down, IH.
Qed.

(** The first entry of a non-empty list sorted by [zrev_le] has the
    highest score. *)
Lemma zrev_all_head z email_id now :
  z !! email_id = Some now →
  (∀ m score, z !! m = Some score → m ≠ email_id → (score < now)%Z) →
  ∃ rest, zrev_all z = (email_id, now) :: rest.
Proof.
  intros Hin Hmax.
  pose proof (StronglySorted_merge_sort zrev_le (map_to_list z)) as Hsorted.
  pose proof (merge_sort_Permutation zrev_le (map_to_list z)) as Hperm.
  fold (zrev_all z) in Hsorted, Hperm.
  assert ((email_id, now) ∈ zrev_all z) as Hmem.
  { rewrite Hperm. by apply elem_of_map_to_list. }
  destruct (zrev_all z) as [|[m score] rest]; [by apply elem_of_nil in Hmem|].
  exists rest. f_equal.
  assert (z !! m = Some score) as Hm.
  { apply elem_of_map_to_list. rewrite <- Hperm. by left. }
  destruct (decide (m = email_id)) as [->|Hne]; [congruence|].
  exfalso. apply elem_of_cons in Hmem as [[= ? ?]|Hrest]; [done|].
  apply StronglySorted_inv in Hsorted as [_ Hall].
  rewrite Forall_forall in Hall. apply Hall, zrev_le_score in Hrest. simpl in Hrest.
  specialize (Hmax m score Hm Hne). lia.
Qed.

Lemma retrieve_after_success {P} (parse_message : string → result P)
    ttl now email_id raw_email md srv srv' later :
  store_email ttl now email_id raw_email md srv = (Ok true, srv') →
  retrieve_email parse_message srv' later email_id =
    Ok (if bool_decide (later < now + ttl)%Z
        then parsed_record parse_message raw_email md else None).
Proof.
  intros (_ & _ & ->)%store_email_true_inv. apply retrieve_after_store.
Qed.

Lemma recency_after_success ttl now email_id raw_email md srv srv' m score :
  store_email ttl now email_id raw_email md srv = (Ok true, srv') →
  recency srv' !! m = Some score ↔
    (if bool_decide (m = email_id) then score = now
     else recency srv !! m = Some score) ∧
    ¬ (0 ≤ score ∧ score ≤ now - ttl)%Z.
Proof.
  intros (_ & _ & ->)%store_email_true_inv.
  unfold recency at 1, after_store. simpl. rewrite lookup_insert_eq. simpl.
  rewrite map_lookup_filter_Some. simpl.
  case_bool_decide as Hm.
  - subst m. rewrite lookup_insert_eq. split; intros [H1 H2]; split; congruence.
  - by rewrite lookup_insert_ne.
Qed.

(** A search without a domain, on a server that answers, with indexes the
    server accepts. *)
Lemma search_without_domain {P} (parse_message : string → result P)
    st now limit offset :
  up st = true → (0 ≤ limit)%Z → (0 ≤ offset < 2 ^ 63)%Z →
  (offset + limit ≤ 2 ^ 63)%Z →
  search_emails parse_message st now None limit offset =
    Ok (omap (fun p : string * Z => retrievable parse_message st now p.1)
             (take (Z.to_nat limit) (drop (Z.to_nat offset) (zrev_all (recency st))))).
Proof.
  intros Hup Hlimit Hoffset Hrange.
  rewrite search_without_domain_result by (done || lia). rewrite Hup.
  unfold int64. rewrite !bool_decide_eq_true_2 by lia. reflexivity.
Qed.

(** *** Sample stores for the witnesses *)

Definition first_message : metadata := sample_metadata "m100".

Definition one_message : server :=
  (store_email week 100 "m100" "raw 100" first_message empty_server).2.

(** X1. A stored message is read back at any time before [ttl] seconds
    have passed, with the same raw bytes and the same metadata, together
    with what the mail parser makes of those bytes; when the parser raises
    on them the retrieval answers [None], although the record is there.
    From [ttl] seconds on the retrieval answers [None]. *)
Theorem stored_record_round_trip {P} (parse_message : string → result P)
    (ttl now : Z) (email_id raw_email : string) (md : metadata)
    (srv srv' : server) (later : Z)
    (Hstore : store_email ttl now email_id raw_email md srv = (Ok true, srv')) :
  retrieve_email parse_message srv' later email_id =
    Ok (if bool_decide (later < now + ttl)%Z
        then match parse_message raw_email with
             | Ok email_msg => Some (Retrieved (EmailData raw_email md) email_msg)
             | Raise _ => None
             end
        else None).
Proof. by eapply (retrieve_after_success parse_message). Qed.

Lemma stored_record_round_trip_witness :
  retrieve_email sample_parse one_message (99 + week) "m100" =
    Ok (Some (Retrieved (EmailData "raw 100" first_message) 7%nat)) ∧
  retrieve_email sample_parse one_message (100 + week) "m100" = Ok None ∧
  retrieve_email sample_parse
    (store_email week 100 "m101" "!" (sample_metadata "m101") empty_server).2
    200 "m101" = Ok None.
Proof.
  split_and!.
  - apply (stored_record_round_trip sample_parse week 100 "m100" "raw 100" first_message
             empty_server one_message (99 + week)).
    vm_compute. reflexivity.
  - apply (stored_record_round_trip sample_parse week 100 "m100" "raw 100" first_message
             empty_server one_message (100 + week)).
    vm_compute. reflexivity.
  - apply (stored_record_round_trip sample_parse week 100 "m101" "!"
             (sample_metadata "m101") empty_server
             (store_email week 100 "m101" "!" (sample_metadata "m101") empty_server).2
             200).
    vm_compute. reflexivity.
Defined.

(** X2. After a successful store the recency index holds the new
    identifier with the current time as score, keeps every other entry whose
    score is outside the swept range, and holds no entry with a score between
    0 and [now - ttl]. *)
Theorem store_updates_recency_index
    (ttl now : Z) (email_id raw_email : string) (md : metadata)
    (srv srv' : server) (m : string) (score : Z)
    (Hstore : store_email ttl now email_id raw_email md srv = (Ok true, srv')) :
  recency srv' !! m = Some score ↔
    (if bool_decide (m = email_id) then score = now
     else recency srv !! m = Some score) ∧
    ¬ (0 ≤ score ∧ score ≤ now - ttl)%Z.
Proof. by eapply recency_after_success. Qed.

Lemma store_updates_recency_index_witness :
  (recency one_message !! "m100" = Some 100%Z ↔
     (if bool_decide ("m100" = "m100") then 100%Z = 100%Z
      else recency empty_server !! "m100" = Some 100%Z) ∧
     ¬ (0 ≤ 100 ∧ 100 ≤ 100 - week)%Z).
Proof.
  apply (store_updates_recency_index week 100 "m100" "raw 100" first_message
           empty_server one_message "m100" 100).
  vm_compute. reflexivity.
Defined.

(** X3. A message stored when every other indexed message has a smaller
    score is the first result of a search without a domain, for as long as
    it has not expired, when the mail parser accepts its raw bytes and the
    limit is one the server accepts as an index (at most 2^63). *)
Theorem newest_message_listed_first {P} (parse_message : string → result P)
    (ttl now : Z) (email_id raw_email : string) (md : metadata)
    (srv srv' : server) (later limit : Z) (email_msg : P)
    (Hstore : store_email ttl now email_id raw_email md srv = (Ok true, srv'))
    (Hnewest : ∀ m score, recency srv !! m = Some score → m ≠ email_id → (score < now)%Z)
    (Hlive : (later < now + ttl)%Z)
    (Hparse : parse_message raw_email = Ok email_msg)
    (Hlimit : (0 < limit)%Z)
    (Hrange : (limit ≤ 2 ^ 63)%Z) :
  ∃ others,
    search_emails parse_message srv' later None limit 0 =
      Ok (Retrieved (EmailData raw_email md) email_msg :: others).
Proof.
  pose proof (fun m score =>
                recency_after_success ttl now email_id raw_email md srv srv' m score Hstore)
    as Hindex.
  pose proof Hstore as Hinv.
  apply store_email_true_inv in Hinv as (_ & Httl & Hsrv').
  assert (up srv' = true) as Hup by (by rewrite Hsrv').
  destruct (zrev_all_head (recency srv') email_id now) as [rest Hhead].
  { apply Hindex. rewrite bool_decide_eq_true_2 by done. split; [done|lia]. }
  { intros m score Hm Hne. apply Hindex in Hm as [Hm _].
    rewrite bool_decide_eq_false_2 in Hm by done. by eapply Hnewest. }
  rewrite search_without_domain by (done || lia).
  rewrite Hhead. simpl.
  destruct (Z.to_nat limit) as [|n] eqn:Hn; [lia|]. csimpl.
  pose proof (retrieve_after_success parse_message ttl now email_id raw_email md
                srv srv' later Hstore) as Hback.
  rewrite retrieve_email_live in Hback by done.
  rewrite bool_decide_eq_true_2 in Hback by done.
  unfold parsed_record in Hback. rewrite Hparse in Hback.
  inversion Hback as [Hrec]. rewrite Hrec. eauto.
Qed.

Lemma newest_message_listed_first_witness :
  ∃ others,
    search_emails sample_parse three_messages 400 None 10 0 =
      Ok (found_message "m300" "raw 300" :: others).
Proof.
  apply (newest_message_listed_first sample_parse
           week 300 "m300" "raw 300" (sample_metadata "m300")
           (store_email week 200 "m200" "raw 200" (sample_metadata "m200")
              (store_email week 100 "m100" "raw 100" (sample_metadata "m100")
                 empty_server).2).2
           three_messages 400 10 7%nat).
  - vm_compute. reflexivity.
  - intros m score Hm Hne.
    apply elem_of_map_to_list in Hm.
    match type of Hm with _ ∈ ?l =>
      assert (l = [("m100", 100%Z); ("m200", 200%Z)]) as Heq
        by (vm_compute; reflexivity);
      rewrite Heq in Hm; clear Heq end.
    apply elem_of_cons in Hm as [[= -> ->]|Hm]; [reflexivity|].
    apply elem_of_cons in Hm as [[= -> ->]|Hm]; [reflexivity|].
    by apply elem_of_nil in Hm.
  - reflexivity.
  - reflexivity.
  - reflexivity.
  - vm_compute. discriminate.
Defined.

(** X4. After a successful store the identifier is in the set of its
    recipient domain, and a search for that domain with a limit that covers
    the set returns the stored record, with what the mail parser makes of
    its raw bytes, while it has not expired and when the parser accepts
    those bytes. *)
Theorem stored_record_found_by_domain {P} (parse_message : string → result P)
    (ttl now : Z) (email_id raw_email : string) (md : metadata)
    (srv srv' : server) (later limit offset : Z) (email_msg : P)
    (Hstore : store_email ttl now email_id raw_email md srv = (Ok true, srv'))
    (Hdomain : recipient_domain md ≠ "")
    (Hlive : (later < now + ttl)%Z)
    (Hparse : parse_message raw_email = Ok email_msg)
    (Hlimit : (Z.of_nat (size (domain_index srv' (recipient_domain md))) ≤ limit)%Z) :
  email_id ∈ domain_index srv' (recipient_domain md) ∧
  ∃ found,
    search_emails parse_message srv' later (Some (recipient_domain md)) limit offset
      = Ok found ∧
    Retrieved (EmailData raw_email md) email_msg ∈ found.
Proof.
  pose proof (retrieve_after_success parse_message ttl now email_id raw_email md
                srv srv' later Hstore) as Hback.
  apply store_email_true_inv in Hstore as (_ & _ & Hsrv').
  assert (up srv' = true) as Hup by (by rewrite Hsrv').
  rewrite retrieve_email_live, bool_decide_eq_true_2 in Hback by done.
  unfold parsed_record in Hback. rewrite Hparse in Hback.
  assert (email_id ∈ domain_index srv' (recipient_domain md)) as Hmember.
  { rewrite Hsrv'. unfold domain_index at 1, after_store. simpl.
    rewrite lookup_insert_eq. simpl. set_solver. }
  split; [done|].
  unfold search_emails, smembers.
  assert (PyStr.truthy_opt (Some (recipient_domain md)) = true) as ->.
  { simpl. by destruct (recipient_domain md). }
  rewrite Hup. simpl. fold (domain_index srv' (recipient_domain md)).
  rewrite collect_live by done. simpl. eexists; split; [done|].
  apply list_elem_of_omap. exists email_id. split; [|by inversion Hback].
  unfold slice_to. rewrite bool_decide_eq_true_2 by lia.
  rewrite take_ge; [by apply elem_of_elements|].
  unfold size, set_size in Hlimit. simpl in Hlimit. lia.
Qed.

Lemma stored_record_found_by_domain_witness :
  "m100" ∈ domain_index one_message "x.com" ∧
  ∃ found,
    search_emails sample_parse one_message 200 (Some "x.com") 20 0 = Ok found ∧
    found_message "m100" "raw 100" ∈ found.
Proof.
  apply (stored_record_found_by_domain sample_parse
           week 100 "m100" "raw 100" first_message
           empty_server one_message 200 20 0 7%nat).
  - vm_compute. reflexivity.
  - discriminate.
  - reflexivity.
  - reflexivity.
  - vm_compute. discriminate.
Defined.

(** X5. With the connection lost nothing raises and nothing changes: a
    store answers [False] and leaves the server as it was, a retrieval
    answers [None] and a search answers the empty list, whatever is stored. *)
Theorem lost_connection_degrades {P} (parse_message : string → result P)
    (ttl now : Z) (email_id raw_email : string) (md : metadata) (srv : server)
    (domain : option string) (limit offset : Z)
    (Hdown : up srv = false) :
  store_email ttl now email_id raw_email md srv = (Ok false, srv) ∧
  retrieve_email parse_message srv now email_id = Ok None ∧
  search_emails parse_message srv now domain limit offset = Ok [].
Proof.
  split_and!.
  - by apply store_email_down.
  - by apply retrieve_email_down.
  - unfold search_emails, smembers, zrevrange. rewrite Hdown.
    by destruct (PyStr.truthy_opt domain).
Qed.

Lemma lost_connection_degrades_witness :
  store_email week 400 "m400" "raw 400" (sample_metadata "m400")
              (unplugged three_messages) = (Ok false, unplugged three_messages) ∧
  retrieve_email sample_parse (unplugged three_messages) 400 "m300" = Ok None ∧
  search_emails sample_parse (unplugged three_messages) 400 None 10 0 = Ok [].
Proof.
  apply (lost_connection_degrades sample_parse
           week 400 "m400" "raw 400" (sample_metadata "m400")
           (unplugged three_messages) None 10 0).
  reflexivity.
Defined.

Lemma search_bounded {P} (parse_message : string → result P)
    st now domain limit offset :
  (0 ≤ limit)%Z →
  ∃ found,
    search_emails parse_message st now domain limit offset = Ok found ∧
    (length found ≤ Z.to_nat limit)%nat ∧
    ∀ r, r ∈ found →
         ∃ email_id, live st now email_id = Some (record r) ∧
                     parse_message (raw (record r)) = Ok (parsed r).
Proof.
  intros Hlimit. unfold search_emails, smembers, zrevrange.
  assert (∃ found : list (retrieved (P:=P)),
            Ok [] = Ok found ∧ (length found ≤ Z.to_nat limit)%nat ∧
            ∀ r, r ∈ found →
                 ∃ email_id, live st now email_id = Some (record r) ∧
                             parse_message (raw (record r)) = Ok (parsed r)) as Hnone.
  { exists []. split; [done|]. split; [simpl; lia|].
    intros r Hin. by apply elem_of_nil in Hin. }
  destruct (up st) eqn:Hup.
  - assert (∀ ids : list string,
              (length (omap (retrievable parse_message st now) (slice_to ids limit))
                 ≤ Z.to_nat limit)%nat ∧
              ∀ r, r ∈ omap (retrievable parse_message st now) (slice_to ids limit) →
                   ∃ email_id, live st now email_id = Some (record r) ∧
                               parse_message (raw (record r)) = Ok (parsed r)) as Hids.
    { intros ids. split.
      - etrans; [apply omap_length_le|]. by apply slice_to_length_le.
      - intros r Hin. apply list_elem_of_omap in Hin as (i & _ & Hi).
        exists i. by apply retrievable_live. }
    destruct (PyStr.truthy_opt domain); simpl.
    + rewrite collect_live by done. simpl. eexists; (split; [done|apply Hids]).
    + destruct (int64 offset && int64 (offset + limit - 1)); simpl; [|done].
      rewrite collect_live by done. simpl. eexists; (split; [done|apply Hids]).
  - by destruct (PyStr.truthy_opt domain).
Qed.

(** X6. A search never raises and, for a non-negative limit, never returns
    more than [limit] records, with or without a domain and whatever the
    offset; every record returned is one that is alive in the store, with
    what the mail parser makes of its raw bytes. *)
Theorem search_respects_limit {P} (parse_message : string → result P)
    (st : server) (now : Z) (domain : option string) (limit offset : Z)
    (Hlimit : (0 ≤ limit)%Z) :
  ∃ found,
    search_emails parse_message st now domain limit offset = Ok found ∧
    (length found ≤ Z.to_nat limit)%nat ∧
    ∀ r, r ∈ found →
         ∃ email_id, live st now email_id = Some (record r) ∧
                     parse_message (raw (record r)) = Ok (parsed r).
Proof. by apply search_bounded. Qed.

Lemma search_respects_limit_witness :
  ∃ found,
    search_emails sample_parse three_messages 400 (Some "x.com") 2 7 = Ok found ∧
    (length found ≤ Z.to_nat 2)%nat ∧
    ∀ r, r ∈ found →
         ∃ email_id, live three_messages 400 email_id = Some (record r) ∧
                     sample_parse (raw (record r)) = Ok (parsed r).
Proof.
  apply (search_respects_limit sample_parse three_messages 400 (Some "x.com") 2 7).
  lia.
Defined.

End Retention.

(** ** [RedisStorage._parse_email_structure] *)
Module Mime.









(** *** The four kinds of part *)












End Mime.

(** ** More on [core/dns_validator.py]: the contents of a report *)
Module DnsReport.

Import Dns.

(** The A records found for a host, and the PTR names found for an
    address, as the two helpers return them. *)
Definition a_answers (R : resolver) (h : string) : list a_entry :=
  match _get_a_records R h with Ok l => l | Raise _ => [] end.

Definition ptr_answers (R : resolver) (addr : string) : list string :=
  match _get_ptr_records R addr with Ok l => l | Raise _ => [] end.

Fixpoint last_char (s : string) : option ascii :=
  match s with
  | EmptyString => None
  | String a EmptyString => Some a
  | String _ s' => last_char s'
  end.

(** A resolver for a domain with two mail hosts, the first with four
    addresses. *)
Definition two_mx_resolver : resolver :=
  Resolver (fun _ => Ok (MxAnswer (Some 300%Z)
                           [(10%Z, "mx1.example.com."); (20%Z, "mx2.example.com.")]))
           (fun _ => Ok ["v=spf1 -all"])
           (fun _ => Ok ["ns1.example.com."])
           (fun _ => Raise (NoAnswer "no SOA"))
           (fun h => if bool_decide (h = "mx1.example.com")
                     then Ok ["192.0.2.1"; "192.0.2.2"; "192.0.2.3"; "192.0.2.4"]
                     else Raise (NXDOMAIN "no A"))
           (fun _ => Ok ["host.example.com."]).

Definition no_mail_resolver : resolver :=
  Resolver (fun _ => Raise (NXDOMAIN "The DNS query name does not exist"))
           (fun _ => Ok ["v=spf1 -all"])
           (fun _ => Ok ["ns1.example.com."])
           (fun _ => Raise (NoAnswer "no SOA"))
           (fun _ => Ok ["192.0.2.1"])
           (fun _ => Ok ["host.example.com."]).

Definition two_mx_report : report :=
  Eval vm_compute in
    match validate_domain_mx two_mx_resolver None "2024-01-01T00:00:00"
            (Some "example.com") with
    | Ok rep => rep
    | Raise _ => initial_report "" ""
    end.

Definition no_mail_report : report :=
  Eval vm_compute in
    match validate_domain_mx no_mail_resolver None "2024-01-01T00:00:00"
            (Some "example.com") with
    | Ok rep => rep
    | Raise _ => initial_report "" ""
    end.

Section Loops.
Variable R : resolver.

Lemma get_a_records_answers h : _get_a_records R h = Ok (a_answers R h).
Proof. unfold a_answers. by destruct (a_never_raises R h) as [l ->]. Qed.

Lemma get_ptr_records_answers addr : _get_ptr_records R addr = Ok (ptr_answers R addr).
Proof. unfold ptr_answers. by destruct (ptr_never_raises R addr) as [l ->]. Qed.

Lemma a_answers_fresh h a : a ∈ a_answers R h → a_host a = h ∧ ptr a = None.
Proof.
  unfold a_answers, _get_a_records, try_except, rmap, rbind.
  destruct (resolve_a R h) as [l|e]; simpl; [|by intros ?%elem_of_nil].
  intros (rd & -> & _)%list_elem_of_fmap. done.
Qed.

(** The loop over the MX entries: the A list grows by the answers for each
    host in turn, and each entry visited is marked with whether its host had
    any address. *)
Lemma a_loop_exact todo i r :
  (∀ k m, todo !! k = Some m →
          ∃ m0, mx_records r !! (i + k) = Some m0 ∧ host m0 = host m) →
  a_records (a_loop R todo i r).2 =
    (a_records r ++ mjoin ((fun m => a_answers R (host m)) <$> todo))%list ∧
  length (mx_records (a_loop R todo i r).2) = length (mx_records r) ∧
  ∀ j m', mx_records (a_loop R todo i r).2 !! j = Some m' →
    ∃ m0, mx_records r !! j = Some m0 ∧
          priority m' = priority m0 ∧ host m' = host m0 ∧ ttl m' = ttl m0 ∧
          resolved m' =
            if bool_decide (i ≤ j < i + length todo)
            then Some (bool_decide (0 < length (a_answers R (host m0))))
            else resolved m0.
Proof.
  revert i r. induction todo as [|mx rest IH]; intros i r Haligned.
  - simpl. rewrite app_nil_r. split_and!; [done..|].
    intros j m' Hm'. exists m'. rewrite bool_decide_eq_false_2 by lia. done.
  - simpl. unfold mbind, M_bind, lift, modify. rewrite get_a_records_answers. simpl.
    match goal with |- context [a_loop R rest (S i) ?r1] => set (r1' := r1) end.
    destruct (Haligned 0 mx eq_refl) as (m0 & Hm0 & Hhost0).
    rewrite Nat.add_0_r in Hm0.
    destruct (IH (S i) r1') as (Ha & Hlen & Hmx).
    { intros k m Hk. destruct (Haligned (S k) m Hk) as (m1 & Hm1 & Hh1).
      exists m1. split; [|done]. unfold r1'. simpl.
      rewrite list_lookup_alter_ne by lia.
      rewrite <- Hm1. f_equal. lia. }
    split_and!.
    + rewrite Ha. unfold r1'. simpl. by rewrite <- app_assoc.
    + rewrite Hlen. unfold r1'. simpl. by rewrite length_alter.
    + intros j m' Hm'. destruct (Hmx j m' Hm') as (m1 & Hm1 & Hp & Hh & Ht & Hr).
      unfold r1' in Hm1. simpl in Hm1.
      destruct (decide (i = j)) as [<-|Hne].
      * rewrite list_lookup_alter_eq, Hm0 in Hm1. simpl in Hm1.
        inversion Hm1; subst m1; clear Hm1. simpl in *.
        exists m0. rewrite bool_decide_eq_false_2 in Hr by lia.
        rewrite bool_decide_eq_true_2 by lia.
        split_and!; [done..|]. by rewrite Hr, Hhost0.
      * rewrite list_lookup_alter_ne in Hm1 by done.
        exists m1. split_and!; [done..|]. rewrite Hr.
        simpl. repeat case_bool_decide; try done; lia.
Qed.

(** The loop over the first addresses: only the entries visited get their
    PTR names; nothing else changes. *)
Lemma ptr_loop_exact todo i r :
  (∀ k a, todo !! k = Some a →
          ∃ a0, a_records r !! (i + k) = Some a0 ∧ ip a0 = ip a) →
  mx_records (ptr_loop R todo i r).2 = mx_records r ∧
  length (a_records (ptr_loop R todo i r).2) = length (a_records r) ∧
  ∀ j a', a_records (ptr_loop R todo i r).2 !! j = Some a' →
    ∃ a0, a_records r !! j = Some a0 ∧
          a_host a' = a_host a0 ∧ ip a' = ip a0 ∧
          ptr a' =
            if bool_decide (i ≤ j < i + length todo)
            then Some (ptr_answers R (ip a0))
            else ptr a0.
Proof.
  revert i r. induction todo as [|a rest IH]; intros i r Haligned.
  - simpl. split_and!; [done..|].
    intros j a' Ha'. exists a'. rewrite bool_decide_eq_false_2 by lia. done.
  - simpl. unfold mbind, M_bind, lift, modify. rewrite get_ptr_records_answers. simpl.
    match goal with |- context [ptr_loop R rest (S i) ?r1] => set (r1' := r1) end.
    destruct (Haligned 0 a eq_refl) as (a0 & Ha0 & Hip0).
    rewrite Nat.add_0_r in Ha0.
    destruct (IH (S i) r1') as (Hmx & Hlen & Hall).
    { intros k x Hk. destruct (Haligned (S k) x Hk) as (x1 & Hx1 & Hi1).
      exists x1. split; [|done]. unfold r1'. simpl.
      rewrite list_lookup_alter_ne by lia.
      rewrite <- Hx1. f_equal. lia. }
    split_and!.
    + by rewrite Hmx.
    + rewrite Hlen. unfold r1'. simpl. by rewrite length_alter.
    + intros j a' Ha'. destruct (Hall j a' Ha') as (a1 & Ha1 & Hh & Hi & Hp).
      unfold r1' in Ha1. simpl in Ha1.
      destruct (decide (i = j)) as [<-|Hne].
      * rewrite list_lookup_alter_eq, Ha0 in Ha1. simpl in Ha1.
        inversion Ha1; subst a1; clear Ha1. simpl in *.
        exists a0. rewrite bool_decide_eq_false_2 in Hp by lia.
        rewrite bool_decide_eq_true_2 by lia.
        split_and!; [done..|]. by rewrite Hp, Hip0.
      * rewrite list_lookup_alter_ne in Ha1 by done.
        exists a1. split_and!; [done..|]. rewrite Hp.
        simpl. repeat case_bool_decide; try done; lia.
Qed.

(** The entries built from an MX answer. *)
Definition mx_entries (answers : mx_answer) : list mx_entry :=
  (fun rd : Z * string =>
     MxEntry rd.1 (PyStr.rstrip_char "." rd.2) (mx_rrset_ttl answers) None)
  <$> mx_rdata answers.

(** With an MX answer the report is what the two loops leave, started
    from a report holding the fresh MX entries and no address. *)
Lemma validate_with_mx cfg now_iso name answers :
  resolve_mx R (target_of cfg name) = Ok answers →
  ∃ r1, mx_records r1 = mx_entries answers ∧ a_records r1 = [] ∧ errors r1 = [] ∧
        has_mx r1 = bool_decide (0 < length (mx_entries answers)) ∧
        validate_domain_mx R cfg now_iso name =
          Ok (ptr_loop R (take 3 (a_records (a_loop R (mx_entries answers) 0 r1).2)) 0
                (a_loop R (mx_entries answers) 0 r1).2).2.
Proof.
  intros Hmx. unfold validate_domain_mx, try_catch, validate_body,
    mbind, M_bind, lift, modify, get.
  rewrite mx_outcome, Hmx. fold (mx_entries answers). simpl.
  destruct (txt_never_raises R (target_of cfg name)) as [txt ->].
  destruct (ns_never_raises R (target_of cfg name)) as [ns ->].
  destruct (soa_never_raises R (target_of cfg name)) as [soa ->]. simpl.
  match goal with |- context [a_loop R _ 0 ?r] => exists r; set (r1 := r) end.
  split_and!; [done..|].
  destruct (a_loop_runs R (mx_entries answers) 0 r1) as (r2 & Hrun2 & _).
  rewrite Hrun2. simpl.
  destruct (ptr_loop_runs R (take 3 (a_records r2)) 0 r2) as (r3 & Hrun3 & _).
  by rewrite Hrun3.
Qed.

Lemma last_char_rstrip p s a :
  last_char (PyStr.rstrip_by p s) = Some a → p a = false.
Proof.
  induction s as [|b s IH]; simpl; [done|].
  destruct (PyStr.rstrip_by p s) as [|c r] eqn:Hr.
  - destruct (p b) eqn:Hb; simpl; [done|]. by intros [= <-].
  - simpl. simpl in IH. exact IH.
Qed.

End Loops.

(** X9. Reverse lookups are limited to the first three addresses: in every
    report built from an MX answer, the address entries at positions 0, 1
    and 2 carry the PTR names found for their address and every later entry
    carries none. *)
Theorem ptr_only_for_first_three
    (R : resolver) (cfg : option string) (now_iso : string) (name : option string)
    (answers : mx_answer) (rep : report) (j : nat) (a : a_entry)
    (Hmx : resolve_mx R (target_of cfg name) = Ok answers)
    (Hrep : validate_domain_mx R cfg now_iso name = Ok rep)
    (Ha : a_records rep !! j = Some a) :
  ptr a = if bool_decide (j < 3) then Some (ptr_answers R (ip a)) else None.
Proof.
  destruct (validate_with_mx R cfg now_iso name answers Hmx)
    as (r1 & Hmx1 & Ha1 & _ & _ & Hrun).
  rewrite Hrun in Hrep. inversion Hrep as [Hrep']; clear Hrep Hrun.
  set (r2 := (a_loop R (mx_entries answers) 0 r1).2) in *.
  destruct (a_loop_exact R (mx_entries answers) 0 r1) as (Ha2 & _ & _).
  { intros k m Hk. exists m. by rewrite Hmx1. }
  fold r2 in Ha2. rewrite Ha1 in Ha2. simpl in Ha2.
  destruct (ptr_loop_exact R (take 3 (a_records r2)) 0 r2) as (_ & _ & Hall).
  { intros k x Hk. exists x. split; [|done].
    simpl. by apply lookup_take_Some in Hk as [? _]. }
  rewrite Hrep' in Hall. destruct (Hall j a Ha) as (a0 & Ha0 & _ & Hip & Hptr).
  rewrite Hptr, Hip. simpl.
  assert (ptr a0 = None) as ->.
  { apply list_elem_of_lookup_2 in Ha0. rewrite Ha2 in Ha0.
    apply list_elem_of_join in Ha0 as (l & Hin & Hl).
    apply list_elem_of_fmap in Hl as (m & -> & _).
    by apply a_answers_fresh in Hin as [_ ?]. }
  apply lookup_lt_Some in Ha0.
  rewrite length_take.
  repeat case_bool_decide; try done; lia.
Qed.

Lemma ptr_only_for_first_three_witness :
  (ptr <$> a_records two_mx_report) =
    [Some ["host.example.com"]; Some ["host.example.com"];
     Some ["host.example.com"]; None] ∧
  ptr (AEntry "mx1.example.com" "192.0.2.4" None) =
    if bool_decide (3 < 3) then Some (ptr_answers two_mx_resolver "192.0.2.4") else None.
Proof.
  split; [reflexivity|].
  apply (ptr_only_for_first_three two_mx_resolver None "2024-01-01T00:00:00"
           (Some "example.com")
           (MxAnswer (Some 300%Z)
              [(10%Z, "mx1.example.com."); (20%Z, "mx2.example.com.")])
           two_mx_report 3).
  - reflexivity.
  - reflexivity.
  - reflexivity.
Defined.

Lemma fmap_eq_pointwise {A B} (f : A → B) (l l' : list A) :
  length l' = length l →
  (∀ j x', l' !! j = Some x' → ∃ x, l !! j = Some x ∧ f x' = f x) →
  f <$> l' = f <$> l.
Proof.
  intros Hlen Hpt. apply list_eq. intros j. rewrite !list_lookup_fmap.
  destruct (l' !! j) as [x'|] eqn:Hj.
  - destruct (Hpt j x' Hj) as (x & -> & Hf). simpl. by rewrite Hf.
  - apply lookup_ge_None in Hj. rewrite Hlen in Hj.
    apply lookup_ge_None in Hj. by rewrite Hj.
Qed.

(** The two loops, put together. *)
Lemma report_with_mx R cfg now_iso name answers rep :
  resolve_mx R (target_of cfg name) = Ok answers →
  validate_domain_mx R cfg now_iso name = Ok rep →
  length (mx_records rep) = length (mx_rdata answers) ∧
  (∀ j m, mx_records rep !! j = Some m →
     ∃ rd, mx_rdata answers !! j = Some rd ∧
           priority m = rd.1 ∧ host m = PyStr.rstrip_char "." rd.2 ∧
           ttl m = mx_rrset_ttl answers ∧
           resolved m = Some (bool_decide (0 < length (a_answers R (host m))))) ∧
  (fun a => (a_host a, ip a)) <$> a_records rep =
    (fun a => (a_host a, ip a))
    <$> mjoin ((fun rd : Z * string => a_answers R (PyStr.rstrip_char "." rd.2))
               <$> mx_rdata answers).
Proof.
  intros Hmx Hrep.
  destruct (validate_with_mx R cfg now_iso name answers Hmx)
    as (r1 & Hmx1 & Ha1 & _ & _ & Hrun).
  rewrite Hrun in Hrep. clear Hrun.
  set (r2 := (a_loop R (mx_entries answers) 0 r1).2) in *.
  destruct (a_loop_exact R (mx_entries answers) 0 r1) as (Ha2 & Hlen2 & Hall2).
  { intros k m Hk. exists m. by rewrite Hmx1. }
  fold r2 in Ha2, Hlen2, Hall2. rewrite Ha1 in Ha2. simpl in Ha2.
  destruct (ptr_loop_exact R (take 3 (a_records r2)) 0 r2) as (Hmx3 & Hlen3 & Hall3).
  { intros k x Hk. exists x. split; [|done].
    simpl. by apply lookup_take_Some in Hk as [? _]. }
  set (r3 := (ptr_loop R (take 3 (a_records r2)) 0 r2).2) in *.
  assert (rep = r3) as -> by congruence. clear Hrep.
  rewrite Hmx3, Hlen2, Hmx1. unfold mx_entries. rewrite length_fmap.
  split_and!; [done| |].
  - intros j m Hm. destruct (Hall2 j m Hm) as (m0 & Hm0 & Hp & Hh & Ht & Hr).
    rewrite Hmx1 in Hm0. unfold mx_entries in Hm0.
    rewrite list_lookup_fmap in Hm0.
    destruct (mx_rdata answers !! j) as [rd|] eqn:Hrd; [|done].
    simpl in Hm0. inversion Hm0; subst m0; clear Hm0. simpl in *.
    exists rd. split_and!; [done..|].
    rewrite Hr, Hh. rewrite bool_decide_eq_true_2; [done|].
    apply lookup_lt_Some in Hrd. unfold mx_entries. rewrite length_fmap. lia.
  - rewrite (fmap_eq_pointwise _ (a_records r2) (a_records r3) Hlen3).
    + rewrite Ha2. unfold mx_entries. by rewrite <- list_fmap_compose.
    + intros j a' Ha'. destruct (Hall3 j a' Ha') as (a0 & Ha0 & Hh & Hi & _).
      exists a0. split; [done|]. by rewrite Hh, Hi.
Qed.

(** X10. In a report built from an MX answer, the MX entries are the
    answer's records in order, with their preference and the answer's TTL,
    and no host name ends with a dot; each entry is marked as resolved
    exactly when the A lookup of its host returned an address. *)
Theorem mx_entries_follow_answer
    (R : resolver) (cfg : option string) (now_iso : string) (name : option string)
    (answers : mx_answer) (rep : report)
    (Hmx : resolve_mx R (target_of cfg name) = Ok answers)
    (Hrep : validate_domain_mx R cfg now_iso name = Ok rep) :
  (fun m => (priority m, host m, ttl m)) <$> mx_records rep =
    (fun rd : Z * string =>
       (rd.1, PyStr.rstrip_char "." rd.2, mx_rrset_ttl answers)) <$> mx_rdata answers ∧
  Forall (fun m => last_char (host m) ≠ Some "."%char ∧
                   resolved m = Some (bool_decide (0 < length (a_answers R (host m)))))
         (mx_records rep).
Proof.
  destruct (report_with_mx R cfg now_iso name answers rep Hmx Hrep)
    as (Hlen & Hall & _).
  split.
  - apply list_eq. intros j. rewrite !list_lookup_fmap.
    destruct (mx_records rep !! j) as [m|] eqn:Hj.
    + destruct (Hall j m Hj) as (rd & -> & Hp & Hh & Ht & _). simpl.
      by rewrite Hp, Hh, Ht.
    + apply lookup_ge_None in Hj. rewrite Hlen in Hj.
      apply lookup_ge_None in Hj. by rewrite Hj.
  - apply Forall_lookup_2. intros j m Hj.
    destruct (Hall j m Hj) as (rd & _ & _ & Hh & _ & Hr). split; [|done].
    rewrite Hh. intros Hlast. apply last_char_rstrip in Hlast. done.
Qed.

Lemma mx_entries_follow_answer_witness :
  (fun m => (priority m, host m, ttl m)) <$> mx_records two_mx_report =
    [(10%Z, "mx1.example.com", Some 300%Z); (20%Z, "mx2.example.com", Some 300%Z)] ∧
  Forall (fun m => last_char (host m) ≠ Some "."%char ∧
                   resolved m =
                     Some (bool_decide (0 < length (a_answers two_mx_resolver (host m)))))
         (mx_records two_mx_report).
Proof.
  apply (mx_entries_follow_answer two_mx_resolver None "2024-01-01T00:00:00"
           (Some "example.com")
           (MxAnswer (Some 300%Z)
              [(10%Z, "mx1.example.com."); (20%Z, "mx2.example.com.")])
           two_mx_report).
  - reflexivity.
  - reflexivity.
Defined.

(** X11. The address list of a report is, in order, the A records found
    for each MX host, each kept with the host it was found for. *)
Theorem addresses_follow_mx_hosts
    (R : resolver) (cfg : option string) (now_iso : string) (name : option string)
    (answers : mx_answer) (rep : report)
    (Hmx : resolve_mx R (target_of cfg name) = Ok answers)
    (Hrep : validate_domain_mx R cfg now_iso name = Ok rep) :
  (fun a => (a_host a, ip a)) <$> a_records rep =
    (fun a => (a_host a, ip a))
    <$> mjoin ((fun m => a_answers R (host m)) <$> mx_records rep) ∧
  Forall (fun a => a_host a ∈ host <$> mx_records rep) (a_records rep).
Proof.
  destruct (report_with_mx R cfg now_iso name answers rep Hmx Hrep)
    as (Hlen & Hall & Haddr).
  assert (host <$> mx_records rep =
          (fun rd : Z * string => PyStr.rstrip_char "." rd.2) <$> mx_rdata answers)
    as Hhosts.
  { apply list_eq. intros j. rewrite !list_lookup_fmap.
    destruct (mx_records rep !! j) as [m|] eqn:Hj.
    - destruct (Hall j m Hj) as (rd & -> & _ & Hh & _). simpl. by rewrite Hh.
    - apply lookup_ge_None in Hj. rewrite Hlen in Hj.
      apply lookup_ge_None in Hj. by rewrite Hj. }
  assert (mjoin ((fun m => a_answers R (host m)) <$> mx_records rep) =
          mjoin ((fun rd : Z * string => a_answers R (PyStr.rstrip_char "." rd.2))
                 <$> mx_rdata answers)) as Hjoin.
  { f_equal.
    change ((fun m => a_answers R (host m)) <$> mx_records rep)
      with ((a_answers R ∘ host) <$> mx_records rep).
    rewrite list_fmap_compose, Hhosts, <- list_fmap_compose. done. }
  split; [by rewrite Hjoin|].
  apply Forall_forall. intros a Ha.
  assert ((a_host a, ip a) ∈ (fun a => (a_host a, ip a)) <$> a_records rep) as Hpair.
  { apply list_elem_of_fmap. by exists a. }
  rewrite Haddr in Hpair. apply list_elem_of_fmap in Hpair as (a0 & Heq & Ha0).
  apply list_elem_of_join in Ha0 as (l & Hl & Hls).
  apply list_elem_of_fmap in Hls as (rd & -> & Hrd).
  apply a_answers_fresh in Hl as [Hhost _].
  inversion Heq as [[Hh Hi]]. rewrite Hh, Hhost, Hhosts.
  apply list_elem_of_fmap. by exists rd.
Qed.

Lemma addresses_follow_mx_hosts_witness :
  (fun a => (a_host a, ip a)) <$> a_records two_mx_report =
    (fun a => (a_host a, ip a))
    <$> mjoin ((fun m => a_answers two_mx_resolver (host m)) <$> mx_records two_mx_report) ∧
  Forall (fun a => a_host a ∈ host <$> mx_records two_mx_report)
         (a_records two_mx_report).
Proof.
  apply (addresses_follow_mx_hosts two_mx_resolver None "2024-01-01T00:00:00"
           (Some "example.com")
           (MxAnswer (Some 300%Z)
              [(10%Z, "mx1.example.com."); (20%Z, "mx2.example.com.")])
           two_mx_report).
  - reflexivity.
  - reflexivity.
Defined.

Lemma has_mx_reflects_mx_records R cfg now_iso name rep :
  validate_domain_mx R cfg now_iso name = Ok rep →
  has_mx rep = true ↔ mx_records rep ≠ [].
Proof.
  unfold validate_domain_mx, try_catch.
  pose proof (validate_body_runs R (target_of cfg name)
                (initial_report now_iso (target_of cfg name))) as Hbody.
  destruct (_get_mx_records R (target_of cfg name)) as [mx|e].
  - destruct Hbody as (r' & -> & _ & _ & _ & Hkept & _ & Hhas & _).
    intros [= <-]. rewrite Hhas. apply Forall2_length in Hkept.
    rewrite bool_decide_eq_true. split.
    + intros Hpos Hnil. rewrite Hnil in Hkept. simpl in Hkept. lia.
    + intros Hne. destruct (mx_records r'); [done|]. simpl in Hkept. lia.
  - rewrite Hbody. unfold modify. simpl. intros [= <-]. simpl. split; done.
Qed.

(** X12. In every report, whatever the resolver did, [has_mx] is set
    exactly when the MX list is not empty. *)
Theorem has_mx_iff_mx_records
    (R : resolver) (cfg : option string) (now_iso : string) (name : option string)
    (rep : report)
    (Hrep : validate_domain_mx R cfg now_iso name = Ok rep) :
  has_mx rep = true ↔ mx_records rep ≠ [].
Proof. by eapply has_mx_reflects_mx_records. Qed.

Lemma has_mx_iff_mx_records_witness :
  (has_mx two_mx_report = true ↔ mx_records two_mx_report ≠ []) ∧
  (has_mx no_mail_report = true ↔ mx_records no_mail_report ≠ []).
Proof.
  split.
  - apply (has_mx_iff_mx_records two_mx_resolver None "2024-01-01T00:00:00"
             (Some "example.com") two_mx_report).
    reflexivity.
  - apply (has_mx_iff_mx_records no_mail_resolver None "2024-01-01T00:00:00"
             (Some "example.com") no_mail_report).
    reflexivity.
Defined.

(** X13. A domain without MX records (the query answers "no answer" or
    "no such domain") is not an error: the report has no MX entry, no
    address, [has_mx] unset and an empty [errors] list, and still carries
    the TXT, NS and SOA answers. *)
Theorem missing_mx_is_not_an_error
    (R : resolver) (cfg : option string) (now_iso : string) (name : option string)
    (e : exn)
    (Hmx : resolve_mx R (target_of cfg name) = Raise e)
    (Hnf : not_found e = true) :
  ∃ rep, validate_domain_mx R cfg now_iso name = Ok rep ∧
         mx_records rep = [] ∧ a_records rep = [] ∧
         has_mx rep = false ∧ errors rep = [] ∧
         _get_txt_records R (target_of cfg name) = Ok (txt_records rep) ∧
         _get_ns_records R (target_of cfg name) = Ok (ns_records rep) ∧
         _get_soa_record R (target_of cfg name) = Ok (soa_record rep).
Proof.
  unfold validate_domain_mx, try_catch, validate_body, mbind, M_bind, lift, modify, get.
  rewrite mx_outcome, Hmx, Hnf. simpl.
  destruct (txt_never_raises R (target_of cfg name)) as [txt ->].
  destruct (ns_never_raises R (target_of cfg name)) as [ns ->].
  destruct (soa_never_raises R (target_of cfg name)) as [soa ->]. simpl.
  eexists. split; [done|]. by split_and!.
Qed.

Lemma missing_mx_is_not_an_error_witness :
  ∃ rep, validate_domain_mx no_mail_resolver None "2024-01-01T00:00:00"
           (Some "example.com") = Ok rep ∧
         mx_records rep = [] ∧ a_records rep = [] ∧
         has_mx rep = false ∧ errors rep = [] ∧
         _get_txt_records no_mail_resolver "example.com" = Ok (txt_records rep) ∧
         _get_ns_records no_mail_resolver "example.com" = Ok (ns_records rep) ∧
         _get_soa_record no_mail_resolver "example.com" = Ok (soa_record rep).
Proof.
  apply (missing_mx_is_not_an_error no_mail_resolver None "2024-01-01T00:00:00"
           (Some "example.com") (NXDOMAIN "The DNS query name does not exist")).
  - reflexivity.
  - reflexivity.
Defined.

End DnsReport.

(** ** Facts about the text operations *)
Module PyStrFacts.

Import PyStr.

Lemma lower_char_idem a : lower_char (lower_char a) = lower_char a.
Proof. by destruct a as [[] [] [] [] [] [] [] []]. Qed.

Lemma lower_char_space a : is_space (lower_char a) = is_space a.
Proof. by destruct a as [[] [] [] [] [] [] [] []]. Qed.

Lemma lower_char_at a : Ascii.eqb (lower_char a) "@" = Ascii.eqb a "@".
Proof. by destruct a as [[] [] [] [] [] [] [] []]. Qed.

Lemma lower_idem s : lower (lower s) = lower s.
Proof. induction s as [|a s IH]; simpl; [done|]. by rewrite lower_char_idem, IH. Qed.

Lemma lower_contains_at s : contains "@" (lower s) = contains "@" s.
Proof.
  induction s as [|a s IH]; simpl; [done|]. by rewrite lower_char_at, IH.
Qed.

Lemma lower_lstrip s : lstrip_by is_space (lower s) = lower (lstrip_by is_space s).
Proof.
  induction s as [|a s IH]; simpl; [done|]. rewrite lower_char_space.
  by destruct (is_space a).
Qed.

Lemma lower_rstrip s : rstrip_by is_space (lower s) = lower (rstrip_by is_space s).
Proof.
  induction s as [|a s IH]; simpl; [done|]. rewrite IH, lower_char_space.
  destruct (rstrip_by is_space s); simpl; [|done]. by destruct (is_space a).
Qed.

Lemma lower_strip s : strip (lower s) = lower (strip s).
Proof. unfold strip, strip_by. by rewrite lower_lstrip, lower_rstrip. Qed.

Lemma rstrip_idem p s : rstrip_by p (rstrip_by p s) = rstrip_by p s.
Proof.
  induction s as [|a s IH]; simpl; [done|].
  destruct (rstrip_by p s) as [|b r] eqn:Hr.
  - destruct (p a) eqn:Ha; simpl; [done|]. by rewrite Ha.
  - simpl in *. by rewrite IH.
Qed.

Lemma lstrip_head p s a r : lstrip_by p s = String a r → p a = false.
Proof.
  induction s as [|b s IH]; simpl; [done|].
  destruct (p b) eqn:Hb; [done|]. by intros [= <- <-].
Qed.

Lemma rstrip_keeps_head p a r :
  p a = false → rstrip_by p (String a r) = String a (rstrip_by p r).
Proof. intros Ha. simpl. destruct (rstrip_by p r); by rewrite ?Ha. Qed.

Lemma strip_idem p s : strip_by p (strip_by p s) = strip_by p s.
Proof.
  unfold strip_by. destruct (lstrip_by p s) as [|a r] eqn:Hl; [done|].
  pose proof (lstrip_head p s a r Hl) as Ha.
  rewrite rstrip_keeps_head by done. simpl. rewrite Ha.
  rewrite <- (rstrip_keeps_head p a r) by done. apply rstrip_idem.
Qed.

Lemma contains_lstrip c p s : contains c s = false → contains c (lstrip_by p s) = false.
Proof.
  induction s as [|a s IH]; simpl; [done|].
  destruct (Ascii.eqb a c) eqn:Hac; [done|]. intros Hs.
  destruct (p a); [by apply IH|]. simpl. by rewrite Hac.
Qed.

Lemma contains_rstrip c p s : contains c s = false → contains c (rstrip_by p s) = false.
Proof.
  induction s as [|a s IH]; simpl; [done|].
  destruct (Ascii.eqb a c) eqn:Hac; [done|]. intros Hs. specialize (IH Hs).
  destruct (rstrip_by p s); simpl in *.
  - destruct (p a); simpl; by rewrite ?Hac.
  - rewrite Hac. exact IH.
Qed.

Lemma contains_before_first c s : contains c (before_first c s) = false.
Proof.
  induction s as [|a s IH]; simpl; [done|].
  destruct (Ascii.eqb a c) eqn:Hac; simpl; [done|]. by rewrite Hac.
Qed.

Lemma prefix_length n s : (String.length (prefix n s) ≤ n)%nat.
Proof.
  revert s. induction n as [|n IH]; intros [|a s]; simpl; try lia.
  specialize (IH s). lia.
Qed.

End PyStrFacts.

(** ** More on [services/smtp_handler.py]: what a message changes *)
Module Delivery.

Import Smtp.

(** The chat a routing decision designates: saved messages for the type
    [me], otherwise the integer value of the identifier. *)
Definition target_chat (recipient_type recipient_id : string) : result chat :=
  if bool_decide (recipient_type = "me") then Ok SavedMessages
  else rmap ChatId (PyText.int recipient_id).

(** The fields of the handler that hold its configuration and counter. *)
Definition same_routing (s s' : state) : Prop :=
  target_mapping s' = target_mapping s ∧
  default_recipients s' = default_recipients s ∧
  message_counter s' = message_counter s.

Definition failing_parser : string → result email_message :=
  fun _ => Raise (Exn "HeaderParseError" "malformed header").

Definition mail_to (address : string) : email_message :=
  EmailMessage [("From", Ok "a@a.com"); ("To", Ok address); ("Subject", Ok "hi")]
               false [] (Part "text/plain" (Ok "hello")).

Definition sample_text : string :=
  Eval vm_compute in
    match _format_notification 0 "msg_1" plain_mail (sample_md "x.com" None) with
    | Ok text => text
    | Raise _ => ""
    end.

Lemma extract_domain_normal email_address d :
  _extract_domain email_address = Ok d →
  PyStr.contains "@" d = false ∧ PyStr.lower d = d ∧ PyStr.strip d = d.
Proof.
  rewrite extract_domain_second_field.
  destruct (PyStr.contains "@" email_address); intros [= <-]; [|done].
  split_and!.
  - rewrite PyStrFacts.lower_contains_at. unfold PyStr.strip, PyStr.strip_by.
    apply PyStrFacts.contains_rstrip, PyStrFacts.contains_lstrip,
      PyStrFacts.contains_before_first.
  - apply PyStrFacts.lower_idem.
  - rewrite PyStrFacts.lower_strip. unfold PyStr.strip.
    by rewrite PyStrFacts.strip_idem.
Qed.

(** Metadata that could be built carries the To field as it was read, and
    the domain extracted from it. *)
Lemma extract_metadata_domain email_msg msg_id now_iso md :
  _extract_metadata email_msg msg_id now_iso = Ok md →
  header email_msg "To" = Ok (to md) ∧
  _extract_domain (to md) = Ok (recipient_domain md).
Proof.
  unfold _extract_metadata.
  destruct (header email_msg "From") as [from_value|]; [|done].
  destruct (header email_msg "To") as [to_value|]; [|done].
  destruct (header email_msg "Cc") as [cc_value|]; [|done].
  destruct (header email_msg "Bcc") as [bcc_value|]; [|done].
  destruct (header email_msg "Subject") as [subject_value|]; [|done].
  destruct (header email_msg "Date") as [date_value|]; [|done].
  cbn [rbind].
  destruct (_extract_domain to_value) as [domain|] eqn:Hdomain; [|done].
  destruct (read_items (items email_msg)) as [pairs|]; [|done].
  cbn [rbind]. intros [= <-]. done.
Qed.

(** X14. Whatever the To header holds, extraction returns a domain that
    contains no at-sign, has no upper-case ASCII letter and no surrounding
    whitespace. *)
Theorem extracted_domain_is_normalised (email_address : string) :
  ∃ d, _extract_domain email_address = Ok d ∧
       PyStr.contains "@" d = false ∧ PyStr.lower d = d ∧ PyStr.strip d = d.
Proof.
  destruct (_extract_domain email_address) as [d|e] eqn:Hd.
  - exists d. split; [done|]. by eapply extract_domain_normal.
  - rewrite extract_domain_second_field in Hd. done.
Qed.

Section Frame.
Variable message_from_bytes : string → result email_message.
Variable dns_validator : option (Dns.resolver * option string).
Variable send_message : chat → string → option exn.
Variable ensure_tmail_integration : string → result (option string).
Variable message_ttl : Z.

Lemma notification_frame msg_id email_msg md s :
  same_routing s (_send_telegram_notification send_message msg_id email_msg md s).2.
Proof.
  unfold _send_telegram_notification. rewrite swallowed. simpl.
  unfold mbind, M_bind, get, lift, mret, M_ret, send.
  destruct (_determine_recipient s md) as [ty id].
  destruct (negb (PyStr.truthy id)); [done|].
  destruct (_format_notification (message_counter s) msg_id email_msg md) as [text|];
    [|done].
  destruct (bool_decide (ty = "me")).
  - by destruct (send_message SavedMessages text).
  - destruct (PyText.int id) as [n|]; [|done].
    by destruct (send_message (ChatId n) text).
Qed.

Lemma dns_integration_frame md s :
  same_routing s (_handle_dns_integration ensure_tmail_integration md s).2.
Proof.
  unfold _handle_dns_integration. rewrite swallowed. simpl.
  unfold mbind, M_bind, modify, lift, mret, M_ret.
  destruct (_ || _); [|done]. simpl.
  by destruct (ensure_tmail_integration _).
Qed.

(** The state in which an accepted message leaves the handler. *)
Lemma handle_message_run msg_id raw_email now now_iso s email_msg md0 :
  message_from_bytes raw_email = Ok email_msg →
  _extract_metadata email_msg msg_id now_iso = Ok md0 →
  let md := set_dns_report
              (_validate_recipient_dns dns_validator (recipient_domain md0) now_iso) md0 in
  let s1 := set_storage
              (Redis.store_email message_ttl now msg_id raw_email md (storage s)).2
              (set_message_counter (S (message_counter s)) s) in
  let s2 := (_send_telegram_notification send_message msg_id email_msg md s1).2 in
  let s3 := (_handle_dns_integration ensure_tmail_integration md s2).2 in
  handle_message message_from_bytes dns_validator send_message
                 ensure_tmail_integration message_ttl
                 msg_id raw_email now now_iso s = (Ok (accepted msg_id), s3).
Proof.
  intros Hparse Hmeta md s1 s2 s3.
  unfold handle_message, try_catch, mbind, M_bind, modify, lift, on_storage.
  rewrite Hparse, Hmeta. fold md. simpl.
  destruct (Redis.store_email_answers message_ttl now msg_id raw_email md (storage s))
    as [b Hb].
  rewrite Hb. fold s1.
  destruct (notification_runs send_message msg_id email_msg md s1) as (s2' & Hn & _).
  assert (s2 = s2') as <- by (unfold s2; by rewrite Hn). rewrite Hn.
  destruct (dns_integration_runs ensure_tmail_integration md s2) as (s3' & Hd & _).
  assert (s3 = s3') as <- by (unfold s3; by rewrite Hd). by rewrite Hd.
Qed.

(** A message that cannot be read is answered 451, and only the counter
    has moved. *)
Lemma handle_message_rejects msg_id raw_email now now_iso s e :
  rbind (message_from_bytes raw_email)
        (fun email_msg => _extract_metadata email_msg msg_id now_iso) = Raise e →
  handle_message message_from_bytes dns_validator send_message
                 ensure_tmail_integration message_ttl
                 msg_id raw_email now now_iso s =
    (Ok (processing_error e), set_message_counter (S (message_counter s)) s).
Proof.
  intros Hread.
  unfold handle_message, try_catch, mbind, M_bind, modify, lift.
  destruct (message_from_bytes raw_email) as [email_msg|e'];
    cbn [rbind] in Hread.
  - by rewrite Hread.
  - by inversion Hread.
Qed.

Lemma handle_message_frame msg_id raw_email now now_iso s :
  let s' := (handle_message message_from_bytes dns_validator send_message
               ensure_tmail_integration message_ttl
               msg_id raw_email now now_iso s).2 in
  target_mapping s' = target_mapping s ∧
  default_recipients s' = default_recipients s ∧
  message_counter s' = S (message_counter s).
Proof.
  destruct (rbind (message_from_bytes raw_email)
              (fun email_msg => _extract_metadata email_msg msg_id now_iso))
    as [md0|e] eqn:Hread.
  - destruct (message_from_bytes raw_email) as [email_msg|] eqn:Hparse; [|done].
    cbn [rbind] in Hread.
    rewrite (handle_message_run msg_id raw_email now now_iso s email_msg md0 Hparse Hread).
    simpl.
    match goal with |- context [_handle_dns_integration _ ?md ?s2] =>
      destruct (dns_integration_frame md s2) as (D1 & D2 & D3) end.
    match goal with |- context [_send_telegram_notification _ _ _ ?md ?s1] =>
      destruct (notification_frame msg_id email_msg md s1) as (N1 & N2 & N3) end.
    simpl in N1, N2, N3.
    rewrite D1, D2, D3, N1, N2, N3. done.
  - by rewrite (handle_message_rejects msg_id raw_email now now_iso s e Hread).
Qed.

End Frame.

(** X15. The protocol reply depends on the reading of the message alone,
    that is on [message_from_bytes] and on the header fields read by
    [_extract_metadata]: when both succeed the message is answered 250 with
    its identifier, whatever the validator, the storage, the transport and
    the DNS provider do; when either raises, the message is answered 451
    with the text of that exception, with nothing stored, sent or
    provisioned. *)
Theorem reply_depends_on_parse_only
    (message_from_bytes : string → result email_message)
    (dns_validator : option (Dns.resolver * option string))
    (send_message : chat → string → option exn)
    (ensure_tmail_integration : string → result (option string))
    (message_ttl : Z)
    (msg_id raw_email : string) (now : Z) (now_iso : string) (s : state) :
  let out := handle_message message_from_bytes dns_validator send_message
               ensure_tmail_integration message_ttl
               msg_id raw_email now now_iso s in
  match rbind (message_from_bytes raw_email)
              (fun email_msg => _extract_metadata email_msg msg_id now_iso) with
  | Ok _ => out.1 = Ok ("250 Message " +:+ msg_id +:+ " accepted")
  | Raise e =>
      out = (Ok ("451 Temporary processing error: " +:+ exn_msg e),
             set_message_counter (S (message_counter s)) s)
  end.
Proof.
  destruct (rbind (message_from_bytes raw_email)
              (fun email_msg => _extract_metadata email_msg msg_id now_iso))
    as [md0|e] eqn:Hread; simpl.
  - destruct (message_from_bytes raw_email) as [email_msg|] eqn:Hparse; [|done].
    cbn [rbind] in Hread.
    by rewrite (handle_message_run message_from_bytes dns_validator send_message
                  ensure_tmail_integration message_ttl
                  msg_id raw_email now now_iso s email_msg md0 Hparse Hread).
  - by apply handle_message_rejects.
Qed.

Example parse_failure_example :
  handle_message failing_parser None transport_up provider_ok Redis.week
                 "msg_1" "not a message" 100 "2024-01-01T00:00:00"
                 (sample_state ∅ initial_recipients Redis.empty_server) =
    (Ok "451 Temporary processing error: malformed header",
     State 1 ∅ initial_recipients Redis.empty_server [] []).
Proof. reflexivity. Qed.

(** A message that parses, and whose To field cannot be read, is answered
    451 as well. *)
Example header_failure_example :
  handle_message (parses_as broken_to_mail) None transport_up provider_ok Redis.week
                 "msg_1" "To: <" 100 "2024-01-01T00:00:00"
                 (sample_state ∅ initial_recipients Redis.empty_server) =
    (Ok "451 Temporary processing error: string index out of range",
     State 1 ∅ initial_recipients Redis.empty_server [] []).
Proof. reflexivity. Qed.

(** X16. Handling a message, accepted or not, whatever the storage, the
    transport and the DNS provider do, adds exactly one to the message
    counter and never changes the per-domain mapping or the default
    recipients. *)
Theorem ingestion_keeps_routing_configuration
    (message_from_bytes : string → result email_message)
    (dns_validator : option (Dns.resolver * option string))
    (send_message : chat → string → option exn)
    (ensure_tmail_integration : string → result (option string))
    (message_ttl : Z)
    (msg_id raw_email : string) (now : Z) (now_iso : string) (s : state) :
  let s' := (handle_message message_from_bytes dns_validator send_message
               ensure_tmail_integration message_ttl
               msg_id raw_email now now_iso s).2 in
  target_mapping s' = target_mapping s ∧
  default_recipients s' = default_recipients s ∧
  message_counter s' = S (message_counter s).
Proof. apply handle_message_frame. Qed.

(** X17. When the routing decision names a chat (saved messages, or an
    identifier that reads as an integer), the text can be formatted and the
    transport accepts it, exactly one notification is sent, to that chat,
    with the formatted text; nothing else in the state changes. *)
Theorem notification_delivered_once
    (send_message : chat → string → option exn)
    (msg_id : string) (email_msg : email_message) (md : metadata) (s : state)
    (recipient_type recipient_id text : string) (target : chat)
    (Hroute : _determine_recipient s md = (recipient_type, recipient_id))
    (Hid : recipient_id ≠ "")
    (Htext : _format_notification (message_counter s) msg_id email_msg md = Ok text)
    (Htarget : target_chat recipient_type recipient_id = Ok target)
    (Hsend : send_message target text = None) :
  _send_telegram_notification send_message msg_id email_msg md s =
    (Ok tt, set_sent (sent s ++ [(target, text)]) s).
Proof.
  unfold _send_telegram_notification. rewrite swallowed. f_equal.
  unfold mbind, M_bind, get, lift, mret, M_ret, send. rewrite Hroute.
  assert (PyStr.truthy recipient_id = true) as -> by (by destruct recipient_id).
  simpl. rewrite Htext. unfold target_chat in Htarget.
  destruct (bool_decide (recipient_type = "me")).
  - inversion Htarget; subst target. by rewrite Hsend.
  - destruct (PyText.int recipient_id) as [n|]; [|done].
    simpl in Htarget. inversion Htarget; subst target. by rewrite Hsend.
Qed.

Lemma notification_delivered_once_witness :
  _send_telegram_notification transport_up "msg_1" plain_mail (sample_md "x.com" None)
      (sample_state ∅ (Recipients None (Some "-100111") None) Redis.empty_server) =
    (Ok tt,
     set_sent [(ChatId (-100111), sample_text)]
       (sample_state ∅ (Recipients None (Some "-100111") None) Redis.empty_server)).
Proof.
  apply (notification_delivered_once transport_up "msg_1" plain_mail
           (sample_md "x.com" None)
           (sample_state ∅ (Recipients None (Some "-100111") None) Redis.empty_server)
           "channel" "-100111" sample_text (ChatId (-100111))).
  - reflexivity.
  - discriminate.
  - reflexivity.
  - reflexivity.
  - reflexivity.
Defined.

(** X18. When the routed identifier is empty, or the type is not [me] and
    the identifier does not read as an integer (a mapping entry such as
    [x.com=@news]), nothing is sent, whatever the transport would do, and
    the state is unchanged. *)
Theorem undeliverable_target_is_dropped
    (send_message : chat → string → option exn)
    (msg_id : string) (email_msg : email_message) (md : metadata) (s : state)
    (recipient_type recipient_id : string)
    (Hroute : _determine_recipient s md = (recipient_type, recipient_id))
    (Hbad : recipient_id = "" ∨ ∃ e, target_chat recipient_type recipient_id = Raise e) :
  _send_telegram_notification send_message msg_id email_msg md s = (Ok tt, s).
Proof.
  unfold _send_telegram_notification. rewrite swallowed. f_equal.
  unfold mbind, M_bind, get, lift, mret, M_ret, send. rewrite Hroute.
  destruct Hbad as [->|[e He]]; [done|].
  destruct (negb (PyStr.truthy recipient_id)); [done|].
  destruct (_format_notification (message_counter s) msg_id email_msg md); [|done].
  unfold target_chat in He.
  destruct (bool_decide (recipient_type = "me")); [done|].
  by destruct (PyText.int recipient_id).
Qed.

Lemma undeliverable_target_is_dropped_witness :
  _send_telegram_notification transport_up "msg_1" plain_mail (sample_md "x.com" None)
      (sample_state {[ "x.com" := "@news" ]} initial_recipients Redis.empty_server) =
    (Ok tt, sample_state {[ "x.com" := "@news" ]} initial_recipients Redis.empty_server).
Proof.
  apply (undeliverable_target_is_dropped transport_up "msg_1" plain_mail
           (sample_md "x.com" None)
           (sample_state {[ "x.com" := "@news" ]} initial_recipients Redis.empty_server)
           "custom" "@news").
  - reflexivity.
  - right. eexists. reflexivity.
Defined.

(** X19. The recipient domain of every parsed message is lower-case, and
    mapping keys are looked up as they were entered: an entry whose key
    has an upper-case ASCII letter is never used for any message. *)
Theorem uppercase_mapping_key_never_matches
    (email_msg : email_message) (msg_id now_iso : string) (md : metadata)
    (key target : string) (s : state)
    (Hmeta : _extract_metadata email_msg msg_id now_iso = Ok md)
    (Hkey : PyStr.lower key ≠ key) :
  _determine_recipient (set_target_mapping (<[key := target]> (target_mapping s)) s) md
    = _determine_recipient s md.
Proof.
  destruct (extract_metadata_domain email_msg msg_id now_iso md Hmeta) as [_ Hd].
  apply extract_domain_normal in Hd as (_ & Hlower & _).
  unfold _determine_recipient. simpl.
  rewrite lookup_insert_ne; [done|]. intros ->. done.
Qed.

Definition mixed_case_md : metadata :=
  Metadata "msg_1" "a@a.com" "b@X.com" "" "" "hi" "" "x.com" "2024-01-01T00:00:00"
           [("From", "a@a.com"); ("To", "b@X.com"); ("Subject", "hi")] None.

Lemma uppercase_mapping_key_never_matches_witness :
  _determine_recipient
    (set_target_mapping
       (<["X.com" := "999"]>
          (target_mapping (sample_state ∅ initial_recipients Redis.empty_server)))
       (sample_state ∅ initial_recipients Redis.empty_server))
    mixed_case_md
  = _determine_recipient (sample_state ∅ initial_recipients Redis.empty_server)
      mixed_case_md.
Proof.
  apply (uppercase_mapping_key_never_matches (mail_to "b@X.com") "msg_1"
           "2024-01-01T00:00:00" mixed_case_md
           "X.com" "999" (sample_state ∅ initial_recipients Redis.empty_server)).
  - reflexivity.
  - discriminate.
Defined.

(** X20. In the ingestion pipeline the report attached to a message comes
    from the validator (or is the fallback without MX list), so the DNS line
    of a notification, when there is one, always carries the [ok] badge and a
    positive count: the [warn] badge is never shown. *)
Theorem validator_reports_never_warn
    (dns_validator : option (Dns.resolver * option string))
    (domain now_iso : string)
    (counter : nat) (msg_id : string) (email_msg : email_message) (md : metadata)
    (lines : list string)
    (Hlines : notification_lines counter msg_id email_msg
                (set_dns_report (_validate_recipient_dns dns_validator domain now_iso) md)
              = Ok lines) :
  lines !! 8%nat = Some "" ∨
  ∃ n, (0 < n)%nat ∧
       lines !! 8%nat = Some ("**DNS:** " +:+ badge_ok +:+ " " +:+ pretty n +:+ " MX записей").
Proof.
  unfold notification_lines in Hlines.
  destruct (_extract_body_preview email_msg) as [preview|e]; [|done].
  cbn [rbind] in Hlines.
  unfold report_mx_records, report_has_mx in Hlines. cbn [dns_report set_dns_report] in Hlines.
  unfold _validate_recipient_dns in Hlines.
  destruct dns_validator as [[R cfg]|].
  - destruct (Dns.validate_domain_mx R cfg now_iso (Some domain)) as [rep|] eqn:Hrep.
    + pose proof (DnsReport.has_mx_reflects_mx_records R cfg now_iso (Some domain) rep Hrep)
        as Hhas.
      destruct (Dns.mx_records rep) as [|m ms] eqn:Hmx.
      * left. destruct (PyStr.truthy preview); by inversion Hlines.
      * right. exists (length (m :: ms)). split; [simpl; lia|].
        assert (Dns.has_mx rep = true) as Htrue by (by apply Hhas).
        rewrite Htrue in Hlines. unfold dns_line in Hlines.
        destruct (PyStr.truthy preview); by inversion Hlines.
    + left. destruct (PyStr.truthy preview); by inversion Hlines.
  - left. destruct (PyStr.truthy preview); by inversion Hlines.
Qed.

Definition validated_lines : list string :=
  Eval vm_compute in
    match notification_lines 1 "msg_1" plain_mail
            (set_dns_report
               (_validate_recipient_dns (Some (DnsReport.two_mx_resolver, None))
                                        "example.com" "2024-01-01T00:00:00")
               (sample_md "example.com" None)) with
    | Ok lines => lines
    | Raise _ => []
    end.

Lemma validator_reports_never_warn_witness :
  validated_lines !! 8%nat = Some "" ∨
  ∃ n, (0 < n)%nat ∧
       validated_lines !! 8%nat =
         Some ("**DNS:** " +:+ badge_ok +:+ " " +:+ pretty n +:+ " MX записей").
Proof.
  apply (validator_reports_never_warn (Some (DnsReport.two_mx_resolver, None))
           "example.com" "2024-01-01T00:00:00" 1 "msg_1" plain_mail
           (sample_md "example.com" None) validated_lines).
  reflexivity.
Defined.

End Delivery.

(** ** More on [services/telegram_handler.py]: commands and what they leave *)
Module Administration.

Import Smtp Telegram.

(** Both identifiers of the default recipients, when set, read as integers. *)
Definition ids_are_integers (r : recipients) : Prop :=
  (∀ id, channel r = Some id → ∃ n, PyText.int id = Ok n) ∧
  (∀ id, group r = Some id → ∃ n, PyText.int id = Ok n).

(** [status_command]: the label of the active recipient, the first entry
    of [default_recipients] that is set, in the order of its keys. *)
Definition status_active_target (r : recipients) : option string :=
  head (omap (fun kv : string * option string =>
                if PyStr.truthy_opt kv.2
                then Some (kv.1 +:+ ": " +:+ default "" kv.2)
                else None)
             [("me", me r); ("channel", channel r); ("group", group r)]).

(** [str.isdigit] on ASCII text: at least one character, all of them
    decimal digits. *)
Fixpoint all_digits (s : string) : bool :=
  match s with
  | EmptyString => true
  | String a s' => bool_decide (is_Some (PyText.digit_val a)) && all_digits s'
  end.

Definition isdigit (s : string) : bool := PyStr.truthy s && all_digits s.

(** [search_emails_command]: the arguments passed to [search_emails] for
    the command name [command] ([message.command[0]]) and the message text. *)
Definition search_request (command : string) (text : string)
  : result (option string * Z) :=
  let args := drop 1 (PyText.split_ws text) in
  if bool_decide (command = "search") then Ok (head args, 20%Z)
  else
    match args with
    | arg0 :: _ =>
        if isdigit arg0 then rmap (fun limit => (None, limit)) (PyText.int arg0)
        else Ok (None, 10%Z)
    | [] => Ok (None, 10%Z)
    end.

(** The records listed in the reply: [emails[:15]] of the search result;
    an exception is answered with an error message and lists nothing. *)
Definition search_emails_command {P} (parse_message : string → result P)
    (st : Redis.server) (now : Z) (command text : string) : list Redis.retrieved :=
  match search_request command text with
  | Ok (domain, limit) =>
      match Redis.search_emails parse_message st now domain limit 0 with
      | Ok emails => take 15 emails
      | Raise _ => []
      end
  | Raise _ => []
  end.

(** *** One command *)

Lemma step_keeps_integers c s :
  ids_are_integers (default_recipients s) →
  ids_are_integers (default_recipients (step s c)).
Proof.
  intros Hs. rewrite step_answered.
  unfold step, set_target_command, try_catch, mbind, M_bind, lift, modify,
    reply, raise, mret, M_ret; simpl.
  destruct (text c) as [t|]; [|done].
  destruct (drop 1 (PyText.split_ws t)) as [|arg0 rest]; [done|].
  destruct (bool_decide (PyStr.lower arg0 = "me")).
  { simpl. split; intros id; done. }
  destruct (bool_decide (PyStr.lower arg0 = "channel")) eqn:Hch; simpl.
  { destruct rest as [|target_id rest]; [done|].
    destruct (PyText.int target_id) as [n|e] eqn:Hint; [|done].
    destruct (get_chat c n) as [title|e]; [|done]. simpl.
    unfold recipients_update. rewrite Hch. simpl.
    split; intros id [= <-]. eauto. }
  destruct (bool_decide (PyStr.lower arg0 = "group")) eqn:Hgr; simpl.
  { destruct rest as [|target_id rest]; [done|].
    destruct (PyText.int target_id) as [n|e] eqn:Hint; [|done].
    destruct (get_chat c n) as [title|e]; [|done]. simpl.
    unfold recipients_update. rewrite Hch. simpl.
    split; intros id [= <-]. eauto. }
  destruct (bool_decide (PyStr.lower arg0 = "custom")); [|done].
  destruct rest as [|arg1 rest]; [done|].
  unfold PyText.split_once. by destruct (PyStr.contains "=" arg1).
Qed.

(** The first entry is either unset or the literal [self]. *)
Definition me_is_self (r : recipients) : Prop := me r = None ∨ me r = Some "self".

Lemma run_me_is_self cmds s :
  me_is_self (default_recipients s) → me_is_self (default_recipients (run cmds s)).
Proof.
  revert s. induction cmds as [|c cmds IH]; intros s Hs; [done|].
  simpl. apply IH.
  destruct (writes_or_silent c) as [Hc|(t & Hc & _)]; rewrite Hc; [done|].
  destruct t; [by right|by left..].
Qed.

Lemma run_keeps_integers cmds s :
  ids_are_integers (default_recipients s) →
  ids_are_integers (default_recipients (run cmds s)).
Proof.
  revert s. induction cmds as [|c cmds IH]; intros s Hs; [done|].
  simpl. by apply IH, step_keeps_integers.
Qed.

(** A command touches nothing but the default recipients and the mapping. *)
Lemma step_frame c s :
  storage (step s c) = storage s ∧ sent (step s c) = sent s ∧
  message_counter (step s c) = message_counter s ∧
  provisioned (step s c) = provisioned s.
Proof.
  rewrite step_answered.
  unfold step, set_target_command, try_catch, mbind, M_bind, lift, modify,
    reply, raise, mret, M_ret; simpl.
  destruct (text c) as [t|]; [|done].
  destruct (drop 1 (PyText.split_ws t)) as [|arg0 rest]; [done|].
  destruct (bool_decide (PyStr.lower arg0 = "me")); [done|].
  destruct (bool_decide (PyStr.lower arg0 = "channel") ||
            bool_decide (PyStr.lower arg0 = "group")).
  { destruct rest as [|target_id rest]; [done|].
    destruct (PyText.int target_id) as [n|e]; [|done].
    by destruct (get_chat c n). }
  destruct (bool_decide (PyStr.lower arg0 = "custom")); [|done].
  destruct rest as [|arg1 rest]; [done|].
  unfold PyText.split_once. by destruct (PyStr.contains "=" arg1).
Qed.

Lemma step_mapping c s :
  target_mapping (step s c) = target_mapping s ∨
  is_custom c ∧ ∃ domain chat_id,
    target_mapping (step s c) = <[domain := chat_id]> (target_mapping s).
Proof.
  rewrite step_answered.
  unfold is_custom, step, set_target_command, try_catch, mbind, M_bind, lift, modify,
    reply, raise, mret, M_ret; simpl.
  destruct (text c) as [t|]; [|by left].
  destruct (PyText.split_ws t) as [|name args] eqn:Hargs; [by left|]. simpl.
  rewrite drop_0.
  destruct args as [|arg0 rest]; [by left|].
  destruct (bool_decide (PyStr.lower arg0 = "me")); [by left|].
  destruct (bool_decide (PyStr.lower arg0 = "channel") ||
            bool_decide (PyStr.lower arg0 = "group")).
  { destruct rest as [|target_id rest]; [by left|].
    destruct (PyText.int target_id) as [n|e]; [|by left].
    destruct (get_chat c n); by left. }
  case_bool_decide as Hcustom; [|by left].
  destruct rest as [|arg1 rest]; [by left|].
  unfold PyText.split_once. destruct (PyStr.contains "=" arg1); [|by left].
  right. split; [by exists t, name, arg0, (arg1 :: rest)|]. simpl. eauto.
Qed.

(** *** Text of the list command *)

Lemma digit_is_not_space a : is_Some (PyText.digit_val a) → PyStr.is_space a = false.
Proof. destruct a as [[] [] [] [] [] [] [] []]; intros [d Hd]; done. Qed.

Lemma lstrip_digits s : all_digits s = true → PyStr.lstrip_by PyStr.is_space s = s.
Proof.
  destruct s as [|a s]; simpl; [done|].
  intros [Ha%bool_decide_eq_true _]%andb_true_iff.
  by rewrite digit_is_not_space.
Qed.

Lemma rstrip_digits s : all_digits s = true → PyStr.rstrip_by PyStr.is_space s = s.
Proof.
  induction s as [|a s IH]; simpl; [done|].
  intros [Ha%bool_decide_eq_true Hs]%andb_true_iff.
  rewrite IH by done. destruct s; [|done]. by rewrite digit_is_not_space.
Qed.

Lemma digits_go_all_digits s acc after :
  all_digits s = true → (s ≠ "" ∨ after = true) → (0 ≤ acc)%Z →
  ∃ n, PyText.digits_go s acc after = Some n ∧ (0 ≤ n)%Z.
Proof.
  revert acc after. induction s as [|a s IH]; simpl; intros acc after Hall Hne Hacc.
  - destruct Hne as [?| ->]; [done|]. eauto.
  - apply andb_true_iff in Hall as [[d Hd]%bool_decide_eq_true Hs].
    rewrite Hd. apply IH; [done|by right|].
    unfold PyText.digit_val in Hd.
    destruct ((48 <=? PyStr.code a)%N && (PyStr.code a <=? 57)%N) eqn:Hrange; [|done].
    apply andb_true_iff in Hrange as [H1%N.leb_le H2]. injection Hd as <-. lia.
Qed.

Lemma int_of_digits s :
  isdigit s = true → ∃ n, PyText.int s = Ok n ∧ (0 ≤ n)%Z.
Proof.
  unfold isdigit. intros [Hne Hall]%andb_true_iff.
  unfold PyText.int, PyStr.strip, PyStr.strip_by.
  rewrite lstrip_digits, rstrip_digits by done.
  destruct (digits_go_all_digits s 0 false Hall) as (n & Hn & Hpos);
    [left; by destruct s|done|].
  exists n. split; [|done].
  destruct s as [|a r]; [done|].
  simpl in Hall. apply andb_true_iff in Hall as [[d Hd]%bool_decide_eq_true _].
  destruct a as [[] [] [] [] [] [] [] []]; try done; by rewrite Hn.
Qed.

Lemma split_ws_go_nonempty cur s :
  (∀ w, cur = Some w → w ≠ "") →
  Forall (fun w => w ≠ "") (PyText.split_ws_go cur s).
Proof.
  revert cur. induction s as [|a s IH]; simpl; intros cur Hcur.
  - destruct cur as [w|]; [|done]. constructor; [by apply Hcur|done].
  - destruct (PyStr.is_space a).
    + destruct cur as [w|]; [constructor; [by apply Hcur|]|]; by apply IH.
    + apply IH. intros w [= <-]. by destruct (default "" cur).
Qed.

Lemma split_ws_nonempty s : Forall (fun w => w ≠ "") (PyText.split_ws s).
Proof. by apply split_ws_go_nonempty. Qed.

(** *** Sample session *)

Definition reached : state :=
  run sample_session (sample_state ∅ initial_recipients Redis.empty_server).

(** X21. After any sequence of [/set_target] commands, a message whose
    domain has no mapping entry is routed to a target that can be
    addressed: the identifier is not empty and, for a channel or group,
    reads as an integer, because the command only stores identifiers it
    could convert. *)
Theorem default_route_is_deliverable
    (cmds : list incoming) (s0 : state) (md : metadata)
    (Hinit : default_recipients s0 = initial_recipients)
    (Hunmapped : target_mapping (run cmds s0) !! recipient_domain md = None) :
  (_determine_recipient (run cmds s0) md).2 ≠ "" ∧
  ∃ target,
    Delivery.target_chat (_determine_recipient (run cmds s0) md).1
                         (_determine_recipient (run cmds s0) md).2 = Ok target.
Proof.
  pose proof (run_keeps_integers cmds s0) as [Hc Hg].
  { rewrite Hinit. split; intros id; done. }
  unfold _determine_recipient. rewrite Hunmapped.
  destruct (channel (default_recipients (run cmds s0))) as [id|] eqn:Hch; simpl.
  - destruct (PyStr.truthy id) eqn:Hid.
    + simpl. split; [by destruct id|].
      destruct (Hc id eq_refl) as [n Hn]. unfold Delivery.target_chat. simpl.
      rewrite Hn. eauto.
    + destruct (group (default_recipients (run cmds s0))) as [gid|] eqn:Hgr; simpl.
      * destruct (PyStr.truthy gid) eqn:Hgid; simpl.
        -- split; [by destruct gid|].
           destruct (Hg gid eq_refl) as [n Hn]. unfold Delivery.target_chat. simpl.
           rewrite Hn. eauto.
        -- split; [done|]. by exists SavedMessages.
      * split; [done|]. by exists SavedMessages.
  - destruct (group (default_recipients (run cmds s0))) as [gid|] eqn:Hgr; simpl.
    + destruct (PyStr.truthy gid) eqn:Hgid; simpl.
      * split; [by destruct gid|].
        destruct (Hg gid eq_refl) as [n Hn]. unfold Delivery.target_chat. simpl.
        rewrite Hn. eauto.
      * split; [done|]. by exists SavedMessages.
    + split; [done|]. by exists SavedMessages.
Qed.

Lemma default_route_is_deliverable_witness :
  (_determine_recipient reached (sample_md "y.com" None)).2 ≠ "" ∧
  ∃ target,
    Delivery.target_chat (_determine_recipient reached (sample_md "y.com" None)).1
                         (_determine_recipient reached (sample_md "y.com" None)).2
      = Ok target.
Proof.
  apply (default_route_is_deliverable sample_session
           (sample_state ∅ initial_recipients Redis.empty_server)
           (sample_md "y.com" None)).
  - reflexivity.
  - reflexivity.
Defined.

(** X22. A [custom] command whose argument contains an equals sign binds
    the text before the first equals sign to the text after it, leaves the
    other entries alone, and from then on a message for that domain is
    routed to the bound identifier, whatever the default recipients are. *)
Theorem custom_command_routes_domain
    (c : incoming) (s : state) (t name arg0 arg1 : string) (rest : list string)
    (Htext : text c = Some t)
    (Hargs : PyText.split_ws t = name :: arg0 :: arg1 :: rest)
    (Hcustom : PyStr.lower arg0 = "custom")
    (Hequals : PyStr.contains "=" arg1 = true) :
  target_mapping (step s c) =
    <[PyStr.before_first "=" arg1 := PyStr.after_first "=" arg1]> (target_mapping s) ∧
  ∀ md, recipient_domain md = PyStr.before_first "=" arg1 →
        _determine_recipient (step s c) md = ("custom", PyStr.after_first "=" arg1).
Proof.
  assert (target_mapping (step s c) =
          <[PyStr.before_first "=" arg1 := PyStr.after_first "=" arg1]> (target_mapping s))
    as Hmap.
  { rewrite step_answered.
    unfold step, set_target_command, try_catch, mbind, M_bind, lift, modify,
      reply, raise, mret, M_ret; simpl.
    rewrite Htext, Hargs. simpl. rewrite Hcustom. simpl.
    unfold PyText.split_once. by rewrite Hequals. }
  split; [done|]. intros md Hmd. unfold _determine_recipient.
  by rewrite Hmap, Hmd, lookup_insert_eq.
Qed.

Lemma custom_command_routes_domain_witness :
  target_mapping
    (step (sample_state ∅ (Recipients None (Some "-100111") None) Redis.empty_server)
          (Incoming (Some "/set_target Custom x.com=999") never flooded)) =
    <[PyStr.before_first "=" "x.com=999" := PyStr.after_first "=" "x.com=999"]>
      (target_mapping
         (sample_state ∅ (Recipients None (Some "-100111") None) Redis.empty_server)) ∧
  ∀ md, recipient_domain md = PyStr.before_first "=" "x.com=999" →
        _determine_recipient
          (step (sample_state ∅ (Recipients None (Some "-100111") None) Redis.empty_server)
                (Incoming (Some "/set_target Custom x.com=999") never flooded)) md
        = ("custom", PyStr.after_first "=" "x.com=999").
Proof.
  apply (custom_command_routes_domain
           (Incoming (Some "/set_target Custom x.com=999") never flooded)
           (sample_state ∅ (Recipients None (Some "-100111") None) Redis.empty_server)
           "/set_target Custom x.com=999" "/set_target" "Custom" "x.com=999" []).
  - reflexivity.
  - reflexivity.
  - reflexivity.
  - reflexivity.
Defined.

(** When every reply is delivered the command ends normally, with the
    reply it sent. *)
Lemma set_target_command_answers c s :
  (∀ site t, reply_text c site t = None) →
  ∃ r, set_target_command c s = (Ok r, step s c).
Proof.
  intros Hreply. unfold step, set_target_command, try_catch.
  match goal with |- context [match ?m s with _ => _ end] =>
    destruct (m s) as [[r|e] s'] end; simpl; [eauto|].
  unfold reply. rewrite Hreply. simpl. eauto.
Qed.

(** An exception that leaves the command was raised by the reply of the
    outer handler. *)
Lemma set_target_command_escape c s e :
  (set_target_command c s).1 = Raise e →
  ∃ e0, reply_text c Handler (failure e0) = Some e.
Proof.
  unfold set_target_command, try_catch.
  match goal with |- context [match ?m s with _ => _ end] =>
    destruct (m s) as [[r|e0] s'] end; simpl; [done|].
  unfold reply. destruct (reply_text c Handler (failure e0)) as [e'|] eqn:Hreply; simpl.
  - intros [= <-]. eauto.
  - done.
Qed.

(** With no reply delivered the command raises, after the change. *)
Example reply_failure_leaves_the_handler :
  set_target_command (Incoming (Some "/set_target channel -100111") (always "News") flooded)
                     (sample_state ∅ initial_recipients Redis.empty_server) =
    (Raise (Exn "FloodWait" "A wait of 30 seconds is required"),
     sample_state ∅ (Recipients None (Some "-100111") None) Redis.empty_server).
Proof. reflexivity. Qed.

(** X23. A [/set_target] command ends normally, with the reply it sent,
    when its replies are delivered; an exception leaves it only when the
    reply of the outer handler raises it.  In every case the state it leaves
    has the same storage, sent notifications, message counter and
    provisioning log, and only a [custom] command changes the per-domain
    mapping, by binding one key. *)
Theorem commands_touch_only_configuration (c : incoming) (s : state) :
  ((∀ site t, reply_text c site t = None) →
   ∃ r, set_target_command c s = (Ok r, step s c)) ∧
  (∀ e, (set_target_command c s).1 = Raise e →
        ∃ e0, reply_text c Handler (failure e0) = Some e) ∧
  storage (step s c) = storage s ∧ sent (step s c) = sent s ∧
  message_counter (step s c) = message_counter s ∧
  provisioned (step s c) = provisioned s ∧
  (target_mapping (step s c) = target_mapping s ∨
   is_custom c ∧ ∃ domain chat_id,
     target_mapping (step s c) = <[domain := chat_id]> (target_mapping s)).
Proof.
  split_and!; try apply step_frame.
  - apply set_target_command_answers.
  - apply set_target_command_escape.
  - apply step_mapping.
Qed.

Lemma commands_touch_only_configuration_witness :
  ∃ r,
    set_target_command (Incoming (Some "/set_target group -200") (always "Ops") delivered)
                       (sample_state ∅ initial_recipients Redis.empty_server) =
      (Ok r, sample_state ∅ (Recipients None None (Some "-200")) Redis.empty_server).
Proof.
  apply (proj1 (commands_touch_only_configuration
                  (Incoming (Some "/set_target group -200") (always "Ops") delivered)
                  (sample_state ∅ initial_recipients Redis.empty_server))).
  intros site t. reflexivity.
Defined.

(** X24. After any sequence of [/set_target] commands the active recipient
    shown by the status command is the target to which a message without
    a mapping entry is routed. *)
Theorem status_shows_routing_target
    (cmds : list incoming) (s0 : state) (md : metadata)
    (Hinit : default_recipients s0 = initial_recipients)
    (Hunmapped : target_mapping (run cmds s0) !! recipient_domain md = None) :
  status_active_target (default_recipients (run cmds s0)) =
    Some ((_determine_recipient (run cmds s0) md).1 +:+ ": "
          +:+ (_determine_recipient (run cmds s0) md).2).
Proof.
  pose proof (run_one_active cmds s0) as Hone.
  rewrite Hinit in Hone. specialize (Hone eq_refl).
  pose proof (run_me_is_self cmds s0) as Hme.
  rewrite Hinit in Hme. specialize (Hme (or_intror eq_refl)).
  unfold _determine_recipient. rewrite Hunmapped.
  unfold status_active_target, active_count, me_is_self in *.
  destruct (default_recipients (run cmds s0)) as [m ch gr]. simpl in *.
  destruct (PyStr.truthy_opt m) eqn:Hm, (PyStr.truthy_opt ch) eqn:Hch,
           (PyStr.truthy_opt gr) eqn:Hgr; simpl in *; try lia; try done.
  destruct Hme as [->| ->]; done.
Qed.

Lemma status_shows_routing_target_witness :
  status_active_target (default_recipients reached) =
    Some ((_determine_recipient reached (sample_md "y.com" None)).1 +:+ ": "
          +:+ (_determine_recipient reached (sample_md "y.com" None)).2).
Proof.
  apply (status_shows_routing_target sample_session
           (sample_state ∅ initial_recipients Redis.empty_server)
           (sample_md "y.com" None)).
  - reflexivity.
  - reflexivity.
Defined.

(** X25. The list and search commands always call the search with
    arguments it handles: the limit is never negative (20 for a search, the
    number given to [/list] when it is written in digits, 10 otherwise), the
    domain is never the empty string, and the reply lists at most 15
    records and never more than the limit. *)
Theorem listing_request_is_well_formed {P} (parse_message : string → result P)
    (st : Redis.server) (now : Z) (command text : string) :
  ∃ domain limit,
    search_request command text = Ok (domain, limit) ∧
    (0 ≤ limit)%Z ∧ domain ≠ Some "" ∧
    (length (search_emails_command parse_message st now command text)
       ≤ 15 `min` Z.to_nat limit)%nat.
Proof.
  assert (∀ domain limit,
            search_request command text = Ok (domain, limit) → (0 ≤ limit)%Z →
            (length (search_emails_command parse_message st now command text)
               ≤ 15 `min` Z.to_nat limit)%nat) as Hlisted.
  { intros domain limit Hreq Hlimit. unfold search_emails_command. rewrite Hreq.
    destruct (Retention.search_bounded parse_message st now domain limit 0 Hlimit)
      as (found & -> & Hlen & _).
    rewrite length_take. lia. }
  pose proof (split_ws_nonempty text) as Hwords.
  destruct (search_request command text) as [[domain limit]|e] eqn:Hreq.
  - exists domain, limit.
    assert ((0 ≤ limit)%Z ∧ domain ≠ Some "") as [Hlimit Hdomain].
    { revert Hreq. unfold search_request. case_bool_decide.
      - intros [= <- <-]. split; [done|]. intros Hhead.
        apply head_Some_elem_of in Hhead.
        apply (Forall_drop _ 1) in Hwords.
        rewrite Forall_forall in Hwords. by apply Hwords in Hhead.
      - destruct (drop 1 (PyText.split_ws text)) as [|arg0 ?]; [by intros [= <- <-]|].
        destruct (isdigit arg0) eqn:Hdigit; [|by intros [= <- <-]].
        destruct (int_of_digits arg0 Hdigit) as (n & -> & Hn).
        by intros [= <- <-]. }
    split_and!; [done..|]. by eapply Hlisted.
  - exfalso. revert Hreq. unfold search_request. case_bool_decide; [done|].
    destruct (drop 1 (PyText.split_ws text)) as [|arg0 ?]; [done|].
    destruct (isdigit arg0) eqn:Hdigit; [|done].
    by destruct (int_of_digits arg0 Hdigit) as (n & -> & Hn).
Qed.

End Administration.

(** ** [core/cf_dns_manager.py] *)
Module Cloudflare.

(** The JSON body of a request to create a record. *)
Record record_data := RecordData {
  type : string;
  name : string;
  record_content : string;
  priority : option Z;
  ttl : Z;
  proxied : bool
}.

Inductive request :=
| Post (data : record_data)               (* [client.post(.../dns_records, json=data)] *)
| Get (record_type : option string).      (* [client.get(.../dns_records, params=...)] *)

(** What the manager reads of a response: the status code and, from the
    decoded body (decoding may raise), its [success] and [result] entries. *)
Record body := Body {
  success : option bool;
  result_records : option (list string)
}.

Record response := Response {
  status_code : Z;
  json : result body;
  response_text : string
}.

(** The HTTP client: what it answers to each request, or the exception it
    raises.  The requests made are logged in the state. *)
Definition client := request → result response.

Definition call (http : client) (req : request) : M (list request) response :=
  fun log => (http req, (log ++ [req])%list).

Record mx_result := MxResult {
  server : string;
  mx_priority : Z;
  mx_success : bool
}.

Inductive integration :=
| Integration (telegram_username subdomain : string) (mx_records : list mx_result)
              (txt_record cname_record : option bool) (email_address : string)
| IntegrationError (error : string).

Section Manager.
Variable http : client.
(** [self.domain] *)
Variable domain : string.

Definition record_name (subdomain : string) : string :=
  if PyStr.truthy subdomain then subdomain +:+ "." +:+ domain else domain.

Definition create_mx_record (subdomain : string) (prio : Z) (target : string)
  : M (list request) bool :=
  try_catch
    (response ← call http (Post (RecordData "MX" (record_name subdomain) target
                                            (Some prio) 300 false));
     if bool_decide (status_code response = 200%Z) then
       result ← lift (json response);
       if default false (success result) then mret true else mret false
     else mret false)
    (fun _ => mret false).

(** [status_code == 200 and response.json().get('success')] *)
Definition accepted (response : response) : result (option bool) :=
  if bool_decide (status_code response = 200%Z)
  then rmap success (json response)
  else Ok (Some false).

Definition create_txt_record (subdomain content : string)
  : M (list request) (option bool) :=
  try_catch
    (response ← call http (Post (RecordData "TXT" (record_name subdomain) content
                                            None 300 false));
     lift (accepted response))
    (fun _ => mret (Some false)).

Definition create_cname_record (cname target : string)
  : M (list request) (option bool) :=
  try_catch
    (response ← call http (Post (RecordData "CNAME" cname target None 300 false));
     lift (accepted response))
    (fun _ => mret (Some false)).

Definition get_dns_records (record_type : option string)
  : M (list request) (list string) :=
  try_catch
    (response ← call http (Get (if PyStr.truthy_opt record_type
                                then record_type else None));
     if bool_decide (status_code response = 200%Z) then
       result ← lift (json response);
       if default false (success result)
       then mret (default [] (result_records result))
       else mret []
     else mret [])
    (fun _ => mret []).

(** [for mx in mx_servers: ...] *)
Fixpoint create_mx_records (subdomain : string) (mx_servers : list (Z * string))
  : M (list request) (list mx_result) :=
  match mx_servers with
  | [] => mret []
  | (prio, target) :: rest =>
      ok ← create_mx_record subdomain prio target;
      results ← create_mx_records subdomain rest;
      mret (MxResult target prio ok :: results)
  end.

Definition ensure_tmail_integration (telegram_username : string)
  : M (list request) integration :=
  try_catch
    (_ ← get_dns_records None;
     let subdomain := "telegram." +:+ PyText.replace "@" "" telegram_username in
     let mx_servers := [(10%Z, "mx1." +:+ domain); (20%Z, "mx2." +:+ domain)] in
     mx_results ← create_mx_records subdomain mx_servers;
     txt_success ← create_txt_record subdomain
                     ("telegram-mail-verify=" +:+ telegram_username);
     cname_success ← create_cname_record (telegram_username +:+ ".tmail")
                       (subdomain +:+ "." +:+ domain);
     mret (Integration telegram_username (subdomain +:+ "." +:+ domain) mx_results
                       txt_success cname_success
                       (telegram_username +:+ "@" +:+ domain)))
    (fun e => mret (IntegrationError (exn_msg e))).

End Manager.

(** A request the provider accepts: status 200 and a true [success]. *)
Definition provider_accepts (http : client) (req : request) : bool :=
  match http req with
  | Ok response =>
      bool_decide (status_code response = 200%Z) &&
      match json response with
      | Ok result => default false (success result)
      | Raise _ => false
      end
  | Raise _ => false
  end.

(** The five requests of one integration, in the order they are made. *)
Definition integration_requests (domain telegram_username : string) : list request :=
  let subdomain := "telegram." +:+ PyText.replace "@" "" telegram_username in
  let full := subdomain +:+ "." +:+ domain in
  [ Get None;
    Post (RecordData "MX" full ("mx1." +:+ domain) (Some 10%Z) 300 false);
    Post (RecordData "MX" full ("mx2." +:+ domain) (Some 20%Z) 300 false);
    Post (RecordData "TXT" full ("telegram-mail-verify=" +:+ telegram_username)
                     None 300 false);
    Post (RecordData "CNAME" (telegram_username +:+ ".tmail") full None 300 false) ].

(** A provider that refuses the second MX record and fails on the TXT one. *)
Definition flaky_provider : client := fun req =>
  match req with
  | Post (RecordData "MX" _ _ (Some 20%Z) _ _) =>
      Ok (Response 403 (Ok (Body (Some false) None)) "forbidden")
  | Post (RecordData "TXT" _ _ _ _ _) => Raise (Exn "ConnectTimeout" "timed out")
  | _ => Ok (Response 200 (Ok (Body (Some true) (Some []))) "ok")
  end.

(** The flag kept for a TXT or CNAME record. *)
Definition record_flag (http : client) (req : request) : option bool :=
  match http req with
  | Ok response =>
      match accepted response with
      | Ok flag => flag
      | Raise _ => Some false
      end
  | Raise _ => Some false
  end.

Lemma record_flag_accepts http req :
  default false (record_flag http req) = provider_accepts http req.
Proof.
  unfold record_flag, provider_accepts, accepted.
  destruct (http req) as [response|]; [|done].
  case_bool_decide; [|done]. simpl.
  by destruct (json response).
Qed.

Section Runs.
Variable http : client.
Variable domain : string.

Lemma create_mx_record_run subdomain prio target log :
  create_mx_record http domain subdomain prio target log =
    (Ok (provider_accepts http
           (Post (RecordData "MX" (record_name domain subdomain) target
                             (Some prio) 300 false))),
     (log ++ [Post (RecordData "MX" (record_name domain subdomain) target
                               (Some prio) 300 false)])%list).
Proof.
  unfold create_mx_record, try_catch, mbind, M_bind, call, lift, mret, M_ret,
    provider_accepts.
  destruct (http _) as [response|]; [|done].
  case_bool_decide; [|done]. simpl.
  destruct (json response) as [result|]; [|done].
  by destruct (default false (success result)).
Qed.

Lemma create_txt_record_run subdomain content log :
  create_txt_record http domain subdomain content log =
    (Ok (record_flag http
           (Post (RecordData "TXT" (record_name domain subdomain) content
                             None 300 false))),
     (log ++ [Post (RecordData "TXT" (record_name domain subdomain) content
                               None 300 false)])%list).
Proof.
  unfold create_txt_record, try_catch, mbind, M_bind, call, lift, mret, M_ret,
    record_flag.
  destruct (http _) as [response|]; [|done].
  by destruct (accepted response).
Qed.

Lemma create_cname_record_run cname target log :
  create_cname_record http cname target log =
    (Ok (record_flag http (Post (RecordData "CNAME" cname target None 300 false))),
     (log ++ [Post (RecordData "CNAME" cname target None 300 false)])%list).
Proof.
  unfold create_cname_record, try_catch, mbind, M_bind, call, lift, mret, M_ret,
    record_flag.
  destruct (http _) as [response|]; [|done].
  by destruct (accepted response).
Qed.

Lemma get_dns_records_run log :
  ∃ records, get_dns_records http None log = (Ok records, (log ++ [Get None])%list).
Proof.
  unfold get_dns_records, try_catch, mbind, M_bind, call, lift, mret, M_ret. simpl.
  destruct (http (Get None)) as [response|]; [|eauto].
  case_bool_decide; [|eauto]. simpl.
  destruct (json response) as [result|]; [|eauto].
  destruct (default false (success result)); eauto.
Qed.

End Runs.

(** X26. Whatever the provider answers or raises on each request, the
    integration makes the same five requests in the same order (the list of
    records, two MX records at priorities 10 and 20, one TXT and one CNAME
    record), never returns the error result, and reports for each record
    whether the provider accepted it (status 200 with a true [success]). *)
Theorem integration_attempts_every_record
    (http : client) (domain telegram_username : string) (log : list request) :
  let subdomain := "telegram." +:+ PyText.replace "@" "" telegram_username in
  let full := subdomain +:+ "." +:+ domain in
  ∃ txt cname,
    ensure_tmail_integration http domain telegram_username log =
      (Ok (Integration telegram_username full
             [ MxResult ("mx1." +:+ domain) 10
                 (provider_accepts http
                    (Post (RecordData "MX" full ("mx1." +:+ domain) (Some 10%Z) 300 false)));
               MxResult ("mx2." +:+ domain) 20
                 (provider_accepts http
                    (Post (RecordData "MX" full ("mx2." +:+ domain) (Some 20%Z) 300 false))) ]
             txt cname (telegram_username +:+ "@" +:+ domain)),
       (log ++ integration_requests domain telegram_username)%list) ∧
    default false txt =
      provider_accepts http
        (Post (RecordData "TXT" full ("telegram-mail-verify=" +:+ telegram_username)
                          None 300 false)) ∧
    default false cname =
      provider_accepts http
        (Post (RecordData "CNAME" (telegram_username +:+ ".tmail") full None 300 false)).
Proof.
  intros subdomain full.
  assert (record_name domain subdomain = full) as Hname by done.
  eexists _, _. split; [|split; apply record_flag_accepts].
  unfold ensure_tmail_integration, try_catch.
  unfold mbind at 1, M_bind at 1.
  destruct (get_dns_records_run http log) as [records ->].
  fold subdomain. simpl create_mx_records.
  unfold mbind, M_bind, mret, M_ret.
  rewrite !create_mx_record_run, create_txt_record_run, create_cname_record_run.
  rewrite Hname. unfold integration_requests. fold subdomain. fold full.
  by rewrite <- !app_assoc.
Qed.

Example integration_with_flaky_provider :
  ensure_tmail_integration flaky_provider "example.com" "@bob" [] =
    (Ok (Integration "@bob" "telegram.bob.example.com"
           [MxResult "mx1.example.com" 10 true; MxResult "mx2.example.com" 20 false]
           (Some false) (Some true) "@bob@example.com"),
     integration_requests "example.com" "@bob").
Proof. vm_compute. reflexivity. Qed.

End Cloudflare.

(** ** [main.py]: [TelegramMailBridge.shutdown] *)
Module Lifecycle.

(** The flag of the application and which of its components exist; [closed]
    lists, in order, the components whose stop or close call has returned. *)
Record app := App {
  is_running : bool;
  smtp_controller : bool;
  tg_client : bool;
  cf_manager : bool;
  redis_storage : bool;
  closed : list string
}.

Definition set_is_running v (a : app) : app :=
  App v (smtp_controller a) (tg_client a) (cf_manager a) (redis_storage a) (closed a).

(** A stop or close call on a component: [fails] tells which of them raise. *)
Definition close (fails : string → option exn) (component : string) : M app unit :=
  fun a =>
    match fails component with
    | Some e => (Raise e, a)
    | None =>
        (Ok tt, App (is_running a) (smtp_controller a) (tg_client a) (cf_manager a)
                    (redis_storage a) (closed a ++ [component])%list)
    end.

Definition when (present : bool) (m : M app unit) : M app unit :=
  if present then m else mret tt.

Definition shutdown (fails : string → option exn) : M app unit :=
  a ← get;
  if negb (is_running a) then mret tt
  else
    modify (set_is_running false);;
    when (smtp_controller a) (close fails "smtp_controller");;
    when (tg_client a) (close fails "tg_client");;
    when (cf_manager a) (close fails "cf_manager");;
    when (redis_storage a) (close fails "redis_storage").

Definition running_app : app := App true true true true true [].

Definition telegram_fails : string → option exn := fun component =>
  if bool_decide (component = "tg_client")
  then Some (Exn "ConnectionError" "already disconnected") else None.

Definition nothing_fails : string → option exn := fun _ => None.

Lemma close_keeps_flag fails component a :
  is_running (close fails component a).2 = is_running a.
Proof. unfold close. by destruct (fails component). Qed.

Lemma shutdown_clears_flag fails a : is_running (shutdown fails a).2 = false.
Proof.
  unfold shutdown, mbind, M_bind, get, modify, when, close, mret, M_ret.
  destruct a as [[] c1 c2 c3 c4 log]; simpl; [|done].
  destruct c1, c2, c3, c4; simpl;
    repeat (match goal with |- context [fails ?c] => destruct (fails c) end; simpl);
    done.
Qed.

(** X27. A shutdown always leaves the application flagged as stopped, also
    when closing a component raised and the later components were left
    open; a second shutdown is then a no-op, so no component is ever closed
    twice and none that was skipped is closed later. *)
Theorem shutdown_runs_once (fails fails' : string → option exn) (a : app) :
  is_running (shutdown fails a).2 = false ∧
  shutdown fails' (shutdown fails a).2 = (Ok tt, (shutdown fails a).2).
Proof.
  pose proof (shutdown_clears_flag fails a) as Hflag.
  split; [done|].
  unfold shutdown at 1, mbind, M_bind, get. by rewrite Hflag.
Qed.

Example shutdown_interrupted :
  shutdown telegram_fails running_app =
    (Raise (Exn "ConnectionError" "already disconnected"),
     App false true true true true ["smtp_controller"]) ∧
  shutdown nothing_fails (shutdown telegram_fails running_app).2 =
    (Ok tt, App false true true true true ["smtp_controller"]).
Proof. split; reflexivity. Qed.

End Lifecycle.
